(** * Orchestration core of the ROV control computer: a shallow embedding

    The development follows the C++ sources class by class:
    - [Cxx]: the pieces of the C++ standard library the classes call
      ([std::clamp], [std::to_string(double)], [int] arithmetic);
    - [PressureSensor], [TemperatureSensor], [IMUSensor], [ISensor]
      (sensors.hpp, base.hpp);
    - [MotorController], [HydraulicValve], [IActuator] (actuators.hpp);
    - [SerialInterface], [ModbusInterface], [TelemetryUplink],
      [ICommunicationInterface] (comms.hpp);
    - [SafetyMonitor] (safety.hpp);
    - [ECU], [ECUManager] (ecu.hpp, ecu_mangr.hpp);
    - [TM_ControlSystem] (controlSystem.hpp): one iteration of the control
      loop and the telemetry snapshot.

    A C++ [double] is a binary64 float of the kernel ([PrimFloat.float]), so
    comparisons, sums and quotients round exactly as the compiled program's
    do.  Objects held through [std::shared_ptr] live in a store (a list, or
    the manager's map) and are referred to by their position or key, so a
    write through one reference is seen through every other. *)

From Stdlib Require Import ZArith Floats Uint63 String Ascii List Bool Lia DecimalString.
From stdpp Require Import gmap strings list fin_maps sorting.

Set Warnings "-inexact-float".

Local Open Scope Z_scope.

(* ===================================================================== *)
(** ** The C++ standard library, as far as the classes use it            *)
(* ===================================================================== *)

Module Cxx.

(** [std::clamp(v, lo, hi)]: [lo] when [v < lo], else [hi] when [hi < v],
    else [v] (so a NaN [v] is returned as it is). *)
Definition clamp (v lo hi : float) : float :=
  if PrimFloat.ltb v lo then lo
  else if PrimFloat.ltb hi v then hi
  else v.

(** [int] is 32 bits wide on the target; arithmetic is taken modulo 2^32
    into the signed range. *)
Definition INT_MAX : Z := 2147483647.
Definition wrap_int (z : Z) : Z := (z + 2 ^ 31) mod 2 ^ 32 - 2 ^ 31.

(** Conversion of a container size to [double]. *)
Definition double_of_size (n : nat) : float :=
  PrimFloat.of_uint63 (Uint63.of_Z (Z.of_nat n)).

(** [std::accumulate(first, last, 0.0)]: a left fold of [+] from [0.0]. *)
Definition accumulate (l : list float) : float :=
  fold_left PrimFloat.add l 0%float.

(** Rounding of the positive rational [num / den] to the nearest integer,
    ties to even. *)
Definition round_half_even (num den : Z) : Z :=
  let q := num / den in
  let r := num mod den in
  if 2 * r <? den then q
  else if den <? 2 * r then q + 1
  else if Z.even q then q else q + 1.

Definition decimal (n : Z) : string := NilZero.string_of_uint (N.to_uint (Z.to_N n)).

Fixpoint zeros (n : nat) : string :=
  match n with
  | O => EmptyString
  | S k => String "0" (zeros k)
  end.

(** [scaled] is the magnitude in millionths. *)
Definition fixed6 (negative : bool) (scaled : Z) : string :=
  let frac := decimal (scaled mod 1000000) in
  (if negative then "-" else "")
    +:+ decimal (scaled / 1000000) +:+ "."
    +:+ zeros (6 - String.length frac) +:+ frac.

(** [std::to_string(double)], which prints as [printf("%f")] does: six
    digits after the point, the exact binary value rounded to nearest. *)
Definition to_string (x : float) : string :=
  match Prim2SF x with
  | S754_zero s => fixed6 s 0
  | S754_infinity s => if s then "-inf" else "inf"
  | S754_nan => "nan"
  | S754_finite s m e =>
      if 0 <=? e
      then fixed6 s (Z.pos m * 2 ^ e * 1000000)
      else fixed6 s (round_half_even (Z.pos m * 1000000) (2 ^ (- e)))
  end.

(** An [int] written to a stream. *)
Definition int_to_string (z : Z) : string :=
  if z <? 0 then "-" +:+ decimal (- z) else decimal z.

End Cxx.

(* ===================================================================== *)
(** ** Sensors (sensors.hpp)                                             *)
(* ===================================================================== *)

Module PressureSensor.

Definition BUFFER_SIZE : nat := 10.

Record t := mk {
  name_ : string;
  currentValue_ : float;
  calibrationOffset_ : float;
  healthy_ : bool;
  historyBuffer_ : list float   (* std::deque<double>, front first *)
}.

Definition new (name : string) : t :=
  mk name 0%float 0%float false [].

Definition initialize (s : t) : bool * t :=
  (true, mk (name_ s) (currentValue_ s) (calibrationOffset_ s) true (historyBuffer_ s)).

(** The hardware read is a placeholder: nothing changes. *)
Definition update (s : t) : bool * t := (healthy_ s, s).

Definition shutdown (s : t) : bool * t :=
  (true, mk (name_ s) (currentValue_ s) (calibrationOffset_ s) false (historyBuffer_ s)).

(** The sample pushed by one call of [readValue]. *)
Definition sample (s : t) : float :=
  (currentValue_ s + calibrationOffset_ s)%float.

(** The buffer after one call: [pop_front] when it already holds
    [BUFFER_SIZE] entries or more, then [push_back] of the sample. *)
Definition pushed (s : t) : list float :=
  (if (BUFFER_SIZE <=? length (historyBuffer_ s))%nat
   then tail (historyBuffer_ s)
   else historyBuffer_ s) ++ [sample s].

(** Moving average over the buffer. *)
Definition mean (h : list float) : float :=
  (Cxx.accumulate h / Cxx.double_of_size (length h))%float.

Definition readValue (s : t) : float * t :=
  let h := pushed s in
  (mean h, mk (name_ s) (currentValue_ s) (calibrationOffset_ s) (healthy_ s) h).

Definition calibrate (s : t) : bool * t :=
  (true, mk (name_ s) (currentValue_ s) (- currentValue_ s)%float (healthy_ s)
            (historyBuffer_ s)).

Definition isHealthy (s : t) : bool := healthy_ s.
Definition getUnits (s : t) : string := "PSI".
Definition getComponentName (s : t) : string := name_ s.

(** [n] calls of [readValue] in a row, the results in call order. *)
Fixpoint readValues (n : nat) (s : t) : list float * t :=
  match n with
  | O => ([], s)
  | S k => let '(v, s1) := readValue s in
           let '(vs, s2) := readValues k s1 in
           (v :: vs, s2)
  end.

End PressureSensor.

Module TemperatureSensor.

Record t := mk {
  name_ : string;
  currentValue_ : float;
  healthy_ : bool
}.

Definition new (name : string) : t := mk name 0%float false.
Definition initialize (s : t) : bool * t := (true, mk (name_ s) (currentValue_ s) true).
Definition update (s : t) : bool * t := (healthy_ s, s).
Definition shutdown (s : t) : bool * t := (true, mk (name_ s) (currentValue_ s) false).
Definition readValue (s : t) : float * t := (currentValue_ s, s).
Definition isHealthy (s : t) : bool := healthy_ s.
Definition getUnits (s : t) : string := "Â°C".
Definition getComponentName (s : t) : string := name_ s.

End TemperatureSensor.

Module IMUSensor.

Record IMUData := mkData {
  roll : float; pitch : float; yaw : float;
  accelX : float; accelY : float; accelZ : float
}.

Record t := mk {
  name_ : string;
  data_ : IMUData;
  healthy_ : bool
}.

Definition new (name : string) : t :=
  mk name (mkData 0 0 0 0 0 0) false.
Definition initialize (s : t) : bool * t := (true, mk (name_ s) (data_ s) true).
Definition update (s : t) : bool * t := (healthy_ s, s).
Definition shutdown (s : t) : bool * t := (true, mk (name_ s) (data_ s) false).
Definition readValue (s : t) : float * t := (yaw (data_ s), s).
Definition isHealthy (s : t) : bool := healthy_ s.
Definition getUnits (s : t) : string := "degrees".
Definition getComponentName (s : t) : string := name_ s.
Definition getData (s : t) : IMUData := data_ s.

End IMUSensor.

(** The [ISensor] interface with its three implementations; a virtual call
    dispatches on the constructor. *)
Module ISensor.

Inductive t :=
| Pressure (s : PressureSensor.t)
| Temperature (s : TemperatureSensor.t)
| IMU (s : IMUSensor.t).

Definition update (s : t) : bool * t :=
  match s with
  | Pressure p => let '(b, p') := PressureSensor.update p in (b, Pressure p')
  | Temperature p => let '(b, p') := TemperatureSensor.update p in (b, Temperature p')
  | IMU p => let '(b, p') := IMUSensor.update p in (b, IMU p')
  end.

Definition readValue (s : t) : float * t :=
  match s with
  | Pressure p => let '(v, p') := PressureSensor.readValue p in (v, Pressure p')
  | Temperature p => let '(v, p') := TemperatureSensor.readValue p in (v, Temperature p')
  | IMU p => let '(v, p') := IMUSensor.readValue p in (v, IMU p')
  end.

Definition initialize (s : t) : bool * t :=
  match s with
  | Pressure p => let '(b, p') := PressureSensor.initialize p in (b, Pressure p')
  | Temperature p => let '(b, p') := TemperatureSensor.initialize p in (b, Temperature p')
  | IMU p => let '(b, p') := IMUSensor.initialize p in (b, IMU p')
  end.

Definition isHealthy (s : t) : bool :=
  match s with
  | Pressure p => PressureSensor.isHealthy p
  | Temperature p => TemperatureSensor.isHealthy p
  | IMU p => IMUSensor.isHealthy p
  end.

Definition getUnits (s : t) : string :=
  match s with
  | Pressure p => PressureSensor.getUnits p
  | Temperature p => TemperatureSensor.getUnits p
  | IMU p => IMUSensor.getUnits p
  end.

Definition getComponentName (s : t) : string :=
  match s with
  | Pressure p => PressureSensor.getComponentName p
  | Temperature p => TemperatureSensor.getComponentName p
  | IMU p => IMUSensor.getComponentName p
  end.

Definition shutdown (s : t) : bool * t :=
  match s with
  | Pressure p => let '(b, p') := PressureSensor.shutdown p in (b, Pressure p')
  | Temperature p => let '(b, p') := TemperatureSensor.shutdown p in (b, Temperature p')
  | IMU p => let '(b, p') := IMUSensor.shutdown p in (b, IMU p')
  end.

(** [dynamic_cast<IMUSensor*>]. *)
Definition asIMU (s : t) : option IMUSensor.t :=
  match s with
  | IMU p => Some p
  | _ => None
  end.

End ISensor.

(* ===================================================================== *)
(** ** Actuators (actuators.hpp)                                         *)
(* ===================================================================== *)

Module MotorController.

Record t := mk {
  name_ : string;
  commandValue_ : float;
  feedbackValue_ : float;
  minLimit_ : float;
  maxLimit_ : float;
  interlockActive_ : bool;
  enabled_ : bool
}.

Definition new (name : string) (minLim maxLim : float) : t :=
  mk name 0%float 0%float minLim maxLim false false.

(** [ThrusterMotor(name)]: -100% to +100%. *)
Definition ThrusterMotor (name : string) : t := new name (-100)%float 100%float.

Definition with_command (a : t) (c : float) : t :=
  mk (name_ a) c (feedbackValue_ a) (minLimit_ a) (maxLimit_ a)
     (interlockActive_ a) (enabled_ a).

Definition initialize (a : t) : bool * t :=
  (true, mk (name_ a) 0%float (feedbackValue_ a) (minLimit_ a) (maxLimit_ a)
            (interlockActive_ a) true).

Definition update (a : t) : bool * t :=
  if negb (enabled_ a) || interlockActive_ a
  then (false, with_command a 0%float)
  else (true, a).

Definition shutdown (a : t) : bool * t :=
  (true, mk (name_ a) 0%float (feedbackValue_ a) (minLimit_ a) (maxLimit_ a)
            (interlockActive_ a) false).

Definition setCommand (value : float) (a : t) : bool * t :=
  if negb (enabled_ a) || interlockActive_ a
  then (false, a)
  else (true, with_command a (Cxx.clamp value (minLimit_ a) (maxLimit_ a))).

Definition getCommand (a : t) : float := commandValue_ a.
Definition getFeedback (a : t) : float := feedbackValue_ a.
Definition hasInterlock (a : t) : bool := interlockActive_ a.

Definition setInterlock (active : bool) (a : t) : t :=
  mk (name_ a) (commandValue_ a) (feedbackValue_ a) (minLimit_ a) (maxLimit_ a)
     active (enabled_ a).

Definition getComponentName (a : t) : string := name_ a.

End MotorController.

Module HydraulicValve.

Record t := mk {
  name_ : string;
  position_ : float;          (* 0-100% *)
  targetPosition_ : float;
  interlockActive_ : bool
}.

Definition new (name : string) : t := mk name 0%float 0%float false.

Definition initialize (a : t) : bool * t :=
  (true, mk (name_ a) 0%float (targetPosition_ a) (interlockActive_ a)).

Definition update (a : t) : bool * t :=
  if interlockActive_ a
  then (false, mk (name_ a) (position_ a) 0%float (interlockActive_ a))
  else
    let error := (targetPosition_ a - position_ a)%float in
    (true, mk (name_ a) (position_ a + Cxx.clamp error (-5) 5)%float
              (targetPosition_ a) (interlockActive_ a)).

Definition shutdown (a : t) : bool * t :=
  (true, mk (name_ a) 0%float 0%float (interlockActive_ a)).

Definition setCommand (value : float) (a : t) : bool * t :=
  if interlockActive_ a
  then (false, a)
  else (true, mk (name_ a) (position_ a) (Cxx.clamp value 0 100) (interlockActive_ a)).

Definition getCommand (a : t) : float := targetPosition_ a.
Definition getFeedback (a : t) : float := position_ a.
Definition hasInterlock (a : t) : bool := interlockActive_ a.

Definition setInterlock (active : bool) (a : t) : t :=
  mk (name_ a) (position_ a) (targetPosition_ a) active.

Definition getComponentName (a : t) : string := name_ a.

End HydraulicValve.

(** The [IActuator] interface with its implementations. *)
Module IActuator.

Inductive t :=
| Motor (a : MotorController.t)
| Valve (a : HydraulicValve.t).

Definition initialize (a : t) : bool * t :=
  match a with
  | Motor m => let '(b, m') := MotorController.initialize m in (b, Motor m')
  | Valve v => let '(b, v') := HydraulicValve.initialize v in (b, Valve v')
  end.

Definition update (a : t) : bool * t :=
  match a with
  | Motor m => let '(b, m') := MotorController.update m in (b, Motor m')
  | Valve v => let '(b, v') := HydraulicValve.update v in (b, Valve v')
  end.

Definition shutdown (a : t) : bool * t :=
  match a with
  | Motor m => let '(b, m') := MotorController.shutdown m in (b, Motor m')
  | Valve v => let '(b, v') := HydraulicValve.shutdown v in (b, Valve v')
  end.

Definition setCommand (value : float) (a : t) : bool * t :=
  match a with
  | Motor m => let '(b, m') := MotorController.setCommand value m in (b, Motor m')
  | Valve v => let '(b, v') := HydraulicValve.setCommand value v in (b, Valve v')
  end.

Definition getCommand (a : t) : float :=
  match a with
  | Motor m => MotorController.getCommand m
  | Valve v => HydraulicValve.getCommand v
  end.

Definition getFeedback (a : t) : float :=
  match a with
  | Motor m => MotorController.getFeedback m
  | Valve v => HydraulicValve.getFeedback v
  end.

Definition hasInterlock (a : t) : bool :=
  match a with
  | Motor m => MotorController.hasInterlock m
  | Valve v => HydraulicValve.hasInterlock v
  end.

Definition getComponentName (a : t) : string :=
  match a with
  | Motor m => MotorController.getComponentName m
  | Valve v => HydraulicValve.getComponentName v
  end.

(** The limits [setCommand] clamps to. *)
Definition minLimit (a : t) : float :=
  match a with
  | Motor m => MotorController.minLimit_ m
  | Valve _ => 0%float
  end.

Definition maxLimit (a : t) : float :=
  match a with
  | Motor m => MotorController.maxLimit_ m
  | Valve _ => 100%float
  end.

(** The conditions under which [setCommand] refuses the command. *)
Definition isEnabled (a : t) : bool :=
  match a with
  | Motor m => MotorController.enabled_ m
  | Valve _ => true
  end.

End IActuator.


(* ===================================================================== *)
(** ** Communication links (comms.hpp)                                   *)
(* ===================================================================== *)

Module SerialInterface.

(** The two queues hold packets, front first.  The mutexes guard nothing
    in a single thread of control and are left out. *)
Record t := mk {
  portName_ : string;
  baudRate_ : Z;
  connected_ : bool;
  txQueue_ : list (list Byte.byte);
  rxQueue_ : list (list Byte.byte)
}.

Definition new (port : string) (baud : Z) : t := mk port baud false [] [].

Definition initialize (c : t) : bool * t :=
  (true, mk (portName_ c) (baudRate_ c) true (txQueue_ c) (rxQueue_ c)).

Definition update (c : t) : bool * t := (connected_ c, c).

Definition shutdown (c : t) : bool * t :=
  (true, mk (portName_ c) (baudRate_ c) false (txQueue_ c) (rxQueue_ c)).

Definition send (data : list Byte.byte) (c : t) : bool * t :=
  if negb (connected_ c) then (false, c)
  else (true, mk (portName_ c) (baudRate_ c) (connected_ c)
                 (txQueue_ c ++ [data]) (rxQueue_ c)).

Definition receive (c : t) : list Byte.byte * t :=
  match rxQueue_ c with
  | [] => ([], c)
  | data :: rest =>
      (data, mk (portName_ c) (baudRate_ c) (connected_ c) (txQueue_ c) rest)
  end.

Definition isConnected (c : t) : bool := connected_ c.
Definition getComponentName (c : t) : string := "Serial_" +:+ portName_ c.

End SerialInterface.

Module ModbusInterface.

Record t := mk {
  deviceAddress_ : string;
  connected_ : bool
}.

Definition new (address : string) : t := mk address false.
Definition initialize (c : t) : bool * t := (true, mk (deviceAddress_ c) true).
Definition update (c : t) : bool * t := (connected_ c, c).
Definition shutdown (c : t) : bool * t := (true, mk (deviceAddress_ c) false).
Definition send (data : list Byte.byte) (c : t) : bool * t := (connected_ c, c).
Definition receive (c : t) : list Byte.byte * t := ([], c).
Definition isConnected (c : t) : bool := connected_ c.
Definition getComponentName (c : t) : string := "Modbus_" +:+ deviceAddress_ c.

End ModbusInterface.

Module TelemetryUplink.

Record t := mk {
  surfaceIP_ : string;
  port_ : Z;
  connected_ : bool
}.

Definition new (ip : string) (port : Z) : t := mk ip port false.
Definition initialize (c : t) : bool * t := (true, mk (surfaceIP_ c) (port_ c) true).
Definition update (c : t) : bool * t := (connected_ c, c).
Definition shutdown (c : t) : bool * t := (true, mk (surfaceIP_ c) (port_ c) false).
Definition send (data : list Byte.byte) (c : t) : bool * t := (connected_ c, c).
Definition receive (c : t) : list Byte.byte * t := ([], c).
Definition isConnected (c : t) : bool := connected_ c.
Definition getComponentName (c : t) : string := "TelemetryLink".

End TelemetryUplink.

(** The [ICommunicationInterface] interface with its implementations. *)
Module ICommunicationInterface.

Inductive t :=
| Serial (c : SerialInterface.t)
| Modbus (c : ModbusInterface.t)
| Telemetry (c : TelemetryUplink.t).

Definition initialize (c : t) : bool * t :=
  match c with
  | Serial x => let '(b, x') := SerialInterface.initialize x in (b, Serial x')
  | Modbus x => let '(b, x') := ModbusInterface.initialize x in (b, Modbus x')
  | Telemetry x => let '(b, x') := TelemetryUplink.initialize x in (b, Telemetry x')
  end.

Definition update (c : t) : bool * t :=
  match c with
  | Serial x => let '(b, x') := SerialInterface.update x in (b, Serial x')
  | Modbus x => let '(b, x') := ModbusInterface.update x in (b, Modbus x')
  | Telemetry x => let '(b, x') := TelemetryUplink.update x in (b, Telemetry x')
  end.

Definition shutdown (c : t) : bool * t :=
  match c with
  | Serial x => let '(b, x') := SerialInterface.shutdown x in (b, Serial x')
  | Modbus x => let '(b, x') := ModbusInterface.shutdown x in (b, Modbus x')
  | Telemetry x => let '(b, x') := TelemetryUplink.shutdown x in (b, Telemetry x')
  end.

Definition send (data : list Byte.byte) (c : t) : bool * t :=
  match c with
  | Serial x => let '(b, x') := SerialInterface.send data x in (b, Serial x')
  | Modbus x => let '(b, x') := ModbusInterface.send data x in (b, Modbus x')
  | Telemetry x => let '(b, x') := TelemetryUplink.send data x in (b, Telemetry x')
  end.

Definition receive (c : t) : list Byte.byte * t :=
  match c with
  | Serial x => let '(d, x') := SerialInterface.receive x in (d, Serial x')
  | Modbus x => let '(d, x') := ModbusInterface.receive x in (d, Modbus x')
  | Telemetry x => let '(d, x') := TelemetryUplink.receive x in (d, Telemetry x')
  end.

Definition isConnected (c : t) : bool :=
  match c with
  | Serial x => SerialInterface.isConnected x
  | Modbus x => ModbusInterface.isConnected x
  | Telemetry x => TelemetryUplink.isConnected x
  end.

(** The packets queued for transmission (a serial link only). *)
Definition pending (c : t) : list (list Byte.byte) :=
  match c with
  | Serial x => SerialInterface.txQueue_ x
  | _ => []
  end.

End ICommunicationInterface.

(* ===================================================================== *)
(** ** Safety monitor (safety.hpp)                                       *)
(* ===================================================================== *)

Module SafetyMonitor.

(** [std::function<double()>] bound to the sensors it captured: a call may
    change them (a [PressureSensor] records every read) and either returns
    a value or is left by an exception ([None]). *)
Definition Sampler : Type := list ISensor.t -> option float * list ISensor.t.

(** The closure [[&]() { return sensor->readValue(); }] for the sensor at
    position [i] of the store. *)
Definition readSensor (i : nat) : Sampler :=
  fun sensors =>
    match sensors !! i with
    | Some s => let '(v, s') := ISensor.readValue s in (Some v, <[i := s']> sensors)
    | None => (None, sensors)
    end.

Record SafetyLimit := mkLimit {
  name : string;
  getValue : Sampler;
  minValue : float;
  maxValue : float;
  isActive : bool
}.

Definition set_isActive (b : bool) (l : SafetyLimit) : SafetyLimit :=
  mkLimit (name l) (getValue l) (minValue l) (maxValue l) b.

(** [controlledActuators_] holds references into the actuator store. *)
Record t := mk {
  limits_ : list SafetyLimit;
  controlledActuators_ : list nat;
  systemSafe_ : bool;
  lastViolation_ : string
}.

Definition new : t := mk [] [] true EmptyString.

Definition initialize (m : t) : bool * t :=
  (true, mk (limits_ m) (controlledActuators_ m) true (lastViolation_ m)).

(** The test [value < limit.minValue || value > limit.maxValue]. *)
Definition outOfRange (l : SafetyLimit) (value : float) : bool :=
  PrimFloat.ltb value (minValue l) || PrimFloat.ltb (maxValue l) value.

(** How the loop over [limits_] ends. *)
Inductive LoopExit :=
| Completed
| Break (l : SafetyLimit) (value : float)
| Raised.

(** The loop [for (auto& limit : limits_)]: the limits as the loop leaves
    them, the sensors as the samplers left them, and how it ended. *)
Fixpoint updateLoop (ls : list SafetyLimit) (sensors : list ISensor.t)
  : list SafetyLimit * list ISensor.t * LoopExit :=
  match ls with
  | [] => ([], sensors, Completed)
  | l :: rest =>
      match getValue l sensors with
      | (None, sensors1) => (l :: rest, sensors1, Raised)
      | (Some value, sensors1) =>
          if outOfRange l value
          then (set_isActive true l :: rest, sensors1, Break l value)
          else
            let '(rest', sensors2, e) := updateLoop rest sensors1 in
            (set_isActive false l :: rest', sensors2, e)
      end
  end.

(** [actuator->setCommand(value)] through the reference [h]. *)
Definition command (value : float) (actuators : list IActuator.t) (h : nat)
  : list IActuator.t :=
  match actuators !! h with
  | Some a => <[h := (IActuator.setCommand value a).2]> actuators
  | None => actuators
  end.

(** [for (auto& actuator : controlledActuators_) actuator->setCommand(value)]. *)
Definition commandAll (value : float) (handles : list nat) (actuators : list IActuator.t)
  : list IActuator.t :=
  fold_left (command value) handles actuators.

(** What one call leaves behind.  [result = None]: the call was left by an
    exception of a sampler. *)
Record Outcome := mkOutcome {
  result : option bool;
  monitor : t;
  sensors : list ISensor.t;
  actuators : list IActuator.t
}.

Definition update (m : t) (sensors0 : list ISensor.t) (actuators0 : list IActuator.t)
  : Outcome :=
  (* systemSafe_ = true; *)
  let '(limits', sensors', e) := updateLoop (limits_ m) sensors0 in
  match e with
  | Completed =>
      mkOutcome (Some true)
        (mk limits' (controlledActuators_ m) true (lastViolation_ m))
        sensors' actuators0
  | Break l value =>
      mkOutcome (Some true)
        (mk limits' (controlledActuators_ m) false
            (name l +:+ " out of range: " +:+ Cxx.to_string value))
        sensors' (commandAll 0%float (controlledActuators_ m) actuators0)
  | Raised =>
      mkOutcome None
        (mk limits' (controlledActuators_ m) true (lastViolation_ m))
        sensors' actuators0
  end.

Definition shutdownAll (handles : list nat) (actuators : list IActuator.t)
  : list IActuator.t :=
  fold_left (fun acts h =>
               match acts !! h with
               | Some a => <[h := (IActuator.shutdown a).2]> acts
               | None => acts
               end) handles actuators.

Definition shutdown (m : t) (actuators0 : list IActuator.t) : bool * list IActuator.t :=
  (true, shutdownAll (controlledActuators_ m) actuators0).

Definition addLimit (name0 : string) (getValue0 : Sampler) (minVal maxVal : float) (m : t)
  : t :=
  mk (limits_ m ++ [mkLimit name0 getValue0 minVal maxVal false])
     (controlledActuators_ m) (systemSafe_ m) (lastViolation_ m).

Definition addActuator (h : nat) (m : t) : t :=
  mk (limits_ m) (controlledActuators_ m ++ [h]) (systemSafe_ m) (lastViolation_ m).

Definition isSystemSafe (m : t) : bool := systemSafe_ m.
Definition getLastViolation (m : t) : string := lastViolation_ m.

Definition getStatus (m : t) : string :=
  if systemSafe_ m then "System Safe" else "FAULT: " +:+ lastViolation_ m.

End SafetyMonitor.

(* ===================================================================== *)
(** ** Electronic control units (ecu.hpp)                                *)
(* ===================================================================== *)

Module ECU.

Inductive ECUType :=
| MAIN_CONTROLLER | SENSOR_NODE | ACTUATOR_NODE
| VFD_CONTROLLER | HYDRAULIC_CONTROLLER | CUSTOM.

Inductive ECUStatus := OFFLINE | INITIALIZING | ONLINE | FAULT | DEGRADED.

Definition status_eqb (a b : ECUStatus) : bool :=
  match a, b with
  | OFFLINE, OFFLINE | INITIALIZING, INITIALIZING | ONLINE, ONLINE
  | FAULT, FAULT | DEGRADED, DEGRADED => true
  | _, _ => false
  end.

Record ECULocation := mkLocation {
  compartment : string;
  mounting : string;
  x_position : float;
  y_position : float;
  z_position : float
}.

Record ControlledDevice := mkDevice {
  deviceName : string;
  deviceType : string;
  interface : string;
  channelNumber : Z
}.

Record CommunicationInfo := mkCommInfo {
  protocol : string;
  address : string;
  baudRate : Z;
  modbusAddress : Z;
  updateRateHz : float
}.

(** [std::chrono::system_clock::time_point]: the count of clock periods
    since the epoch; the clock ticks in nanoseconds. *)
Definition time_point : Type := Z.
Definition periods_per_second : Z := 1000000000.

(** [duration_cast<std::chrono::seconds>(d).count()]: whole seconds,
    truncated towards zero. *)
Definition seconds_count (d : Z) : Z := Z.quot d periods_per_second.

Record t := mk {
  ecuID_ : string;
  name_ : string;
  type_ : ECUType;
  status_ : ECUStatus;
  location_ : ECULocation;
  commInfo_ : CommunicationInfo;
  controlledDevices_ : list ControlledDevice;
  lastCommunication_ : time_point;
  cpuUsagePercent_ : float;
  memoryUsagePercent_ : float;
  temperatureCelsius_ : float;
  communicationErrors_ : Z;     (* int *)
  watchdogActive_ : bool
}.

Definition defaultLocation : ECULocation :=
  mkLocation EmptyString EmptyString 0%float 0%float 0%float.
Definition defaultCommInfo : CommunicationInfo :=
  mkCommInfo EmptyString EmptyString 0 0 0%float.

(** The constructor, run when the clock reads [now]. *)
Definition new (now : time_point) (ecuID name : string) (type : ECUType) : t :=
  mk ecuID name type OFFLINE defaultLocation defaultCommInfo [] now
     0%float 0%float 0%float 0 false.

Definition with_status (st : ECUStatus) (errors : Z) (watchdog : bool) (e : t) : t :=
  mk (ecuID_ e) (name_ e) (type_ e) st (location_ e) (commInfo_ e)
     (controlledDevices_ e) (lastCommunication_ e)
     (cpuUsagePercent_ e) (memoryUsagePercent_ e) (temperatureCelsius_ e)
     errors watchdog.

(** Placeholder of the source: always succeeds. *)
Definition establishCommunication (e : t) : bool := true.

Definition initialize (e : t) : bool * t :=
  (* status_ = INITIALIZING; communicationErrors_ = 0; *)
  if establishCommunication e
  then (true, with_status ONLINE 0 true e)
  else (false, with_status FAULT 0 (watchdogActive_ e) e).

Definition updateHealthMetrics (e : t) : t :=
  mk (ecuID_ e) (name_ e) (type_ e) (status_ e) (location_ e) (commInfo_ e)
     (controlledDevices_ e) (lastCommunication_ e)
     25%float 40%float 45%float
     (communicationErrors_ e) (watchdogActive_ e).

(** The watchdog test of [update]. *)
Definition timedOut (now : time_point) (e : t) : bool :=
  (5 <? seconds_count (now - lastCommunication_ e)) && status_eqb (status_ e) ONLINE.

(** [update()], run when the clock reads [now]. *)
Definition update (now : time_point) (e : t) : bool * t :=
  let e1 :=
    if timedOut now e
    then with_status DEGRADED (Cxx.wrap_int (communicationErrors_ e + 1))
           (watchdogActive_ e) e
    else e in
  let e2 := updateHealthMetrics e1 in
  (status_eqb (status_ e2) ONLINE || status_eqb (status_ e2) DEGRADED, e2).

Definition shutdown (e : t) : bool * t :=
  (true, with_status OFFLINE (communicationErrors_ e) false e).

Definition setLocation (l : ECULocation) (e : t) : t :=
  mk (ecuID_ e) (name_ e) (type_ e) (status_ e) l (commInfo_ e)
     (controlledDevices_ e) (lastCommunication_ e)
     (cpuUsagePercent_ e) (memoryUsagePercent_ e) (temperatureCelsius_ e)
     (communicationErrors_ e) (watchdogActive_ e).

Definition setCommunication (c : CommunicationInfo) (e : t) : t :=
  mk (ecuID_ e) (name_ e) (type_ e) (status_ e) (location_ e) c
     (controlledDevices_ e) (lastCommunication_ e)
     (cpuUsagePercent_ e) (memoryUsagePercent_ e) (temperatureCelsius_ e)
     (communicationErrors_ e) (watchdogActive_ e).

Definition addControlledDevice (d : ControlledDevice) (e : t) : t :=
  mk (ecuID_ e) (name_ e) (type_ e) (status_ e) (location_ e) (commInfo_ e)
     (controlledDevices_ e ++ [d]) (lastCommunication_ e)
     (cpuUsagePercent_ e) (memoryUsagePercent_ e) (temperatureCelsius_ e)
     (communicationErrors_ e) (watchdogActive_ e).

(** [updateCommunicationTimestamp()], run when the clock reads [now]. *)
Definition updateCommunicationTimestamp (now : time_point) (e : t) : t :=
  mk (ecuID_ e) (name_ e) (type_ e)
     (if status_eqb (status_ e) DEGRADED then ONLINE else status_ e)
     (location_ e) (commInfo_ e) (controlledDevices_ e) now
     (cpuUsagePercent_ e) (memoryUsagePercent_ e) (temperatureCelsius_ e)
     (communicationErrors_ e) (watchdogActive_ e).

Definition getECUID (e : t) : string := ecuID_ e.
Definition getType (e : t) : ECUType := type_ e.
Definition getECUStatus (e : t) : ECUStatus := status_ e.
Definition getCommunicationErrors (e : t) : Z := communicationErrors_ e.

#[global] Instance ECUType_eq_dec : EqDecision ECUType.
Proof. solve_decision. Defined.

#[global] Instance ECUStatus_eq_dec : EqDecision ECUStatus.
Proof. solve_decision. Defined.

End ECU.

(* ===================================================================== *)
(** ** ECU manager (ecu_mangr.hpp)                                       *)
(* ===================================================================== *)

Module ECUManager.

(** [ecus_] is the store of the ECU objects, keyed by id; the log file is
    not part of the model.  The loops over [ecus_] are run over
    [map_to_list], whose order need not be the key order of [std::map]:
    what the loops below compute does not depend on the order. *)
Record t := mk {
  ecus_ : gmap string ECU.t;
  allECUsOnline_ : bool;
  systemName_ : string
}.

Definition new (systemName : string) : t := mk ∅ false systemName.

(** The loop of [updateSystemStatus] over the entries, with its [break]. *)
Fixpoint scanOnline (entries : list (string * ECU.t)) : bool :=
  match entries with
  | [] => true
  | (_, ecu) :: rest =>
      if negb (ECU.status_eqb (ECU.getECUStatus ecu) ECU.ONLINE)
      then false
      else scanOnline rest
  end.

Definition updateSystemStatus (m : t) : t :=
  mk (ecus_ m) (scanOnline (map_to_list (ecus_ m))) (systemName_ m).

(** The loops [if (!ecu->...()) flag = false] over the entries: no
    [break], the flag starts [true]. *)
Definition allTrue (results : list (string * bool)) : bool :=
  fold_left (fun flag r => if negb r.2 then false else flag) results true.

Definition initialize (m : t) : bool * t :=
  let results := ECU.initialize <$> ecus_ m in
  let success := allTrue (map_to_list (fst <$> results)) in
  (success, updateSystemStatus (mk (snd <$> results) (allECUsOnline_ m) (systemName_ m))).

(** [update()]: [clock id] is what the clock reads when the ECU [id] is
    updated. *)
Definition update (clock : string -> ECU.time_point) (m : t) : bool * t :=
  let results := map_imap (fun id e => Some (ECU.update (clock id) e)) (ecus_ m) in
  let allOK := allTrue (map_to_list (fst <$> results)) in
  (allOK, updateSystemStatus (mk (snd <$> results) (allECUsOnline_ m) (systemName_ m))).

Definition shutdown (m : t) : bool * t :=
  (true, mk ((fun e => (ECU.shutdown e).2) <$> ecus_ m) false (systemName_ m)).

(** [ecus_[ecu->getECUID()] = ecu]. *)
Definition addECU (ecu : ECU.t) (m : t) : t :=
  mk (<[ECU.getECUID ecu := ecu]> (ecus_ m)) (allECUsOnline_ m) (systemName_ m).

Definition getECU (ecuID : string) (m : t) : option ECU.t := ecus_ m !! ecuID.

Definition areAllECUsOnline (m : t) : bool := allECUsOnline_ m.

Definition getTotalECUCount (m : t) : nat := size (ecus_ m).

Definition getOnlineECUCount (m : t) : nat :=
  length (filter (fun p => ECU.status_eqb (ECU.getECUStatus p.2) ECU.ONLINE = true)
                 (map_to_list (ecus_ m))).

(** A write through the [shared_ptr] that [getECU] returned. *)
Definition withECU (ecuID : string) (f : ECU.t -> ECU.t) (m : t) : t :=
  mk (alter f ecuID (ecus_ m)) (allECUsOnline_ m) (systemName_ m).

(** The entries of [ecus_] in the order in which [std::map] iterates over
    them: ascending ids, compared character by character. *)
Definition keyLe (a b : string * ECU.t) : Prop := String.leb a.1 b.1 = true.

#[global] Instance keyLe_dec (a b : string * ECU.t) : Decision (keyLe a b).
Proof. unfold keyLe. apply _. Defined.

Definition entries (m : t) : list (string * ECU.t) :=
  merge_sort keyLe (map_to_list (ecus_ m)).

Definition getECUsByType (type : ECU.ECUType) (m : t) : list ECU.t :=
  (filter (fun p => ECU.getType p.2 = type) (entries m)).*2.

(** The four counters of [getStatus]: online, offline, fault, degraded. *)
Definition countStatus (c : Z * Z * Z * Z) (p : string * ECU.t) : Z * Z * Z * Z :=
  let '(online, offline, fault, degraded) := c in
  match ECU.getECUStatus p.2 with
  | ECU.ONLINE => (Cxx.wrap_int (online + 1), offline, fault, degraded)
  | ECU.OFFLINE => (online, Cxx.wrap_int (offline + 1), fault, degraded)
  | ECU.FAULT => (online, offline, Cxx.wrap_int (fault + 1), degraded)
  | ECU.DEGRADED => (online, offline, fault, Cxx.wrap_int (degraded + 1))
  | ECU.INITIALIZING => c
  end.

Definition statusCounts (m : t) : Z * Z * Z * Z :=
  fold_left countStatus (entries m) (0, 0, 0, 0).

Definition getStatus (m : t) : string :=
  let '(online, offline, fault, degraded) := statusCounts m in
  "ECUs: " +:+ Cxx.int_to_string online +:+ " online, "
    +:+ Cxx.int_to_string degraded +:+ " degraded, "
    +:+ Cxx.int_to_string fault +:+ " fault, "
    +:+ Cxx.int_to_string offline +:+ " offline".

End ECUManager.

(* ===================================================================== *)
(** ** The control system (controlSystem.hpp)                            *)
(* ===================================================================== *)

Module TM_ControlSystem.

Record ControlState := mkControl {
  depthSetpoint : float;
  headingSetpoint : float;
  autoDepthControl : bool;
  autoHeadingControl : bool
}.

(** [sensors_] and [actuators_] are the stores of the sensor and actuator
    objects (each registered once); the safety monitor and the samplers of
    its limits refer to them by position.  Of the communication links only
    their number matters here; [counter] is the [static int counter] of
    the loop. *)
Record t := mk {
  sensors_ : list ISensor.t;
  actuators_ : list IActuator.t;
  commInterfaces_ : nat;
  safetyMonitor_ : SafetyMonitor.t;
  ecuManager_ : ECUManager.t;
  controlState_ : ControlState;
  counter : Z
}.

(** What the clock reads at the two places of an iteration that ask it,
    for the ECU concerned. *)
Record Clock := mkClock {
  atUpdate : string -> ECU.time_point;
  atCommunication : string -> ECU.time_point
}.

(** Step 1, [for (auto& sensor : sensors_)]: the values read, the sensors
    afterwards, the counter afterwards. *)
Fixpoint readSensors (ss : list ISensor.t) (counter0 : Z)
  : list float * list ISensor.t * Z :=
  match ss with
  | [] => ([], [], counter0)
  | s :: rest =>
      let '(_, s1) := ISensor.update s in
      let '(value, s2) := ISensor.readValue s1 in
      let counter1 := Cxx.wrap_int (counter0 + 1) in
      let '(values, rest', counter2) := readSensors rest counter1 in
      (value :: values, s2 :: rest', counter2)
  end.

(** Step 3. *)
Definition runControlAlgorithms (c : ControlState)
    (sensors0 : list ISensor.t) (actuators0 : list IActuator.t)
  : list ISensor.t * list IActuator.t :=
  if autoDepthControl c then
    match sensors0 !! 0%nat with
    | Some s =>
        let '(currentDepth, s') := ISensor.readValue s in
        let error := (depthSetpoint c - currentDepth)%float in
        let thrustCommand := (error * 0.5)%float in
        (<[0%nat := s']> sensors0,
         match actuators0 !! 0%nat with
         | Some a => <[0%nat := (IActuator.setCommand thrustCommand a).2]> actuators0
         | None => actuators0
         end)
    | None => (sensors0, actuators0)
    end
  else (sensors0, actuators0).

(** Step 4. *)
Definition updateActuators (actuators0 : list IActuator.t) : list IActuator.t :=
  (fun a => (IActuator.update a).2) <$> actuators0.

(** Step 6. *)
Definition updateECUCommunicationStatus (clock : Clock) (links : nat) (m : ECUManager.t)
  : ECUManager.t :=
  let m1 :=
    if negb (links =? 0)%nat
    then ECUManager.withECU "ECU02"
           (ECU.updateCommunicationTimestamp (atCommunication clock "ECU02")) m
    else m in
  if (1 <? links)%nat
  then ECUManager.withECU "ECU03"
         (ECU.updateCommunicationTimestamp (atCommunication clock "ECU03")) m1
  else m1.

(** [jsonEscape]: backslash, quote, newline, carriage return and tab are
    written with a backslash. *)
Definition backslash : ascii := ascii_of_nat 92.
Definition quote : ascii := ascii_of_nat 34.

Fixpoint jsonEscape (input : string) : string :=
  match input with
  | EmptyString => EmptyString
  | String c rest =>
      (if Ascii.eqb c backslash then String backslash (String backslash EmptyString)
       else if Ascii.eqb c quote then String backslash (String quote EmptyString)
       else if Ascii.eqb c (ascii_of_nat 10) then String backslash "n"
       else if Ascii.eqb c (ascii_of_nat 13) then String backslash "r"
       else if Ascii.eqb c (ascii_of_nat 9) then String backslash "t"
       else String c EmptyString) +:+ jsonEscape rest
  end.

(** The telemetry snapshot, as the values handed to the output stream (the
    timestamp apart). *)
Record SensorEntry := mkSensorEntry {
  sensorName : string;
  value : float;
  units : string;
  healthy : bool;
  imu : option IMUSensor.IMUData
}.

Record ActuatorEntry := mkActuatorEntry {
  actuatorName : string;
  command : float;
  feedback : float;
  interlock : bool
}.

Record Snapshot := mkSnapshot {
  safe : bool;
  violation : string;
  control : ControlState;
  sensors : list SensorEntry;
  actuators : list ActuatorEntry
}.

(** The loop over [sensors_] of [writeTelemetrySnapshot]. *)
Fixpoint sensorEntries (ss : list ISensor.t) : list SensorEntry * list ISensor.t :=
  match ss with
  | [] => ([], [])
  | sensor :: rest =>
      let '(v, sensor') := ISensor.readValue sensor in
      let entry :=
        mkSensorEntry (jsonEscape (ISensor.getComponentName sensor')) v
                    (jsonEscape (ISensor.getUnits sensor'))
                      (ISensor.isHealthy sensor')
                      (IMUSensor.getData <$> ISensor.asIMU sensor') in
      let '(entries, rest') := sensorEntries rest in
      (entry :: entries, sensor' :: rest')
  end.

Definition actuatorEntries (acts : list IActuator.t) : list ActuatorEntry :=
  (fun a => mkActuatorEntry (jsonEscape (IActuator.getComponentName a)) (IActuator.getCommand a)
                            (IActuator.getFeedback a) (IActuator.hasInterlock a)) <$> acts.

(** Step 7; [fileOpens] tells whether the telemetry file could be opened. *)
Definition writeTelemetrySnapshot (fileOpens : bool) (st : t) : option Snapshot * t :=
  if negb fileOpens then (None, st)
  else
    let '(entries, sensors') := sensorEntries (sensors_ st) in
    (Some (mkSnapshot (SafetyMonitor.isSystemSafe (safetyMonitor_ st))
                      (jsonEscape (SafetyMonitor.getLastViolation (safetyMonitor_ st)))
                      (controlState_ st) entries (actuatorEntries (actuators_ st))),
     mk sensors' (actuators_ st) (commInterfaces_ st) (safetyMonitor_ st)
        (ecuManager_ st) (controlState_ st) (counter st)).

(** One pass through the body of the control loop.  [stepReads] are the
    values the sensor step (step 1) read; [completed] is [false] when an
    exception of a sampler left the loop. *)
Record Iteration := mkIteration {
  stepReads : list float;
  published : option Snapshot;
  completed : bool;
  after : t
}.

Definition iteration (clock : Clock) (fileOpens : bool) (st : t) : Iteration :=
  (* 0 *)
  let '(_, ecus1) := ECUManager.update (atUpdate clock) (ecuManager_ st) in
  (* 1 *)
  let '(values, sensors1, counter1) := readSensors (sensors_ st) (counter st) in
  (* 2 *)
  let o := SafetyMonitor.update (safetyMonitor_ st) sensors1 (actuators_ st) in
  match SafetyMonitor.result o with
  | None =>
      mkIteration values None false
        (mk (SafetyMonitor.sensors o) (SafetyMonitor.actuators o) (commInterfaces_ st)
            (SafetyMonitor.monitor o) ecus1 (controlState_ st) counter1)
  | Some _ =>
      (* 3 *)
      let '(sensors3, actuators3) :=
        runControlAlgorithms (controlState_ st)
          (SafetyMonitor.sensors o) (SafetyMonitor.actuators o) in
      (* 4 *)
      let actuators4 := updateActuators actuators3 in
      (* 5: the links exchange no data the model holds *)
      (* 6 *)
      let ecus6 := updateECUCommunicationStatus clock (commInterfaces_ st) ecus1 in
      (* 7 *)
      let '(snapshot, st7) :=
        writeTelemetrySnapshot fileOpens
          (mk sensors3 actuators4 (commInterfaces_ st) (SafetyMonitor.monitor o)
              ecus6 (controlState_ st) counter1) in
      mkIteration values snapshot true st7
  end.

(** [buildTelemetryPacket]: the packet is built empty. *)
Definition buildTelemetryPacket : list Byte.byte := [].

(** [processCommunication(comm)]: the number of bytes received, when a log
    line reports it, and the link afterwards. *)
Definition processCommunication (comm : ICommunicationInterface.t)
  : option nat * ICommunicationInterface.t :=
  let '(data, comm1) := ICommunicationInterface.receive comm in
  let logged := match data with [] => None | _ => Some (length data) end in
  let '(_, comm2) := ICommunicationInterface.send buildTelemetryPacket comm1 in
  (logged, comm2).

(** Step 5 of the loop over the links [commInterfaces_]. *)
Fixpoint communicationStep (links : list ICommunicationInterface.t)
  : list (option nat) * list ICommunicationInterface.t :=
  match links with
  | [] => ([], [])
  | comm :: rest =>
      let '(_, comm1) := ICommunicationInterface.update comm in
      let '(logged, comm2) := processCommunication comm1 in
      let '(logs, rest') := communicationStep rest in
      (logged :: logs, comm2 :: rest')
  end.

(** [setupECUs]: the seven ECUs of the vehicle; [now id] is what the clock
    reads when the ECU [id] is constructed. *)
Definition setupECUs (now : string -> ECU.time_point) (m : ECUManager.t) : ECUManager.t :=
  let pi :=
    ECU.addControlledDevice (ECU.mkDevice "Control Algorithms (PID)" "Software" "N/A" 0)
      (ECU.addControlledDevice (ECU.mkDevice "Data Logger" "Software" "N/A" 0)
        (ECU.addControlledDevice (ECU.mkDevice "Safety Monitor" "Software" "N/A" 0)
          (ECU.addControlledDevice (ECU.mkDevice "System Coordinator" "Software" "N/A" 0)
            (ECU.setCommunication (ECU.mkCommInfo "Local" "localhost" 0 0 10)
              (ECU.setLocation
                 (ECU.mkLocation "Main Electronics Enclosure" "Standoff Mount" 0 0 0)
                 (ECU.new (now "ECU01") "ECU01" "Raspberry Pi 4B Main Controller"
                    ECU.MAIN_CONTROLLER)))))) in
  let teensySensor :=
    ECU.addControlledDevice (ECU.mkDevice "Internal Temperature Sensor" "Sensor" "Analog" 0)
      (ECU.addControlledDevice (ECU.mkDevice "9-DOF IMU (BNO055)" "Sensor" "I2C" 2)
        (ECU.addControlledDevice (ECU.mkDevice "Water Temperature Sensor" "Sensor" "I2C" 1)
          (ECU.addControlledDevice
             (ECU.mkDevice "Depth Pressure Sensor (MS5837)" "Sensor" "I2C" 0)
            (ECU.setCommunication (ECU.mkCommInfo "Serial UART" "/dev/ttyACM0" 115200 0 10)
              (ECU.setLocation
                 (ECU.mkLocation "Main Electronics Enclosure" "DIN Rail Mount" 0.15 0 0)
                 (ECU.new (now "ECU02") "ECU02" "Teensy 4.0 Sensor Node"
                    ECU.SENSOR_NODE)))))) in
  let teensyActuator :=
    ECU.addControlledDevice (ECU.mkDevice "Current Sensors (4x)" "Sensor" "Analog" 0)
      (ECU.addControlledDevice (ECU.mkDevice "Gripper Valve" "Hydraulic Valve" "PWM" 7)
        (ECU.addControlledDevice
           (ECU.mkDevice "Horizontal Thruster 2 (T200)" "Thruster" "PWM" 6)
          (ECU.addControlledDevice
             (ECU.mkDevice "Horizontal Thruster 1 (T200)" "Thruster" "PWM" 5)
            (ECU.addControlledDevice
               (ECU.mkDevice "Vertical Thruster 2 (T200)" "Thruster" "PWM" 4)
              (ECU.addControlledDevice
                 (ECU.mkDevice "Vertical Thruster 1 (T200)" "Thruster" "PWM" 3)
                (ECU.setCommunication
                   (ECU.mkCommInfo "Serial UART" "/dev/ttyACM1" 115200 0 10)
                  (ECU.setLocation
                     (ECU.mkLocation "Main Electronics Enclosure" "DIN Rail Mount" 0.30 0 0)
                     (ECU.new (now "ECU03") "ECU03" "Teensy 4.0 Actuator Node"
                        ECU.ACTUATOR_NODE)))))))) in
  let vfd1 :=
    ECU.addControlledDevice
      (ECU.mkDevice "Cutter Head Motor (15kW)" "3-Phase Motor" "VFD" 0)
      (ECU.setCommunication (ECU.mkCommInfo "Modbus RTU" "192.168.1.50" 9600 1 5)
        (ECU.setLocation (ECU.mkLocation "Power Distribution Panel" "Panel Mount" 0 0.25 0)
           (ECU.new (now "ECU04") "ECU04" "VFD Cutter Head Motor" ECU.VFD_CONTROLLER))) in
  let vfd2 :=
    ECU.addControlledDevice
      (ECU.mkDevice "Slurry Pump Motor (22kW)" "3-Phase Motor" "VFD" 0)
      (ECU.setCommunication (ECU.mkCommInfo "Modbus RTU" "192.168.1.51" 9600 2 5)
        (ECU.setLocation (ECU.mkLocation "Power Distribution Panel" "Panel Mount" 0 0.50 0)
           (ECU.new (now "ECU05") "ECU05" "VFD Slurry Pump" ECU.VFD_CONTROLLER))) in
  let hydraulic1 :=
    ECU.addControlledDevice
      (ECU.mkDevice "Hydraulic Pressure Sensor" "Sensor" "Analog 4-20mA" 1)
      (ECU.addControlledDevice
         (ECU.mkDevice "Thrust Cylinder 2" "Hydraulic Cylinder" "Proportional Valve" 2)
        (ECU.addControlledDevice
           (ECU.mkDevice "Thrust Cylinder 1" "Hydraulic Cylinder" "Proportional Valve" 1)
          (ECU.setCommunication (ECU.mkCommInfo "Modbus RTU" "192.168.1.52" 9600 3 5)
            (ECU.setLocation
               (ECU.mkLocation "Hydraulic Manifold Bay" "Manifold Mount" 0 0 0.15)
               (ECU.new (now "ECU06") "ECU06" "Hydraulic Controller - Thrust"
                  ECU.HYDRAULIC_CONTROLLER))))) in
  let hydraulic2 :=
    ECU.addControlledDevice
      (ECU.mkDevice "Steering Position Sensor" "Sensor" "Analog 0-10V" 2)
      (ECU.addControlledDevice
         (ECU.mkDevice "Steering Cylinder Right" "Hydraulic Cylinder" "Proportional Valve" 4)
        (ECU.addControlledDevice
           (ECU.mkDevice "Steering Cylinder Left" "Hydraulic Cylinder" "Proportional Valve" 3)
          (ECU.setCommunication (ECU.mkCommInfo "Modbus RTU" "192.168.1.53" 9600 4 5)
            (ECU.setLocation
               (ECU.mkLocation "Hydraulic Manifold Bay" "Manifold Mount" 0 0 0.30)
               (ECU.new (now "ECU07") "ECU07" "Hydraulic Controller - Steering"
                  ECU.HYDRAULIC_CONTROLLER))))) in
  ECUManager.addECU hydraulic2
    (ECUManager.addECU hydraulic1
      (ECUManager.addECU vfd2
        (ECUManager.addECU vfd1
          (ECUManager.addECU teensyActuator
            (ECUManager.addECU teensySensor
              (ECUManager.addECU pi m)))))).

(** [ISensor], [IActuator] and [ICommunicationInterface] are abstract
    classes: a registered component may be of a class that is not in this
    repository.  In the loops of [initialize] below, [init] is what the
    virtual call [initialize()] does to a component: the result it returns
    and the component afterwards (a call that throws is outside the
    model). *)

(** The loop over the sensors and the loop over the links: left, with
    [false], at the first component whose [initialize()] returns false. *)
Fixpoint initializeEach {A : Type} (init : A -> bool * A) (components : list A)
  : bool * list A :=
  match components with
  | [] => (true, [])
  | component :: rest =>
      let '(ok, component') := init component in
      if negb ok then (false, component' :: rest)
      else let '(b, rest') := initializeEach init rest in (b, component' :: rest')
  end.

(** The loop over the actuators, which registers each initialized actuator
    with the safety monitor.  [next] is the position of the first actuator
    of [acts] in [actuators_]: the reference handed to [addActuator]. *)
Fixpoint initializeActuators (init : IActuator.t -> bool * IActuator.t)
    (acts : list IActuator.t) (next : nat) (monitor : SafetyMonitor.t)
  : bool * list IActuator.t * SafetyMonitor.t :=
  match acts with
  | [] => (true, [], monitor)
  | actuator :: rest =>
      let '(ok, actuator') := init actuator in
      if negb ok then (false, actuator' :: rest, monitor)
      else
        let '(b, rest', monitor') :=
          initializeActuators init rest (S next) (SafetyMonitor.addActuator next monitor) in
        (b, actuator' :: rest', monitor')
  end.

(** What [initialize] returns and leaves behind. *)
Record Startup := mkStartup {
  started : bool;
  system : t;
  links : list ICommunicationInterface.t
}.

(** [initialize()] with the components' [initialize()] given by
    [initSensor], [initActuator] and [initLink]; the log and the report
    files are not part of the model.  The call creates [logger_] and
    [ecuManager_] before anything else. *)
Definition initializeWith
    (initSensor : ISensor.t -> bool * ISensor.t)
    (initActuator : IActuator.t -> bool * IActuator.t)
    (initLink : ICommunicationInterface.t -> bool * ICommunicationInterface.t)
    (now : string -> ECU.time_point)
    (links0 : list ICommunicationInterface.t) (st : t) : Startup :=
  let manager1 := setupECUs now (ECUManager.new "TBM ROV Control System") in
  let '(ecusOK, manager2) := ECUManager.initialize manager1 in
  if negb ecusOK then
    mkStartup false
      (mk (sensors_ st) (actuators_ st) (commInterfaces_ st) (safetyMonitor_ st)
          manager2 (controlState_ st) (counter st)) links0
  else
    let '(_, monitor1) := SafetyMonitor.initialize (safetyMonitor_ st) in
    let '(sensorsOK, sensors1) := initializeEach initSensor (sensors_ st) in
    if negb sensorsOK then
      mkStartup false
        (mk sensors1 (actuators_ st) (commInterfaces_ st) monitor1
            manager2 (controlState_ st) (counter st)) links0
    else
      let '(actuatorsOK, actuators1, monitor2) :=
        initializeActuators initActuator (actuators_ st) 0 monitor1 in
      if negb actuatorsOK then
        mkStartup false
          (mk sensors1 actuators1 (commInterfaces_ st) monitor2
              manager2 (controlState_ st) (counter st)) links0
      else
        let '(linksOK, links1) := initializeEach initLink links0 in
        mkStartup linksOK
          (mk sensors1 actuators1 (commInterfaces_ st) monitor2
              manager2 (controlState_ st) (counter st)) links1.

(** [initialize()] when every registered component is of a class of this
    repository. *)
Definition initialize (now : string -> ECU.time_point)
    (links0 : list ICommunicationInterface.t) (st : t) : Startup :=
  initializeWith ISensor.initialize IActuator.initialize ICommunicationInterface.initialize
    now links0 st.

(** [stop()]: the ECU manager first, then the actuators, the sensors and
    the links, the safety monitor last (the loop flag [systemRunning_] and
    the text of the log are not part of the model).  [logger] tells whether
    [logger_] holds a logger.  It does once [initialize()] has been entered;
    until then [logger_] is null, and so is [ecuManager_].  The first
    statement of [stop()] that touches a component is [logger_->log(...)],
    with no test of the pointer: on a null [logger_] the call has no defined
    result ([None]) and nothing is shut down. *)
Definition stop (logger : bool) (links0 : list ICommunicationInterface.t) (st : t)
  : option (t * list ICommunicationInterface.t) :=
  if negb logger then None
  else
    let '(_, manager1) := ECUManager.shutdown (ecuManager_ st) in
    let actuators1 := (fun a => (IActuator.shutdown a).2) <$> actuators_ st in
    let sensors1 := (fun s => (ISensor.shutdown s).2) <$> sensors_ st in
    let links1 := (fun c => (ICommunicationInterface.shutdown c).2) <$> links0 in
    let '(_, actuators2) := SafetyMonitor.shutdown (safetyMonitor_ st) actuators1 in
    Some (mk sensors1 actuators2 (commInterfaces_ st) (safetyMonitor_ st) manager1
             (controlState_ st) (counter st),
          links1).

End TM_ControlSystem.

(* ===================================================================== *)
(** ** The configuration of main.cpp, and a few states of it             *)
(* ===================================================================== *)

Module Scenario.


(** A depth sensor with the hardware reading [reading] and the history
    [history] of earlier samples. *)
Definition depthSensor (reading : float) (history : list float) : PressureSensor.t :=
  PressureSensor.mk "DepthSensor" reading 0%float true history.

Definition waterTemp (reading : float) : TemperatureSensor.t :=
  TemperatureSensor.mk "WaterTemp" reading true.

Definition imuSensor : IMUSensor.t := (IMUSensor.initialize (IMUSensor.new "IMU")).2.

(** [sensors_] after [addSensor] of the three sensors. *)
Definition sensorsWith (depth : PressureSensor.t) (temp : float) : list ISensor.t :=
  [ISensor.Pressure depth; ISensor.Temperature (waterTemp temp); ISensor.IMU imuSensor].

Definition thruster1 : MotorController.t := MotorController.ThrusterMotor "VerticalThruster1".
Definition thruster2 : MotorController.t := MotorController.ThrusterMotor "HorizontalThruster1".
Definition valve1 : HydraulicValve.t := HydraulicValve.new "GripperValve".

(** [actuators_] as constructed, and after [initialize]. *)
Definition actuatorsNew : list IActuator.t :=
  [IActuator.Motor thruster1; IActuator.Motor thruster2; IActuator.Valve valve1].

Definition actuatorsReady : list IActuator.t :=
  (fun a => (IActuator.initialize a).2) <$> actuatorsNew.

(** The actuators some time into a dive: commands 40, -25 and 60. *)
Definition actuatorsBusy : list IActuator.t :=
  [IActuator.Motor (MotorController.setCommand 40 (MotorController.initialize thruster1).2).2;
   IActuator.Motor (MotorController.setCommand (-25) (MotorController.initialize thruster2).2).2;
   IActuator.Valve (HydraulicValve.setCommand 60 valve1).2].

(** The safety monitor after the two [addSafetyLimit] calls of main and
    the [addActuator] calls of [TM_ControlSystem::initialize]. *)
Definition monitor : SafetyMonitor.t :=
  SafetyMonitor.addActuator 2 (SafetyMonitor.addActuator 1 (SafetyMonitor.addActuator 0
    (SafetyMonitor.addLimit "MaxTemp" (SafetyMonitor.readSensor 1) (-5) 50
      (SafetyMonitor.addLimit "MaxDepth" (SafetyMonitor.readSensor 0) 0 100
         SafetyMonitor.new)))).

(** The same actuators with their interlocks set ([setInterlock(true)])
    while they hold these commands. *)
Definition actuatorsLocked : list IActuator.t :=
  [IActuator.Motor
     (MotorController.setInterlock true
        (MotorController.setCommand 40 (MotorController.initialize thruster1).2).2);
   IActuator.Motor
     (MotorController.setInterlock true
        (MotorController.setCommand (-25) (MotorController.initialize thruster2).2).2);
   IActuator.Valve
     (HydraulicValve.setInterlock true (HydraulicValve.setCommand 60 valve1).2)].

(** A limit whose sampler throws (an empty [std::function]). *)
Definition unavailable : SafetyMonitor.Sampler := fun sensors => (None, sensors).

Definition monitorWithBrokenSource : SafetyMonitor.t :=
  SafetyMonitor.addActuator 2 (SafetyMonitor.addActuator 1 (SafetyMonitor.addActuator 0
    (SafetyMonitor.addLimit "MaxTemp" (SafetyMonitor.readSensor 1) (-5) 50
      (SafetyMonitor.addLimit "HullPressure" unavailable 0 100
        (SafetyMonitor.addLimit "MaxDepth" (SafetyMonitor.readSensor 0) 0 100
           SafetyMonitor.new))))).

(** The hardware of the depth sensor (position 0) now reads [reading]: what
    the placeholder in [PressureSensor::update] stands for. *)
Definition depthReads (reading : float) (ss : list ISensor.t) : list ISensor.t :=
  match ss with
  | ISensor.Pressure p :: rest =>
      ISensor.Pressure
        (PressureSensor.mk (PressureSensor.name_ p) reading
           (PressureSensor.calibrationOffset_ p) (PressureSensor.healthy_ p)
           (PressureSensor.historyBuffer_ p)) :: rest
  | _ => ss
  end.

(** Evaluations of the safety monitor.  [calm]: depth 10, water at 20.
    [overTemp]: depth 10, water at 60.  [overTempLocked]: the same with the
    actuators interlocked.  [tooDeep]: the depth sensor reads
    120 (scenario 1 of the specification).  [backInRange]: the evaluation
    after [tooDeep], the depth reading back at 50.  [brokenSource]: the
    second of three limits has no value source. *)
Definition calm : SafetyMonitor.Outcome :=
  SafetyMonitor.update monitor (sensorsWith (depthSensor 10 []) 20) actuatorsBusy.

Definition overTemp : SafetyMonitor.Outcome :=
  SafetyMonitor.update monitor (sensorsWith (depthSensor 10 []) 60) actuatorsBusy.

Definition overTempLocked : SafetyMonitor.Outcome :=
  SafetyMonitor.update monitor (sensorsWith (depthSensor 10 []) 60) actuatorsLocked.

Definition tooDeep : SafetyMonitor.Outcome :=
  SafetyMonitor.update monitor (sensorsWith (depthSensor 120 []) 20) actuatorsBusy.

Definition backInRange : SafetyMonitor.Outcome :=
  SafetyMonitor.update (SafetyMonitor.monitor tooDeep)
    (depthReads 50 (SafetyMonitor.sensors tooDeep)) (SafetyMonitor.actuators tooDeep).

Definition brokenSource : SafetyMonitor.Outcome :=
  SafetyMonitor.update monitorWithBrokenSource
    (sensorsWith (depthSensor 10 []) 20) actuatorsBusy.

(** Times, in clock periods. *)
Definition seconds (n : Z) : ECU.time_point := n * ECU.periods_per_second.
Definition milliseconds (n : Z) : ECU.time_point := n * 1000000.

Definition ecu02 : ECU.t := ECU.new 0 "ECU02" "Teensy 4.0 Sensor Node" ECU.SENSOR_NODE.
Definition ecu03 : ECU.t := ECU.new 0 "ECU03" "Teensy 4.0 Actuator Node" ECU.ACTUATOR_NODE.
Definition ecu02Online : ECU.t := (ECU.initialize ecu02).2.

(** Another ECU object that carries the id ECU02. *)
Definition ecu02Spare : ECU.t := ECU.new 0 "ECU02" "Spare Sensor Node" ECU.CUSTOM.

Definition manager : ECUManager.t :=
  ECUManager.addECU ecu03 (ECUManager.addECU ecu02 (ECUManager.new "TBM ROV Control System")).

(** A manager initialized before any ECU was added. *)
Definition managerReady : ECUManager.t :=
  (ECUManager.initialize (ECUManager.new "TBM ROV Control System")).2.

Definition clockAt (t : ECU.time_point) : TM_ControlSystem.Clock :=
  TM_ControlSystem.mkClock (fun _ => t) (fun _ => t).

(** The control system in the loop, with the sensors [ss]: the four links
    of main, every ECU online at time 0. *)
Definition system (ss : list ISensor.t) : TM_ControlSystem.t :=
  TM_ControlSystem.mk ss actuatorsReady 4 monitor (ECUManager.initialize manager).2
    (TM_ControlSystem.mkControl 0 0 false false) 0.

(** One iteration at time 0; the depth sensor reads 10 after an earlier
    sample 0, the water is at 20. *)
Definition tick : TM_ControlSystem.Iteration :=
  TM_ControlSystem.iteration (clockAt 0) true
    (system (sensorsWith (depthSensor 10 [0%float]) 20)).

(** The manager with ECU01, ECU02 and ECU03 after one update in which
    ECU02 has been silent for 6 s. *)
Definition managerDegraded : ECUManager.t :=
  (ECUManager.update (fun id => if String.eqb id "ECU02" then seconds 6 else 0)
     (ECUManager.initialize
        (ECUManager.addECU
           (ECU.new 0 "ECU01" "Raspberry Pi 4B Main Controller" ECU.MAIN_CONTROLLER)
           manager)).2).2.

(** The four links of main, as constructed. *)
Definition linksNew : list ICommunicationInterface.t :=
  [ICommunicationInterface.Serial (SerialInterface.new "/dev/ttyACM0" 115200);
   ICommunicationInterface.Serial (SerialInterface.new "/dev/ttyACM1" 115200);
   ICommunicationInterface.Telemetry (TelemetryUplink.new "192.168.1.100" 5000);
   ICommunicationInterface.Modbus (ModbusInterface.new "192.168.1.50")].

(** The control system of main before [initialize], which creates the ECU
    manager: until then the model holds a manager without ECUs. *)
Definition systemNew : TM_ControlSystem.t :=
  TM_ControlSystem.mk
    [ISensor.Pressure (PressureSensor.new "DepthSensor");
     ISensor.Temperature (TemperatureSensor.new "WaterTemp");
     ISensor.IMU (IMUSensor.new "IMU")]
    actuatorsNew 4
    (SafetyMonitor.addLimit "MaxTemp" (SafetyMonitor.readSensor 1) (-5) 50
       (SafetyMonitor.addLimit "MaxDepth" (SafetyMonitor.readSensor 0) 0 100
          SafetyMonitor.new))
    (ECUManager.new EmptyString)
    (TM_ControlSystem.mkControl 0 0 false false) 0.

(** The control system of main after [initialize] at time 0. *)
Definition systemReady : TM_ControlSystem.t :=
  TM_ControlSystem.system (TM_ControlSystem.initialize (fun _ => 0) linksNew systemNew).

(** The control system in the loop with the depth held automatically at
    30: the depth sensor reads 10, the water is at 60. *)
Definition systemAuto : TM_ControlSystem.t :=
  TM_ControlSystem.mk (sensorsWith (depthSensor 10 []) 60) actuatorsBusy 4 monitor
    (ECUManager.initialize manager).2 (TM_ControlSystem.mkControl 30 0 true false) 0.

End Scenario.

(* ===================================================================== *)
(** ** Vocabulary of the statements                                      *)
(* ===================================================================== *)

Module Vocabulary.

(** [inspectedInRange limits s s']: the samplers of [limits], called one
    after the other in list order starting from the sensors [s], each
    return a value that is neither below the minimum nor above the maximum
    of its limit, and leave the sensors as [s']. *)
Inductive inspectedInRange
  : list SafetyMonitor.SafetyLimit -> list ISensor.t -> list ISensor.t -> Prop :=
| inspected_nil (s : list ISensor.t) : inspectedInRange [] s s
| inspected_cons (l : SafetyMonitor.SafetyLimit) (ls : list SafetyMonitor.SafetyLimit)
    (s s1 s2 : list ISensor.t) (v : float) :
    SafetyMonitor.getValue l s = (Some v, s1) ->
    PrimFloat.ltb v (SafetyMonitor.minValue l) = false ->
    PrimFloat.ltb (SafetyMonitor.maxValue l) v = false ->
    inspectedInRange ls s1 s2 ->
    inspectedInRange (l :: ls) s s2.

(** [commandedTo value handles before after]: [after] is [before] with
    [setCommand(value)] called on the actuator behind every reference of
    [handles], the other actuators as they were. *)
Definition commandedTo (value : float) (handles : list nat)
    (before after : list IActuator.t) : Prop :=
  forall h : nat,
    after !! h
    = (fun a => if bool_decide (h ∈ handles)
                then (IActuator.setCommand value a).2 else a) <$> before !! h.




(** The ECU is online. *)
Definition online (e : ECU.t) : Prop := ECU.getECUStatus e = ECU.ONLINE.

#[export] Instance online_dec (e : ECU.t) : Decision (online e).
Proof.
  unfold online.
  destruct (ECU.getECUStatus e); (left; congruence) || (right; congruence).
Defined.

(** The number of registered ECUs whose status is [st]. *)
Definition statusCount (st : ECU.ECUStatus) (m : ECUManager.t) : nat :=
  length (filter (fun p => ECU.getECUStatus p.2 = st) (map_to_list (ECUManager.ecus_ m))).

(** The calls a client can make on an ECU, and a sequence of them. *)
Inductive ECUCall :=
| CallInitialize
| CallUpdate (now : ECU.time_point)
| CallShutdown
| CallObserve (now : ECU.time_point)
| CallSetLocation (l : ECU.ECULocation)
| CallSetCommunication (c : ECU.CommunicationInfo)
| CallAddDevice (d : ECU.ControlledDevice).

Definition ecuCall (e : ECU.t) (c : ECUCall) : ECU.t :=
  match c with
  | CallInitialize => (ECU.initialize e).2
  | CallUpdate now => (ECU.update now e).2
  | CallShutdown => (ECU.shutdown e).2
  | CallObserve now => ECU.updateCommunicationTimestamp now e
  | CallSetLocation l => ECU.setLocation l e
  | CallSetCommunication ci => ECU.setCommunication ci e
  | CallAddDevice d => ECU.addControlledDevice d e
  end.

Definition ecuCalls (cs : list ECUCall) (e : ECU.t) : ECU.t := fold_left ecuCall cs e.

(** What every call keeps: the status is one of offline, online, degraded,
    and the watchdog is armed exactly when the ECU is not offline. *)
Definition wellRun (e : ECU.t) : Prop :=
  (ECU.status_ e = ECU.OFFLINE /\ ECU.watchdogActive_ e = false) \/
  ((ECU.status_ e = ECU.ONLINE \/ ECU.status_ e = ECU.DEGRADED)
   /\ ECU.watchdogActive_ e = true).

(** The calls a client can make on a communication link. *)
Inductive LinkCall :=
| LinkInitialize
| LinkUpdate
| LinkShutdown
| LinkSend (data : list Byte.byte)
| LinkReceive.

Definition linkCall (c : ICommunicationInterface.t) (k : LinkCall)
  : ICommunicationInterface.t :=
  match k with
  | LinkInitialize => (ICommunicationInterface.initialize c).2
  | LinkUpdate => (ICommunicationInterface.update c).2
  | LinkShutdown => (ICommunicationInterface.shutdown c).2
  | LinkSend data => (ICommunicationInterface.send data c).2
  | LinkReceive => (ICommunicationInterface.receive c).2
  end.

Definition linkCalls (ks : list LinkCall) (c : ICommunicationInterface.t)
  : ICommunicationInterface.t := fold_left linkCall ks c.

(** A link as its constructor leaves it. *)
Definition freshLink (c : ICommunicationInterface.t) : Prop :=
  match c with
  | ICommunicationInterface.Serial x =>
      exists port baud, x = SerialInterface.new port baud
  | ICommunicationInterface.Modbus x => exists address, x = ModbusInterface.new address
  | ICommunicationInterface.Telemetry x => exists ip port, x = TelemetryUplink.new ip port
  end.

(** A float that is a number: not a NaN. *)
Definition isNumber (x : float) : bool := negb (PrimFloat.is_nan x).

(** The packets a link holds for its reader (a serial link only). *)
Definition received (c : ICommunicationInterface.t) : list (list Byte.byte) :=
  match c with
  | ICommunicationInterface.Serial x => SerialInterface.rxQueue_ x
  | _ => []
  end.

(** The characters that [jsonEscape] writes with a backslash, and their
    number in a string. *)
Definition escaped (c : ascii) : bool :=
  Ascii.eqb c TM_ControlSystem.backslash || Ascii.eqb c TM_ControlSystem.quote
  || Ascii.eqb c (ascii_of_nat 10) || Ascii.eqb c (ascii_of_nat 13)
  || Ascii.eqb c (ascii_of_nat 9).

Fixpoint escapes (s : string) : nat :=
  match s with
  | EmptyString => 0
  | String c rest => (if escaped c then 1 else 0) + escapes rest
  end.

(** What the reader of a JSON string makes of the five escapes; [None]
    for a quote that is not escaped, another escape, or a backslash at the
    end. *)
Definition unescape (d : ascii) : option ascii :=
  if Ascii.eqb d TM_ControlSystem.backslash then Some TM_ControlSystem.backslash
  else if Ascii.eqb d TM_ControlSystem.quote then Some TM_ControlSystem.quote
  else if Ascii.eqb d "n" then Some (ascii_of_nat 10)
  else if Ascii.eqb d "r" then Some (ascii_of_nat 13)
  else if Ascii.eqb d "t" then Some (ascii_of_nat 9)
  else None.

Fixpoint jsonUnescape (s : string) : option string :=
  match s with
  | EmptyString => Some EmptyString
  | String c rest =>
      if Ascii.eqb c TM_ControlSystem.backslash then
        match rest with
        | EmptyString => None
        | String d rest' =>
            match unescape d, jsonUnescape rest' with
            | Some x, Some r => Some (String x r)
            | _, _ => None
            end
        end
      else if Ascii.eqb c TM_ControlSystem.quote then None
      else String c <$> jsonUnescape rest
  end.

(** An actuator at rest: its command is 0, and 0 is what [setCommand(0)]
    stores in it. *)
Definition atRest (a : IActuator.t) : Prop :=
  IActuator.getCommand a = 0%float /\
  Cxx.clamp 0 (IActuator.minLimit a) (IActuator.maxLimit a) = 0%float.

(** Step 2 of an iteration: the evaluation of the safety monitor on the
    sensors as step 1 left them. *)
Definition evaluation (st : TM_ControlSystem.t) : SafetyMonitor.Outcome :=
  SafetyMonitor.update (TM_ControlSystem.safetyMonitor_ st)
    (TM_ControlSystem.readSensors (TM_ControlSystem.sensors_ st)
       (TM_ControlSystem.counter st)).1.2
    (TM_ControlSystem.actuators_ st).

(** Iterations of the control loop one after the other, each with its
    clock readings and with whether the telemetry file opens. *)
Definition iterations (ticks : list (TM_ControlSystem.Clock * bool)) (st : TM_ControlSystem.t)
  : TM_ControlSystem.t :=
  fold_left (fun s tick => TM_ControlSystem.after (TM_ControlSystem.iteration tick.1 tick.2 s))
            ticks st.

End Vocabulary.

(* ===================================================================== *)
(** * Properties                                                         *)
(* ===================================================================== *)

(** ** Actuators *)

Lemma motor_setCommand_refused (m : MotorController.t) (v : float) :
  MotorController.enabled_ m = false \/ MotorController.interlockActive_ m = true ->
  MotorController.setCommand v m = (false, m).
Proof.
  unfold MotorController.setCommand.
  intros [-> | ->]; [reflexivity | now rewrite orb_true_r].
Qed.

Lemma thruster_limits (n : string) :
  IActuator.minLimit (IActuator.Motor (MotorController.initialize (MotorController.ThrusterMotor n)).2)
    = (-100)%float /\
  IActuator.maxLimit (IActuator.Motor (MotorController.initialize (MotorController.ThrusterMotor n)).2)
    = 100%float.
Proof. split; reflexivity. Qed.

(** C3, the claim as stated fails: a thruster that is constructed but not
    yet initialized (or already shut down) is not interlocked, yet it
    refuses [setCommand(50)] and keeps the command 0, while
    clamp(50, -100, 100) is 50. *)
Lemma disabled_thruster_ignores_command :
  IActuator.hasInterlock (IActuator.Motor Scenario.thruster1) = false /\
  IActuator.setCommand 50 (IActuator.Motor Scenario.thruster1)
    = (false, IActuator.Motor Scenario.thruster1) /\
  IActuator.getCommand (IActuator.setCommand 50 (IActuator.Motor Scenario.thruster1)).2
    = 0%float /\
  Cxx.clamp 50 (-100) 100 = 50%float.
Proof. repeat split. Qed.

(** C3, amended: for every actuator that is not interlocked and, being a
    motor controller, is enabled, [setCommand(v)] is accepted and
    [getCommand()] then returns [std::clamp(v, min, max)] for the limits of
    that actuator: those given to the motor's constructor (-100 and 100 for
    a ThrusterMotor), 0 and 100 for a HydraulicValve. *)
Theorem setCommand_clamps_when_accepted (a : IActuator.t) (v : float) :
  IActuator.hasInterlock a = false ->
  IActuator.isEnabled a = true ->
  (IActuator.setCommand v a).1 = true /\
  IActuator.getCommand (IActuator.setCommand v a).2
    = Cxx.clamp v (IActuator.minLimit a) (IActuator.maxLimit a) /\
  (forall n : string,
     IActuator.minLimit
       (IActuator.Motor (MotorController.initialize (MotorController.ThrusterMotor n)).2)
       = (-100)%float /\
     IActuator.maxLimit
       (IActuator.Motor (MotorController.initialize (MotorController.ThrusterMotor n)).2)
       = 100%float) /\
  (forall h : HydraulicValve.t,
     IActuator.minLimit (IActuator.Valve h) = 0%float /\
     IActuator.maxLimit (IActuator.Valve h) = 100%float).
Proof.
  intros Hlock Hen.
  assert (Haccepted : (IActuator.setCommand v a).1 = true /\
                      IActuator.getCommand (IActuator.setCommand v a).2
                      = Cxx.clamp v (IActuator.minLimit a) (IActuator.maxLimit a)).
  { destruct a as [m | h]; cbn in Hlock, Hen |- *;
      unfold MotorController.hasInterlock, HydraulicValve.hasInterlock in Hlock.
    - unfold MotorController.setCommand. rewrite Hlock, Hen. cbn. auto.
    - unfold HydraulicValve.setCommand. rewrite Hlock. cbn. auto. }
  destruct Haccepted as [Hret Hcmd].
  split; [exact Hret |]. split; [exact Hcmd |].
  split; [intros n; apply thruster_limits | intros h; split; reflexivity].
Qed.

(** Scenario 2 of the specification: VerticalThruster1, initialized, is
    commanded 150 and reports 100; the valve commanded -3 reports 0. *)
Lemma setCommand_clamps_when_accepted_witness :
  IActuator.getCommand
    (IActuator.setCommand 150
       (IActuator.Motor (MotorController.initialize Scenario.thruster1).2)).2 = 100%float /\
  IActuator.getCommand
    (IActuator.setCommand (-3) (IActuator.Valve Scenario.valve1)).2 = 0%float.
Proof.
  split.
  - rewrite (proj1 (proj2 (setCommand_clamps_when_accepted
               (IActuator.Motor (MotorController.initialize Scenario.thruster1).2) 150
               eq_refl eq_refl))).
    reflexivity.
  - rewrite (proj1 (proj2 (setCommand_clamps_when_accepted
               (IActuator.Valve Scenario.valve1) (-3) eq_refl eq_refl))).
    reflexivity.
Defined.

(** ** Pressure sensor: the moving average *)

Section PressureWindow.

Import PressureSensor.

Lemma readValue_fields (s : t) :
  currentValue_ (readValue s).2 = currentValue_ s /\
  calibrationOffset_ (readValue s).2 = calibrationOffset_ s /\
  sample (readValue s).2 = sample s /\
  historyBuffer_ (readValue s).2 = pushed s /\
  (readValue s).1 = mean (pushed s).
Proof. repeat split. Qed.

(** The buffer is a window over the stream of samples: the last ten. *)
Lemma pushed_window (s : t) :
  (length (historyBuffer_ s) <= 10)%nat ->
  pushed s
    = drop (length (historyBuffer_ s) + 1 - 10) (historyBuffer_ s ++ [sample s]).
Proof.
  intros Hlen. unfold pushed, BUFFER_SIZE.
  destruct (Nat.leb_spec 10 (length (historyBuffer_ s))) as [Hfull | Hroom].
  - replace (length (historyBuffer_ s) + 1 - 10)%nat with 1%nat by lia.
    destruct (historyBuffer_ s); [simpl in Hfull; lia | reflexivity].
  - replace (length (historyBuffer_ s) + 1 - 10)%nat with 0%nat by lia.
    reflexivity.
Qed.

Lemma pushed_length (s : t) :
  (length (historyBuffer_ s) <= 10)%nat -> (length (pushed s) <= 10)%nat.
Proof.
  intros Hlen. rewrite pushed_window by exact Hlen.
  rewrite length_drop, length_app. simpl. lia.
Qed.

Lemma readValues_step (n : nat) (s : t) :
  readValues (S n) s
    = ((readValue s).1 :: (readValues n (readValue s).2).1,
       (readValues n (readValue s).2).2).
Proof.
  simpl. destruct (readValues n _) as [vs s2]. reflexivity.
Qed.

Lemma readValues_window (n : nat) : forall s : t,
  (length (historyBuffer_ s) <= 10)%nat ->
  historyBuffer_ (readValues n s).2
    = drop (length (historyBuffer_ s) + n - 10)
           (historyBuffer_ s ++ replicate n (sample s)).
Proof.
  induction n as [| n IH]; intros s Hlen.
  - simpl. rewrite app_nil_r.
    replace (length (historyBuffer_ s) + 0 - 10)%nat with 0%nat by lia.
    reflexivity.
  - rewrite readValues_step. cbn [snd].
    destruct (readValue_fields s) as (_ & _ & Hsample & Hbuf & _).
    rewrite IH by (rewrite Hbuf; apply pushed_length, Hlen).
    rewrite Hsample, Hbuf.
    assert (Hw := pushed_window s Hlen).
    assert (Hsplit : historyBuffer_ s ++ replicate (S n) (sample s)
                     = (historyBuffer_ s ++ [sample s]) ++ replicate n (sample s))
      by (rewrite <- app_assoc; reflexivity).
    rewrite Hsplit, Hw. clear Hsplit Hw.
    destruct (Nat.leb_spec 10 (length (historyBuffer_ s))) as [Hfull | Hroom].
    + assert (Hten : length (historyBuffer_ s) = 10%nat) by lia.
      rewrite Hten.
      replace (10 + 1 - 10)%nat with 1%nat by lia.
      rewrite length_drop, length_app, Hten. cbn [length].
      replace (10 + 1 - 1 + n - 10)%nat with n by lia.
      replace (10 + S n - 10)%nat with (1 + n)%nat by lia.
      rewrite <- drop_drop.
      rewrite (drop_app_le (historyBuffer_ s ++ [sample s])) by
        (rewrite length_app, Hten; simpl; lia).
      reflexivity.
    + replace (length (historyBuffer_ s) + 1 - 10)%nat with 0%nat by lia.
      rewrite drop_0, length_app. cbn [length].
      f_equal. lia.
Qed.

Lemma readValues_saturated (n : nat) (s : t) :
  (length (historyBuffer_ s) <= 10)%nat ->
  (10 <= n)%nat ->
  historyBuffer_ (readValues n s).2 = replicate 10 (sample s).
Proof.
  intros Hlen Hn. rewrite readValues_window by exact Hlen.
  rewrite drop_app_ge by lia.
  rewrite drop_replicate. f_equal. lia.
Qed.

Lemma readValues_last (n : nat) : forall s : t,
  last (readValues (S n) s).1 = Some (mean (historyBuffer_ (readValues (S n) s).2)).
Proof.
  induction n as [| n IH]; intros s.
  - reflexivity.
  - rewrite readValues_step. cbn [fst snd].
    rewrite last_cons, IH. reflexivity.
Qed.

End PressureWindow.

(** Two reads in a row, the hardware reading unchanged at 10 after an
    earlier sample 0: the first returns 5, the second 6.67. *)
Lemma readValue_not_idempotent :
  let s := Scenario.depthSensor 10 [0%float] in
  (PressureSensor.readValue s).1 = 5%float /\
  (PressureSensor.readValue (PressureSensor.readValue s).2).1 = 6.666666666666667%float /\
  PressureSensor.currentValue_ (PressureSensor.readValue s).2 = PressureSensor.currentValue_ s /\
  PrimFloat.eqb (PressureSensor.readValue s).1
                (PressureSensor.readValue (PressureSensor.readValue s).2).1 = false.
Proof. vm_compute. repeat split. Qed.




(** ** Safety monitor: one evaluation *)

Section SafetyEvaluation.

Import SafetyMonitor Vocabulary.

Lemma setCommand_idempotent (v : float) (a : IActuator.t) :
  (IActuator.setCommand v (IActuator.setCommand v a).2).2 = (IActuator.setCommand v a).2.
Proof.
  destruct a as [m | h].
  - destruct m as [n c f lo hi lock en].
    destruct en, lock; reflexivity.
  - destruct h as [n p tgt lock].
    destruct lock; reflexivity.
Qed.

Lemma command_lookup (v : float) (acts : list IActuator.t) (x h : nat) :
  command v acts x !! h
  = (fun a => if bool_decide (h = x) then (IActuator.setCommand v a).2 else a) <$> acts !! h.
Proof.
  unfold command. destruct (acts !! x) as [a |] eqn:Hx.
  - destruct (decide (h = x)) as [-> | Hne].
    + rewrite list_lookup_insert_eq by (eapply lookup_lt_Some; eauto).
      rewrite Hx. cbn. now rewrite bool_decide_eq_true_2.
    + rewrite list_lookup_insert_ne by congruence.
      destruct (acts !! h); cbn; [now rewrite bool_decide_eq_false_2 | reflexivity].
  - destruct (decide (h = x)) as [-> | Hne].
    + now rewrite Hx.
    + destruct (acts !! h); cbn; [now rewrite bool_decide_eq_false_2 | reflexivity].
Qed.

Lemma commandAll_commandedTo (v : float) (handles : list nat) :
  forall acts : list IActuator.t, commandedTo v handles acts (commandAll v handles acts).
Proof.
  unfold commandedTo, commandAll.
  induction handles as [| x hs IH]; intros acts h; cbn [fold_left].
  - destruct (acts !! h); cbn; [| reflexivity].
    rewrite bool_decide_eq_false_2 by apply not_elem_of_nil. reflexivity.
  - rewrite IH, command_lookup.
    destruct (acts !! h) as [a |]; cbn; [| reflexivity].
    f_equal.
    destruct (decide (h = x)) as [-> | Hne].
    + rewrite (bool_decide_eq_true_2 (x = x)) by reflexivity.
      rewrite (bool_decide_eq_true_2 (x ∈ x :: hs)) by apply list_elem_of_here.
      destruct (bool_decide (x ∈ hs)); [apply setCommand_idempotent | reflexivity].
    + rewrite (bool_decide_eq_false_2 (h = x)) by exact Hne.
      rewrite (bool_decide_ext (h ∈ x :: hs) (h ∈ hs)); [reflexivity |].
      rewrite elem_of_cons. tauto.
Qed.

Lemma commandAll_length (v : float) (handles : list nat) :
  forall acts : list IActuator.t, length (commandAll v handles acts) = length acts.
Proof.
  unfold commandAll.
  induction handles as [| x hs IH]; intros acts; cbn [fold_left]; [reflexivity |].
  rewrite IH. unfold command.
  destruct (acts !! x); [apply length_insert | reflexivity].
Qed.

(** What [setCommand(0.0)] leaves in one actuator. *)
Lemma setCommand_zero (a : IActuator.t) :
  (IActuator.hasInterlock a = false -> IActuator.isEnabled a = true ->
   IActuator.getCommand (IActuator.setCommand 0 a).2
   = Cxx.clamp 0 (IActuator.minLimit a) (IActuator.maxLimit a)) /\
  (IActuator.hasInterlock a = true \/ IActuator.isEnabled a = false ->
   (IActuator.setCommand 0 a).2 = a).
Proof.
  destruct a as [[n c f lo hi [] []] | [n p tgt []]]; cbn; split; intros;
    try reflexivity; intuition discriminate.
Qed.

Lemma inspectedInRange_outOfRange (l : SafetyLimit) (v : float) :
  PrimFloat.ltb v (minValue l) = false ->
  PrimFloat.ltb (maxValue l) v = false ->
  outOfRange l v = false.
Proof. unfold outOfRange. now intros -> ->. Qed.

(** The loop clears the limits found in range and goes on with the rest. *)
Lemma updateLoop_in_range (pre : list SafetyLimit) (s s1 : list ISensor.t) :
  inspectedInRange pre s s1 ->
  forall post : list SafetyLimit,
    updateLoop (pre ++ post) s
    = ((set_isActive false <$> pre) ++ (updateLoop post s1).1.1,
       (updateLoop post s1).1.2, (updateLoop post s1).2).
Proof.
  induction 1 as [s | l ls s s1 s2 v Hget Hmin Hmax _ IH]; intros post.
  - cbn. now destruct (updateLoop post s) as [[? ?] ?].
  - cbn [app updateLoop]. rewrite Hget, (inspectedInRange_outOfRange l v Hmin Hmax), IH.
    reflexivity.
Qed.

Lemma update_all_in_range (m : t) (s0 s1 : list ISensor.t) (acts : list IActuator.t) :
  inspectedInRange (limits_ m) s0 s1 ->
  update m s0 acts
  = mkOutcome (Some true)
      (mk (set_isActive false <$> limits_ m) (controlledActuators_ m) true (lastViolation_ m))
      s1 acts.
Proof.
  intros Hrun. unfold update.
  rewrite <- (app_nil_r (limits_ m)) at 1.
  rewrite (updateLoop_in_range _ _ _ Hrun []). cbn. now rewrite app_nil_r.
Qed.

Lemma update_violation (m : t) (s0 s1 s2 : list ISensor.t) (acts : list IActuator.t)
    (pre rest : list SafetyLimit) (l : SafetyLimit) (v : float) :
  limits_ m = pre ++ l :: rest ->
  inspectedInRange pre s0 s1 ->
  getValue l s1 = (Some v, s2) ->
  outOfRange l v = true ->
  update m s0 acts
  = mkOutcome (Some true)
      (mk ((set_isActive false <$> pre) ++ set_isActive true l :: rest)
          (controlledActuators_ m) false
          (name l +:+ " out of range: " +:+ Cxx.to_string v))
      s2 (commandAll 0%float (controlledActuators_ m) acts).
Proof.
  intros Hlimits Hrun Hget Hout. unfold update.
  rewrite Hlimits, (updateLoop_in_range _ _ _ Hrun). cbn [updateLoop].
  rewrite Hget, Hout. reflexivity.
Qed.

Lemma update_raised (m : t) (s0 s1 s2 : list ISensor.t) (acts : list IActuator.t)
    (pre rest : list SafetyLimit) (l : SafetyLimit) :
  limits_ m = pre ++ l :: rest ->
  inspectedInRange pre s0 s1 ->
  getValue l s1 = (None, s2) ->
  update m s0 acts
  = mkOutcome None
      (mk ((set_isActive false <$> pre) ++ l :: rest)
          (controlledActuators_ m) true (lastViolation_ m))
      s2 acts.
Proof.
  intros Hlimits Hrun Hget. unfold update.
  rewrite Hlimits, (updateLoop_in_range _ _ _ Hrun). cbn [updateLoop].
  rewrite Hget. reflexivity.
Qed.

End SafetyEvaluation.

(** C1, the claim as stated fails: "every registered actuator is commanded
    to zero" holds only of the actuators that accept the command.  With the
    three registered actuators of main interlocked while they hold the
    commands 40, -25 and 60, the evaluation that finds the water at 60 marks
    the system unsafe and leaves the three commands as they are. *)
Lemma violation_leaves_interlocked_commands :
  SafetyMonitor.controlledActuators_ Scenario.monitor = [0; 1; 2]%nat /\
  SafetyMonitor.isSystemSafe (SafetyMonitor.monitor Scenario.overTempLocked) = false /\
  SafetyMonitor.getLastViolation (SafetyMonitor.monitor Scenario.overTempLocked)
    = "MaxTemp out of range: 60.000000" /\
  IActuator.getCommand <$> SafetyMonitor.actuators Scenario.overTempLocked
    = [40%float; (-25)%float; 60%float] /\
  PrimFloat.eqb 40 0 = false.
Proof. vm_compute. repeat split. Qed.

(** C1, amended: one evaluation of the safety monitor.  The limits are
    inspected in registration order, each sampler running on the sensors as
    the one before left them.  With the limits [pre] inspected and found in
    range: if the next limit's sample is below its minimum or above its
    maximum, the system is marked unsafe, [lastViolation] is the limit's
    name, then " out of range: ", then the value as [std::to_string] prints
    it, that limit is active, the limits before it are cleared, the limits
    after it keep their flags and are not sampled (the sensors are as the
    violating sampler left them), and [setCommand(0.0)] has been called on
    every registered actuator: one that accepts commands (not interlocked,
    a motor also enabled) ends with the command [std::clamp(0, min, max)],
    which is 0 when its limits admit 0; one that refuses commands is left as
    it was, its command included; an actuator that is not registered is left
    as it was.  If no limit is left, every limit is cleared, the system is
    marked safe and no actuator is touched. *)
Theorem update_first_violation_wins
    (m : SafetyMonitor.t) (sensors0 s1 : list ISensor.t) (actuators0 : list IActuator.t)
    (pre post : list SafetyMonitor.SafetyLimit) :
  SafetyMonitor.limits_ m = pre ++ post ->
  Vocabulary.inspectedInRange pre sensors0 s1 ->
  (forall (l : SafetyMonitor.SafetyLimit) (rest : list SafetyMonitor.SafetyLimit)
          (v : float) (s2 : list ISensor.t),
      post = l :: rest ->
      SafetyMonitor.getValue l s1 = (Some v, s2) ->
      PrimFloat.ltb v (SafetyMonitor.minValue l) = true
        \/ PrimFloat.ltb (SafetyMonitor.maxValue l) v = true ->
      let o := SafetyMonitor.update m sensors0 actuators0 in
      SafetyMonitor.result o = Some true /\
      SafetyMonitor.isSystemSafe (SafetyMonitor.monitor o) = false /\
      SafetyMonitor.getLastViolation (SafetyMonitor.monitor o)
        = SafetyMonitor.name l +:+ " out of range: " +:+ Cxx.to_string v /\
      SafetyMonitor.limits_ (SafetyMonitor.monitor o)
        = (SafetyMonitor.set_isActive false <$> pre)
            ++ SafetyMonitor.set_isActive true l :: rest /\
      SafetyMonitor.sensors o = s2 /\
      Vocabulary.commandedTo 0 (SafetyMonitor.controlledActuators_ m) actuators0
        (SafetyMonitor.actuators o) /\
      length (SafetyMonitor.actuators o) = length actuators0 /\
      (forall (h : nat) (a : IActuator.t),
         actuators0 !! h = Some a ->
         h ∈ SafetyMonitor.controlledActuators_ m ->
         (IActuator.hasInterlock a = false ->
          IActuator.isEnabled a = true ->
          IActuator.getCommand <$> SafetyMonitor.actuators o !! h
          = Some (Cxx.clamp 0 (IActuator.minLimit a) (IActuator.maxLimit a)) /\
          (PrimFloat.ltb 0 (IActuator.minLimit a) = false ->
           PrimFloat.ltb (IActuator.maxLimit a) 0 = false ->
           IActuator.getCommand <$> SafetyMonitor.actuators o !! h = Some 0%float)) /\
         (IActuator.hasInterlock a = true \/ IActuator.isEnabled a = false ->
          SafetyMonitor.actuators o !! h = Some a)) /\
      (forall h : nat,
         h ∉ SafetyMonitor.controlledActuators_ m ->
         SafetyMonitor.actuators o !! h = actuators0 !! h))
  /\
  (post = [] ->
      let o := SafetyMonitor.update m sensors0 actuators0 in
      SafetyMonitor.result o = Some true /\
      SafetyMonitor.isSystemSafe (SafetyMonitor.monitor o) = true /\
      SafetyMonitor.limits_ (SafetyMonitor.monitor o)
        = SafetyMonitor.set_isActive false <$> pre /\
      SafetyMonitor.sensors o = s1 /\
      SafetyMonitor.actuators o = actuators0).
Proof.
  intros Hlimits Hrun. split.
  - intros l rest v s2 -> Hget Hout o. subst o.
    assert (Hbool : SafetyMonitor.outOfRange l v = true).
    { unfold SafetyMonitor.outOfRange. destruct Hout as [-> | ->];
        [reflexivity | apply orb_true_r]. }
    rewrite (update_violation m sensors0 s1 s2 actuators0 pre rest l v
               Hlimits Hrun Hget Hbool).
    cbn [SafetyMonitor.result SafetyMonitor.monitor SafetyMonitor.sensors
         SafetyMonitor.actuators SafetyMonitor.isSystemSafe SafetyMonitor.systemSafe_
         SafetyMonitor.getLastViolation SafetyMonitor.lastViolation_ SafetyMonitor.limits_].
    pose proof (commandAll_commandedTo 0 (SafetyMonitor.controlledActuators_ m) actuators0)
      as Hcommanded.
    do 5 (split; [reflexivity |]).
    split; [exact Hcommanded |].
    split; [| split].
    + apply commandAll_length.
    + intros h a Ha Hreg. rewrite (Hcommanded h), Ha.
      cbn [fmap option_fmap option_map].
      rewrite bool_decide_eq_true_2 by exact Hreg.
      destruct (setCommand_zero a) as [Haccepted Hrefused].
      split.
      * intros Hlock Hen.
        assert (Hclamp : IActuator.getCommand (IActuator.setCommand 0 a).2
                         = Cxx.clamp 0 (IActuator.minLimit a) (IActuator.maxLimit a))
          by exact (Haccepted Hlock Hen).
        split; [now rewrite Hclamp |].
        intros Hmin Hmax. rewrite Hclamp. unfold Cxx.clamp. now rewrite Hmin, Hmax.
      * intros Hrefuse. now rewrite (Hrefused Hrefuse).
    + intros h Hfree. rewrite (Hcommanded h).
      destruct (actuators0 !! h) as [a |]; [| reflexivity].
      cbn. now rewrite bool_decide_eq_false_2.
  - intros -> o. subst o. rewrite app_nil_r in Hlimits. subst pre.
    rewrite (update_all_in_range m sensors0 s1 actuators0 Hrun).
    cbn. repeat split.
Qed.

(** Depth 10 and water at 60: MaxDepth is inspected first and cleared,
    MaxTemp is violated, the three actuators (commands 40, -25, 60) are
    commanded to zero.  Depth 10 and water at 20: both limits are cleared. *)
Lemma update_first_violation_wins_witness :
  (SafetyMonitor.isSystemSafe (SafetyMonitor.monitor Scenario.overTemp) = false /\
   SafetyMonitor.getLastViolation (SafetyMonitor.monitor Scenario.overTemp)
     = "MaxTemp out of range: 60.000000" /\
   SafetyMonitor.isActive <$> SafetyMonitor.limits_ (SafetyMonitor.monitor Scenario.overTemp)
     = [false; true] /\
   IActuator.getCommand <$> SafetyMonitor.actuators Scenario.overTemp
     = [0%float; 0%float; 0%float]) /\
  (SafetyMonitor.isSystemSafe (SafetyMonitor.monitor Scenario.calm) = true /\
   SafetyMonitor.actuators Scenario.calm = Scenario.actuatorsBusy).
Proof.
  split.
  - pose (s0 := Scenario.sensorsWith (Scenario.depthSensor 10 []) 60).
    pose (s1 := (SafetyMonitor.readSensor 0 s0).2).
    assert (Hrun : Vocabulary.inspectedInRange
                     [SafetyMonitor.mkLimit "MaxDepth" (SafetyMonitor.readSensor 0) 0 100 false]
                     s0 s1).
    { apply (Vocabulary.inspected_cons _ [] s0 s1 s1 10%float);
        [reflexivity | reflexivity | reflexivity | constructor]. }
    destruct (update_first_violation_wins Scenario.monitor s0 s1 Scenario.actuatorsBusy
                [SafetyMonitor.mkLimit "MaxDepth" (SafetyMonitor.readSensor 0) 0 100 false]
                [SafetyMonitor.mkLimit "MaxTemp" (SafetyMonitor.readSensor 1) (-5) 50 false]
                eq_refl Hrun) as [Hviolation _].
    destruct (Hviolation _ [] 60%float s1 eq_refl eq_refl (or_intror eq_refl))
      as (_ & Hsafe & Hmsg & Hlimits & _ & _ & _ & Hregistered & _).
    assert (Hzero : forall (h : nat) (a : IActuator.t),
               Scenario.actuatorsBusy !! h = Some a ->
               h ∈ SafetyMonitor.controlledActuators_ Scenario.monitor ->
               IActuator.hasInterlock a = false ->
               IActuator.isEnabled a = true ->
               PrimFloat.ltb 0 (IActuator.minLimit a) = false ->
               PrimFloat.ltb (IActuator.maxLimit a) 0 = false ->
               IActuator.getCommand
                 <$> SafetyMonitor.actuators
                       (SafetyMonitor.update Scenario.monitor s0 Scenario.actuatorsBusy) !! h
               = Some 0%float).
    { intros h a Ha Hreg Hlock Hen Hmin Hmax.
      exact (proj2 (proj1 (Hregistered h a Ha Hreg) Hlock Hen) Hmin Hmax). }
    unfold Scenario.overTemp. fold s0.
    rewrite Hsafe, Hmsg, Hlimits. split; [reflexivity |]. split; [reflexivity |].
    split; [reflexivity |].
    apply list_eq. intros [| [| [| h]]].
    + rewrite list_lookup_fmap.
      rewrite (Hzero 0%nat _ eq_refl ltac:(apply list_elem_of_In; cbn; tauto)
                 eq_refl eq_refl eq_refl eq_refl). reflexivity.
    + rewrite list_lookup_fmap.
      rewrite (Hzero 1%nat _ eq_refl ltac:(apply list_elem_of_In; cbn; tauto)
                 eq_refl eq_refl eq_refl eq_refl). reflexivity.
    + rewrite list_lookup_fmap.
      rewrite (Hzero 2%nat _ eq_refl ltac:(apply list_elem_of_In; cbn; tauto)
                 eq_refl eq_refl eq_refl eq_refl). reflexivity.
    + vm_compute. reflexivity.
  - pose (s0 := Scenario.sensorsWith (Scenario.depthSensor 10 []) 20).
    pose (s1 := (SafetyMonitor.readSensor 0 s0).2).
    assert (Hrun : Vocabulary.inspectedInRange
                     (SafetyMonitor.limits_ Scenario.monitor) s0 s1).
    { apply (Vocabulary.inspected_cons _ _ s0 s1 s1 10%float);
        [reflexivity | reflexivity | reflexivity | ].
      apply (Vocabulary.inspected_cons _ [] s1 s1 s1 20%float);
        [reflexivity | reflexivity | reflexivity | constructor]. }
    destruct (update_first_violation_wins Scenario.monitor s0 s1 Scenario.actuatorsBusy
                (SafetyMonitor.limits_ Scenario.monitor) [] eq_refl Hrun) as [_ Hsafe].
    destruct (Hsafe eq_refl) as (_ & Hflag & _ & _ & Hacts).
    unfold Scenario.calm. fold s0. rewrite Hflag, Hacts. split; reflexivity.
Defined.

(** ** Safety monitor: a value source that fails *)

(** A NaN reading is neither below the minimum nor above the maximum of any
    limit: the range test takes it for a value in range. *)
Lemma nan_is_in_range (l : SafetyMonitor.SafetyLimit) :
  SafetyMonitor.outOfRange l nan = false.
Proof.
  unfold SafetyMonitor.outOfRange.
  rewrite !FloatAxioms.ltb_spec.
  replace (Prim2SF nan) with S754_nan by reflexivity.
  unfold SFltb. cbn. now destruct (Prim2SF (SafetyMonitor.maxValue l)).
Qed.

(** C4, the claim as stated fails: MaxDepth is in range, the sampler of the
    next limit, HullPressure, throws.  The exception leaves [update]: the
    system is still marked safe, HullPressure is not active, and the
    actuators keep the commands 40, -25 and 60. *)
Lemma failing_sampler_leaves_system_marked_safe :
  SafetyMonitor.result Scenario.brokenSource = None /\
  SafetyMonitor.isSystemSafe (SafetyMonitor.monitor Scenario.brokenSource) = true /\
  SafetyMonitor.isActive
    <$> SafetyMonitor.limits_ (SafetyMonitor.monitor Scenario.brokenSource)
    = [false; false; false] /\
  SafetyMonitor.getLastViolation (SafetyMonitor.monitor Scenario.brokenSource) = EmptyString /\
  IActuator.getCommand <$> SafetyMonitor.actuators Scenario.brokenSource
    = [40%float; (-25)%float; 60%float].
Proof. repeat split. Qed.

(** C4, amended: when the sampler of a limit fails (throws) after the
    limits before it were found in range, the evaluation is abandoned and
    the exception leaves [update]: the system stays marked safe, as set at
    the start of the call, the violation string is unchanged, the limits
    before the failing one are cleared, the failing limit and the limits
    after it keep their flags, and no actuator is commanded. *)
Theorem update_sampler_failure_propagates
    (m : SafetyMonitor.t) (sensors0 s1 s2 : list ISensor.t) (actuators0 : list IActuator.t)
    (pre rest : list SafetyMonitor.SafetyLimit) (l : SafetyMonitor.SafetyLimit) :
  SafetyMonitor.limits_ m = pre ++ l :: rest ->
  Vocabulary.inspectedInRange pre sensors0 s1 ->
  SafetyMonitor.getValue l s1 = (None, s2) ->
  SafetyMonitor.result (SafetyMonitor.update m sensors0 actuators0) = None /\
  SafetyMonitor.isSystemSafe
    (SafetyMonitor.monitor (SafetyMonitor.update m sensors0 actuators0)) = true /\
  SafetyMonitor.getLastViolation
    (SafetyMonitor.monitor (SafetyMonitor.update m sensors0 actuators0))
    = SafetyMonitor.getLastViolation m /\
  SafetyMonitor.limits_ (SafetyMonitor.monitor (SafetyMonitor.update m sensors0 actuators0))
    = (SafetyMonitor.set_isActive false <$> pre) ++ l :: rest /\
  SafetyMonitor.actuators (SafetyMonitor.update m sensors0 actuators0) = actuators0.
Proof.
  intros Hlimits Hrun Hget.
  rewrite (update_raised m sensors0 s1 s2 actuators0 pre rest l Hlimits Hrun Hget).
  repeat split.
Qed.

Lemma update_sampler_failure_propagates_witness :
  SafetyMonitor.result Scenario.brokenSource = None /\
  SafetyMonitor.actuators Scenario.brokenSource = Scenario.actuatorsBusy.
Proof.
  pose (s0 := Scenario.sensorsWith (Scenario.depthSensor 10 []) 20).
  pose (s1 := (SafetyMonitor.readSensor 0 s0).2).
  assert (Hrun : Vocabulary.inspectedInRange
                   [SafetyMonitor.mkLimit "MaxDepth" (SafetyMonitor.readSensor 0) 0 100 false]
                   s0 s1).
  { apply (Vocabulary.inspected_cons _ [] s0 s1 s1 10%float);
      [reflexivity | reflexivity | reflexivity | constructor]. }
  destruct (update_sampler_failure_propagates Scenario.monitorWithBrokenSource
              s0 s1 s1 Scenario.actuatorsBusy
              [SafetyMonitor.mkLimit "MaxDepth" (SafetyMonitor.readSensor 0) 0 100 false]
              [SafetyMonitor.mkLimit "MaxTemp" (SafetyMonitor.readSensor 1) (-5) 50 false]
              (SafetyMonitor.mkLimit "HullPressure" Scenario.unavailable 0 100 false)
              eq_refl Hrun eq_refl) as (Hresult & _ & _ & _ & Hacts).
  split; [exact Hresult | exact Hacts].
Defined.

(** ** Safety monitor: registration of limits *)

(** C5, the claim as stated fails: a second limit named MaxDepth, with the
    minimum 100 above the maximum 0, is registered like any other. *)
Lemma addLimit_accepts_duplicate_and_inverted_range :
  SafetyMonitor.name
    <$> SafetyMonitor.limits_
          (SafetyMonitor.addLimit "MaxDepth" (SafetyMonitor.readSensor 1) 100 0
             (SafetyMonitor.addLimit "MaxDepth" (SafetyMonitor.readSensor 0) 0 100
                SafetyMonitor.new))
    = ["MaxDepth"; "MaxDepth"] /\
  (fun l => (SafetyMonitor.minValue l, SafetyMonitor.maxValue l))
    <$> SafetyMonitor.limits_
          (SafetyMonitor.addLimit "MaxDepth" (SafetyMonitor.readSensor 1) 100 0
             (SafetyMonitor.addLimit "MaxDepth" (SafetyMonitor.readSensor 0) 0 100
                SafetyMonitor.new))
    = [(0%float, 100%float); (100%float, 0%float)] /\
  PrimFloat.ltb 0 100 = true.
Proof. repeat split. Qed.

(** C5, amended: [addLimit(name, sample, min, max)] never fails: whatever
    the name and the range, also when a limit of that name is registered
    already or min is above max, it registers the new check after the
    registered ones, not active, and changes nothing else. *)
Theorem addLimit_always_registers
    (name0 : string) (sample : SafetyMonitor.Sampler) (minVal maxVal : float)
    (m : SafetyMonitor.t) :
  SafetyMonitor.limits_ (SafetyMonitor.addLimit name0 sample minVal maxVal m)
    = SafetyMonitor.limits_ m ++ [SafetyMonitor.mkLimit name0 sample minVal maxVal false] /\
  length (SafetyMonitor.limits_ (SafetyMonitor.addLimit name0 sample minVal maxVal m))
    = S (length (SafetyMonitor.limits_ m)) /\
  SafetyMonitor.controlledActuators_ (SafetyMonitor.addLimit name0 sample minVal maxVal m)
    = SafetyMonitor.controlledActuators_ m /\
  SafetyMonitor.isSystemSafe (SafetyMonitor.addLimit name0 sample minVal maxVal m)
    = SafetyMonitor.isSystemSafe m /\
  SafetyMonitor.getLastViolation (SafetyMonitor.addLimit name0 sample minVal maxVal m)
    = SafetyMonitor.getLastViolation m.
Proof.
  repeat split. cbn. rewrite length_app. cbn. lia.
Qed.

(** ** Safety monitor: the violation string *)

(** C8, the claim as stated fails: the depth sensor reads 120 and the
    evaluation records the violation (scenario 1 of the specification); the
    reading is back at 50, the next evaluation finds every limit in range
    and marks the system safe, and the violation string is still there. *)
Lemma lastViolation_survives_recovery :
  SafetyMonitor.isSystemSafe (SafetyMonitor.monitor Scenario.tooDeep) = false /\
  SafetyMonitor.getLastViolation (SafetyMonitor.monitor Scenario.tooDeep)
    = "MaxDepth out of range: 120.000000" /\
  IActuator.getCommand <$> SafetyMonitor.actuators Scenario.tooDeep
    = [0%float; 0%float; 0%float] /\
  SafetyMonitor.isSystemSafe (SafetyMonitor.monitor Scenario.backInRange) = true /\
  SafetyMonitor.isActive
    <$> SafetyMonitor.limits_ (SafetyMonitor.monitor Scenario.backInRange) = [false; false] /\
  SafetyMonitor.getLastViolation (SafetyMonitor.monitor Scenario.backInRange)
    = "MaxDepth out of range: 120.000000".
Proof. vm_compute. repeat split. Qed.

(** C8, amended: [lastViolation()] is empty from construction until the
    first violation; an evaluation in which no limit is violated marks the
    system safe and leaves the string as it was, so after a violation has
    cleared, [isSafe()] is true and [lastViolation()] still returns the
    message of the most recent violation.  [initialize], [addLimit] and
    [addActuator] do not touch the string. *)
Theorem lastViolation_unchanged_when_safe
    (m : SafetyMonitor.t) (sensors0 s1 : list ISensor.t) (actuators0 : list IActuator.t) :
  Vocabulary.inspectedInRange (SafetyMonitor.limits_ m) sensors0 s1 ->
  SafetyMonitor.isSystemSafe
    (SafetyMonitor.monitor (SafetyMonitor.update m sensors0 actuators0)) = true /\
  SafetyMonitor.getLastViolation
    (SafetyMonitor.monitor (SafetyMonitor.update m sensors0 actuators0))
    = SafetyMonitor.getLastViolation m /\
  SafetyMonitor.getLastViolation SafetyMonitor.new = EmptyString /\
  SafetyMonitor.getLastViolation (SafetyMonitor.initialize m).2
    = SafetyMonitor.getLastViolation m /\
  (forall (n : string) (g : SafetyMonitor.Sampler) (lo hi : float),
     SafetyMonitor.getLastViolation (SafetyMonitor.addLimit n g lo hi m)
     = SafetyMonitor.getLastViolation m) /\
  (forall h : nat,
     SafetyMonitor.getLastViolation (SafetyMonitor.addActuator h m)
     = SafetyMonitor.getLastViolation m).
Proof.
  intros Hrun.
  rewrite (update_all_in_range m sensors0 s1 actuators0 Hrun).
  repeat split.
Qed.

Lemma lastViolation_unchanged_when_safe_witness :
  SafetyMonitor.isSystemSafe (SafetyMonitor.monitor Scenario.backInRange) = true /\
  SafetyMonitor.getLastViolation (SafetyMonitor.monitor Scenario.backInRange)
    = "MaxDepth out of range: 120.000000".
Proof.
  pose (s0 := Scenario.depthReads 50 (SafetyMonitor.sensors Scenario.tooDeep)).
  pose (s1 := (SafetyMonitor.readSensor 0 s0).2).
  assert (Hrun : Vocabulary.inspectedInRange
                   (SafetyMonitor.limits_ (SafetyMonitor.monitor Scenario.tooDeep)) s0 s1).
  { apply (Vocabulary.inspected_cons _ _ s0 s1 s1 85%float);
      [reflexivity | reflexivity | reflexivity | ].
    apply (Vocabulary.inspected_cons _ [] s1 s1 s1 20%float);
      [reflexivity | reflexivity | reflexivity | constructor]. }
  destruct (lastViolation_unchanged_when_safe (SafetyMonitor.monitor Scenario.tooDeep)
              s0 s1 (SafetyMonitor.actuators Scenario.tooDeep) Hrun)
    as (Hsafe & Hkept & _).
  unfold Scenario.backInRange. fold s0.
  rewrite Hsafe, Hkept. split; reflexivity.
Defined.

(** ** ECU watchdog *)

Section Watchdog.

Import ECU.

(** More than five whole seconds have elapsed exactly when at least six
    seconds have. *)
Lemma seconds_count_exceeds_5 (d : Z) :
  (5 <? seconds_count d) = (6 * periods_per_second <=? d).
Proof.
  unfold seconds_count, periods_per_second.
  pose proof (Z.quot_rem' d 1000000000) as Hsplit.
  destruct (Z_le_gt_dec 0 d) as [Hpos | Hneg].
  - pose proof (Z.rem_bound_pos d 1000000000 Hpos ltac:(lia)) as Hrem.
    destruct (Z.ltb_spec 5 (d ÷ 1000000000)), (Z.leb_spec (6 * 1000000000) d);
      try reflexivity; lia.
  - pose proof (Z.rem_nonpos d 1000000000 ltac:(lia) ltac:(lia)) as Hrem.
    pose proof (Z.rem_bound_abs d 1000000000 ltac:(lia)) as Habs.
    destruct (Z.ltb_spec 5 (d ÷ 1000000000)), (Z.leb_spec (6 * 1000000000) d);
      try reflexivity; lia.
Qed.

Lemma wrap_int_in_range (z : Z) :
  - 2 ^ 31 <= z <= Cxx.INT_MAX -> Cxx.wrap_int z = z.
Proof.
  unfold Cxx.wrap_int, Cxx.INT_MAX. intros Hz.
  rewrite Z.mod_small by lia. lia.
Qed.

Lemma update_times_out (now : time_point) (e : t) :
  status_ e = ONLINE ->
  6 * periods_per_second <= now - lastCommunication_ e ->
  status_ (update now e).2 = DEGRADED /\
  communicationErrors_ (update now e).2 = Cxx.wrap_int (communicationErrors_ e + 1) /\
  (update now e).1 = true.
Proof.
  intros Hon Hlate. unfold update, timedOut.
  rewrite seconds_count_exceeds_5, Hon.
  rewrite (proj2 (Z.leb_le _ _) Hlate). cbn. auto.
Qed.

Lemma update_in_time (now : time_point) (e : t) :
  now - lastCommunication_ e < 6 * periods_per_second ->
  status_ (update now e).2 = status_ e /\
  communicationErrors_ (update now e).2 = communicationErrors_ e.
Proof.
  intros Hearly. unfold update, timedOut.
  rewrite seconds_count_exceeds_5.
  rewrite (proj2 (Z.leb_gt _ _) Hearly). cbn. auto.
Qed.

Lemma update_not_online (now : time_point) (e : t) :
  status_ e <> ONLINE ->
  status_ (update now e).2 = status_ e /\
  communicationErrors_ (update now e).2 = communicationErrors_ e.
Proof.
  intros Hoff. unfold update, timedOut.
  destruct (status_ e) eqn:Hst; try congruence;
    rewrite andb_false_r; cbn; auto.
Qed.

Lemma observed_status (now : time_point) (e : t) :
  status_ (updateCommunicationTimestamp now e)
  = (if status_eqb (status_ e) DEGRADED then ONLINE else status_ e) /\
  lastCommunication_ (updateCommunicationTimestamp now e) = now /\
  communicationErrors_ (updateCommunicationTimestamp now e) = communicationErrors_ e.
Proof. repeat split. Qed.

End Watchdog.

(** C2, the claim as stated fails: communication is observed at t0 = 100 s
    and the ECU is ticked 5.001 s later.  More than 5 seconds have elapsed,
    and the ECU is still online with no error counted: the watchdog
    compares whole seconds. *)
Lemma watchdog_silent_after_5001_ms :
  (5 * ECU.periods_per_second
     <? (Scenario.seconds 100 + Scenario.milliseconds 5001) - Scenario.seconds 100) = true /\
  ECU.getECUStatus
    (ECU.update (Scenario.seconds 100 + Scenario.milliseconds 5001)
       (ECU.updateCommunicationTimestamp (Scenario.seconds 100) Scenario.ecu02Online)).2
    = ECU.ONLINE /\
  ECU.getCommunicationErrors
    (ECU.update (Scenario.seconds 100 + Scenario.milliseconds 5001)
       (ECU.updateCommunicationTimestamp (Scenario.seconds 100) Scenario.ecu02Online)).2
    = 0.
Proof. repeat split. Qed.

(** C2, amended: for every ECU that is online (its error count an [int]
    below INT_MAX): if the time elapsed since the last communication,
    truncated to whole seconds, exceeds 5, that is, if at least 6 seconds
    have elapsed, a tick makes it degraded and adds one to the error count;
    otherwise the tick leaves it online and the count as it is.  In
    particular, after communication was observed at t0, a tick at
    t0 + 5.001 s leaves the ECU online, a tick at t0 + 6 s makes it
    degraded, and a later observation, at any t1, followed by a tick at t1
    brings it back online. *)
Theorem watchdog_counts_whole_seconds (e : ECU.t) (t0 : ECU.time_point) :
  ECU.getECUStatus e = ECU.ONLINE ->
  0 <= ECU.getCommunicationErrors e < Cxx.INT_MAX ->
  (forall now : ECU.time_point,
     6 * ECU.periods_per_second <= now - ECU.lastCommunication_ e ->
     ECU.getECUStatus (ECU.update now e).2 = ECU.DEGRADED /\
     ECU.getCommunicationErrors (ECU.update now e).2 = ECU.getCommunicationErrors e + 1) /\
  (forall now : ECU.time_point,
     now - ECU.lastCommunication_ e < 6 * ECU.periods_per_second ->
     ECU.getECUStatus (ECU.update now e).2 = ECU.ONLINE /\
     ECU.getCommunicationErrors (ECU.update now e).2 = ECU.getCommunicationErrors e) /\
  ECU.getECUStatus
    (ECU.update (t0 + 5001 * 1000000) (ECU.updateCommunicationTimestamp t0 e)).2
    = ECU.ONLINE /\
  ECU.getECUStatus
    (ECU.update (t0 + 6 * ECU.periods_per_second) (ECU.updateCommunicationTimestamp t0 e)).2
    = ECU.DEGRADED /\
  (forall t1 : ECU.time_point,
     ECU.getECUStatus
       (ECU.update t1
          (ECU.updateCommunicationTimestamp t1
             (ECU.update (t0 + 6 * ECU.periods_per_second)
                (ECU.updateCommunicationTimestamp t0 e)).2)).2
     = ECU.ONLINE).
Proof.
  unfold ECU.getECUStatus, ECU.getCommunicationErrors. intros Hon Herr.
  assert (Hobserved : ECU.status_ (ECU.updateCommunicationTimestamp t0 e) = ECU.ONLINE)
    by (rewrite (proj1 (observed_status t0 e)), Hon; reflexivity).
  repeat split.
  - now apply update_times_out.
  - destruct (update_times_out now e Hon H) as (_ & -> & _).
    apply wrap_int_in_range. unfold Cxx.INT_MAX in *. lia.
  - destruct (update_in_time now e H) as [-> _]. exact Hon.
  - now apply update_in_time.
  - destruct (update_in_time (t0 + 5001 * 1000000) (ECU.updateCommunicationTimestamp t0 e))
      as [-> _]; [cbn; unfold ECU.periods_per_second; lia | exact Hobserved].
  - apply update_times_out; [exact Hobserved | cbn; lia].
  - intros t1.
    set (d := (ECU.update (t0 + 6 * ECU.periods_per_second)
                 (ECU.updateCommunicationTimestamp t0 e)).2).
    assert (Hd : ECU.status_ d = ECU.DEGRADED)
      by (apply update_times_out; [exact Hobserved | cbn; lia]).
    assert (Hback : ECU.status_ (ECU.updateCommunicationTimestamp t1 d) = ECU.ONLINE)
      by (rewrite (proj1 (observed_status t1 d)), Hd; reflexivity).
    destruct (update_in_time t1 (ECU.updateCommunicationTimestamp t1 d)) as [-> _];
      [cbn; unfold ECU.periods_per_second; lia | exact Hback].
Qed.

(** Scenario 3 of the specification: ECU02, initialized at t = 0 and not
    heard of since, is ticked at t = 6 s: degraded, one error counted. *)
Lemma watchdog_counts_whole_seconds_witness :
  ECU.getECUStatus (ECU.update (Scenario.seconds 6) Scenario.ecu02Online).2 = ECU.DEGRADED /\
  ECU.getCommunicationErrors (ECU.update (Scenario.seconds 6) Scenario.ecu02Online).2 = 1.
Proof.
  assert (Herr : 0 <= ECU.getCommunicationErrors Scenario.ecu02Online < Cxx.INT_MAX)
    by (split; vm_compute; congruence).
  assert (Hsilent : 6 * ECU.periods_per_second
                    <= Scenario.seconds 6 - ECU.lastCommunication_ Scenario.ecu02Online)
    by (vm_compute; congruence).
  destruct (watchdog_counts_whole_seconds Scenario.ecu02Online 0 eq_refl Herr) as (Hlate & _).
  destruct (Hlate (Scenario.seconds 6) Hsilent) as [Hstatus Herrors].
  split; [exact Hstatus | exact Herrors].
Defined.

(** ** ECU manager: registration *)

(** C6, the claim as stated fails: the manager holds ECU02 and ECU03;
    adding another ECU object that carries the id ECU02 does not fail: it
    takes the place of the registered one, which is no longer in the
    collection. *)
Lemma addECU_replaces_registered_ecu :
  ECUManager.getECU "ECU02" Scenario.manager = Some Scenario.ecu02 /\
  ECUManager.getECU "ECU02" (ECUManager.addECU Scenario.ecu02Spare Scenario.manager)
    = Some Scenario.ecu02Spare /\
  ECU.name_ Scenario.ecu02 = "Teensy 4.0 Sensor Node" /\
  ECU.name_ Scenario.ecu02Spare = "Spare Sensor Node" /\
  ECUManager.getTotalECUCount Scenario.manager = 2%nat /\
  ECUManager.getTotalECUCount (ECUManager.addECU Scenario.ecu02Spare Scenario.manager) = 2%nat.
Proof. vm_compute. repeat split. Qed.

(** C6, amended: adding an ECU stores it under its id and never fails; the
    ECUs registered under other ids are unchanged.  If the id was free the
    collection grows by one; if an ECU with the same id was registered, the
    new one replaces it and the size stays.  The aggregate flag is not
    recomputed. *)
Theorem addECU_inserts_or_replaces (ecu : ECU.t) (m : ECUManager.t) :
  ECUManager.getECU (ECU.getECUID ecu) (ECUManager.addECU ecu m) = Some ecu /\
  (forall id : string,
     id <> ECU.getECUID ecu ->
     ECUManager.getECU id (ECUManager.addECU ecu m) = ECUManager.getECU id m) /\
  (ECUManager.getECU (ECU.getECUID ecu) m = None ->
     ECUManager.getTotalECUCount (ECUManager.addECU ecu m)
     = S (ECUManager.getTotalECUCount m)) /\
  (forall old : ECU.t,
     ECUManager.getECU (ECU.getECUID ecu) m = Some old ->
     ECUManager.getTotalECUCount (ECUManager.addECU ecu m)
     = ECUManager.getTotalECUCount m) /\
  ECUManager.areAllECUsOnline (ECUManager.addECU ecu m) = ECUManager.areAllECUsOnline m.
Proof.
  unfold ECUManager.getECU, ECUManager.addECU, ECUManager.getTotalECUCount. cbn.
  repeat split.
  - apply lookup_insert_eq.
  - intros id Hne. apply lookup_insert_ne. congruence.
  - intros Hfree. now apply map_size_insert_None.
  - intros old Hold. apply map_size_insert_Some. now exists old.
Qed.

Lemma addECU_inserts_or_replaces_witness :
  ECUManager.getTotalECUCount
    (ECUManager.addECU Scenario.ecu02 (ECUManager.new "TBM ROV Control System")) = 1%nat /\
  ECUManager.getTotalECUCount (ECUManager.addECU Scenario.ecu02Spare Scenario.manager)
    = ECUManager.getTotalECUCount Scenario.manager.
Proof.
  split.
  - destruct (addECU_inserts_or_replaces Scenario.ecu02
                (ECUManager.new "TBM ROV Control System")) as (_ & _ & Hfresh & _).
    rewrite (Hfresh eq_refl). reflexivity.
  - destruct (addECU_inserts_or_replaces Scenario.ecu02Spare Scenario.manager)
      as (_ & _ & _ & Hreplace & _).
    apply (Hreplace Scenario.ecu02). vm_compute. reflexivity.
Defined.

(** ** ECU manager: the aggregate flag *)

Section Aggregate.

Import ECUManager Vocabulary.

Lemma status_eqb_online (e : ECU.t) :
  ECU.status_eqb (ECU.getECUStatus e) ECU.ONLINE = true <-> online e.
Proof.
  unfold online. destruct (ECU.getECUStatus e); cbn; split; congruence.
Qed.

(** The loop with its [break] computes the conjunction. *)
Lemma scanOnline_Forall (entries : list (string * ECU.t)) :
  scanOnline entries = true <-> Forall (fun p => online p.2) entries.
Proof.
  induction entries as [| [id e] rest IH]; cbn.
  - split; [constructor | reflexivity].
  - rewrite Forall_cons. cbn. rewrite <- IH, <- status_eqb_online.
    destruct (ECU.status_eqb (ECU.getECUStatus e) ECU.ONLINE); cbn; intuition congruence.
Qed.

Lemma updateSystemStatus_spec (m : t) :
  areAllECUsOnline (updateSystemStatus m) = true
  <-> map_Forall (fun _ e => online e) (ecus_ m).
Proof.
  unfold areAllECUsOnline, updateSystemStatus. cbn.
  rewrite scanOnline_Forall, map_Forall_to_list.
  apply Forall_proper; [| reflexivity]. intros [id e]. reflexivity.
Qed.

Lemma updateSystemStatus_ecus (m : t) : ecus_ (updateSystemStatus m) = ecus_ m.
Proof. reflexivity. Qed.

Lemma flag_false_iff (b : bool) (ecus : gmap string ECU.t) :
  (b = true <-> map_Forall (fun _ e => online e) ecus) ->
  (b = false <-> exists (id : string) (e : ECU.t), ecus !! id = Some e /\ ~ online e).
Proof.
  intros Hflag. rewrite <- map_not_Forall by (intros ? ?; apply _).
  rewrite <- Hflag. destruct b; split; congruence.
Qed.

End Aggregate.

Lemma update_members (clock : string -> ECU.time_point) (m : ECUManager.t) (id : string) :
  ECUManager.ecus_ (ECUManager.update clock m).2 !! id
  = (fun e => (ECU.update (clock id) e).2) <$> ECUManager.ecus_ m !! id.
Proof.
  unfold ECUManager.update. cbn.
  rewrite lookup_fmap, map_lookup_imap.
  now destruct (ECUManager.ecus_ m !! id).
Qed.

Lemma initialize_members (m : ECUManager.t) (id : string) :
  ECUManager.ecus_ (ECUManager.initialize m).2 !! id
  = (fun e => (ECU.initialize e).2) <$> ECUManager.ecus_ m !! id.
Proof.
  unfold ECUManager.initialize. cbn.
  rewrite !lookup_fmap.
  now destruct (ECUManager.ecus_ m !! id).
Qed.

(** C7, the claim as stated fails.  A manager initialized while empty has
    the flag set; an ECU added afterwards is offline, and [allOnline()]
    still answers true.  And a manager just constructed answers false with
    no ECU registered at all. *)
Lemma allOnline_stale_after_addECU :
  ECUManager.areAllECUsOnline Scenario.managerReady = true /\
  ECUManager.areAllECUsOnline (ECUManager.addECU Scenario.ecu02 Scenario.managerReady)
    = true /\
  ECU.getECUStatus
    <$> ECUManager.getECU "ECU02" (ECUManager.addECU Scenario.ecu02 Scenario.managerReady)
    = Some ECU.OFFLINE /\
  ECUManager.areAllECUsOnline (ECUManager.new "TBM ROV Control System") = false /\
  ECUManager.getTotalECUCount (ECUManager.new "TBM ROV Control System") = 0%nat.
Proof. vm_compute. repeat split. Qed.

(** C7, amended: right after the manager's [update] (its tick) and right
    after its [initialize], which recompute the flag, [allOnline()] is the
    conjunction over all registered ECUs of (status == Online): it is false
    if and only if at least one registered ECU's status differs from
    Online.  In between [allOnline()] returns the stored flag: false at
    construction and after [shutdown], and unchanged by [addECU] and by a
    write to an ECU through the reference [getECU] gave out. *)
Theorem allOnline_after_recompute (clock : string -> ECU.time_point) (m : ECUManager.t) :
  (ECUManager.areAllECUsOnline (ECUManager.update clock m).2 = true
   <-> map_Forall (fun _ e => ECU.getECUStatus e = ECU.ONLINE)
         (ECUManager.ecus_ (ECUManager.update clock m).2)) /\
  (ECUManager.areAllECUsOnline (ECUManager.update clock m).2 = false
   <-> exists (id : string) (e : ECU.t),
         ECUManager.getECU id (ECUManager.update clock m).2 = Some e /\
         ECU.getECUStatus e <> ECU.ONLINE) /\
  (ECUManager.areAllECUsOnline (ECUManager.initialize m).2 = true
   <-> map_Forall (fun _ e => ECU.getECUStatus e = ECU.ONLINE)
         (ECUManager.ecus_ (ECUManager.initialize m).2)) /\
  (ECUManager.areAllECUsOnline (ECUManager.initialize m).2 = false
   <-> exists (id : string) (e : ECU.t),
         ECUManager.getECU id (ECUManager.initialize m).2 = Some e /\
         ECU.getECUStatus e <> ECU.ONLINE) /\
  (forall id : string,
     ECUManager.getECU id (ECUManager.update clock m).2
     = (fun e => (ECU.update (clock id) e).2) <$> ECUManager.getECU id m) /\
  ECUManager.areAllECUsOnline (ECUManager.new (ECUManager.systemName_ m)) = false /\
  ECUManager.areAllECUsOnline (ECUManager.shutdown m).2 = false /\
  (forall ecu : ECU.t,
     ECUManager.areAllECUsOnline (ECUManager.addECU ecu m) = ECUManager.areAllECUsOnline m) /\
  (forall (id : string) (f : ECU.t -> ECU.t),
     ECUManager.areAllECUsOnline (ECUManager.withECU id f m)
     = ECUManager.areAllECUsOnline m).
Proof.
  assert (Hupdate : ECUManager.areAllECUsOnline (ECUManager.update clock m).2 = true
                    <-> map_Forall (fun _ e => Vocabulary.online e)
                          (ECUManager.ecus_ (ECUManager.update clock m).2))
    by exact (updateSystemStatus_spec
                (ECUManager.mk
                   (snd <$> map_imap (fun id e => Some (ECU.update (clock id) e))
                                     (ECUManager.ecus_ m))
                   (ECUManager.allECUsOnline_ m) (ECUManager.systemName_ m))).
  assert (Hinit : ECUManager.areAllECUsOnline (ECUManager.initialize m).2 = true
                  <-> map_Forall (fun _ e => Vocabulary.online e)
                        (ECUManager.ecus_ (ECUManager.initialize m).2))
    by exact (updateSystemStatus_spec
                (ECUManager.mk (snd <$> (ECU.initialize <$> ECUManager.ecus_ m))
                   (ECUManager.allECUsOnline_ m) (ECUManager.systemName_ m))).
  split; [exact Hupdate |].
  split; [exact (flag_false_iff _ _ Hupdate) |].
  split; [exact Hinit |].
  split; [exact (flag_false_iff _ _ Hinit) |].
  split; [intros id; apply update_members |].
  repeat split.
Qed.

(** Scenario 4 of the specification, with the states the code can reach:
    three ECUs, one of them degraded by the watchdog: after the tick
    [allOnline()] is false and two ECUs count as online. *)
Lemma allOnline_after_recompute_witness :
  ECUManager.areAllECUsOnline
    (ECUManager.update (fun id => if String.eqb id "ECU02" then Scenario.seconds 6 else 0)
       (ECUManager.initialize
          (ECUManager.addECU
             (ECU.new 0 "ECU01" "Raspberry Pi 4B Main Controller" ECU.MAIN_CONTROLLER)
             Scenario.manager)).2).2 = false /\
  ECUManager.getOnlineECUCount
    (ECUManager.update (fun id => if String.eqb id "ECU02" then Scenario.seconds 6 else 0)
       (ECUManager.initialize
          (ECUManager.addECU
             (ECU.new 0 "ECU01" "Raspberry Pi 4B Main Controller" ECU.MAIN_CONTROLLER)
             Scenario.manager)).2).2 = 2%nat.
Proof.
  split.
  - apply (proj1 (proj2 (allOnline_after_recompute
                           (fun id => if String.eqb id "ECU02" then Scenario.seconds 6 else 0)
                           (ECUManager.initialize
                              (ECUManager.addECU
                                 (ECU.new 0 "ECU01" "Raspberry Pi 4B Main Controller"
                                    ECU.MAIN_CONTROLLER)
                                 Scenario.manager)).2))).
    eexists "ECU02", _. split; [vm_compute; reflexivity | discriminate].
  - vm_compute. reflexivity.
Defined.

(** ** The telemetry snapshot *)

Section Snapshot.

Import TM_ControlSystem Vocabulary.











End Snapshot.




(** ** Further properties of the actuators and the watchdog *)

(** An interlocked actuator refuses every command, and its next [update]
    sets the command to zero and reports failure. *)
Theorem interlock_forces_zero (a : IActuator.t) (v : float) :
  IActuator.hasInterlock a = true ->
  IActuator.setCommand v a = (false, a) /\
  IActuator.getCommand (IActuator.update a).2 = 0%float /\
  (IActuator.update a).1 = false.
Proof.
  destruct a as [m | h]; cbn;
    unfold MotorController.hasInterlock, HydraulicValve.hasInterlock; intros Hlock.
  - unfold MotorController.setCommand, MotorController.update.
    rewrite Hlock, orb_true_r. auto.
  - unfold HydraulicValve.setCommand, HydraulicValve.update.
    rewrite Hlock. auto.
Qed.

Lemma interlock_forces_zero_witness :
  IActuator.getCommand
    (IActuator.update
       (IActuator.Motor
          (MotorController.setInterlock true
             (MotorController.setCommand 40 (MotorController.initialize Scenario.thruster1).2).2))).2
  = 0%float.
Proof.
  exact (proj1 (proj2 (interlock_forces_zero
           (IActuator.Motor
              (MotorController.setInterlock true
                 (MotorController.setCommand 40
                    (MotorController.initialize Scenario.thruster1).2).2))
           0%float eq_refl))).
Defined.

(** A tick changes the status of an ECU only from online to degraded: an
    ECU that is offline, initializing, in fault or degraded keeps its status
    and its error count. *)
Theorem tick_leaves_other_states (now : ECU.time_point) (e : ECU.t) :
  ECU.getECUStatus e <> ECU.ONLINE ->
  ECU.getECUStatus (ECU.update now e).2 = ECU.getECUStatus e /\
  ECU.getCommunicationErrors (ECU.update now e).2 = ECU.getCommunicationErrors e.
Proof. apply update_not_online. Qed.

Lemma tick_leaves_other_states_witness :
  ECU.getECUStatus (ECU.update (Scenario.seconds 3600) Scenario.ecu02).2 = ECU.OFFLINE.
Proof.
  exact (proj1 (tick_leaves_other_states (Scenario.seconds 3600) Scenario.ecu02
                  ltac:(discriminate))).
Defined.

(** ** Order and cancellation of binary64 numbers *)

Section FloatFacts.

Lemma SFcompare_antisym (x y : spec_float) :
  SFcompare y x = option_map CompOpp (SFcompare x y).
Proof.
  destruct x as [sx | sx | | sx mx ex], y as [sy | sy | | sy my ey]; cbn;
    try reflexivity;
    try (destruct sx; reflexivity);
    try (destruct sy; reflexivity);
    try (destruct sx, sy; reflexivity).
  pose proof (Pos.compare_cont_antisym mx my Eq) as Hm. cbn in Hm.
  destruct sx, sy; cbn; try reflexivity; f_equal;
    rewrite (Z.compare_antisym ex ey);
    destruct (ex ?= ey); cbn; try reflexivity;
    rewrite <- Hm; try reflexivity; now rewrite CompOpp_involutive.
Qed.

Lemma SFcompare_refl (x : spec_float) :
  x <> S754_nan -> SFcompare x x = Some Eq.
Proof.
  destruct x as [s | s | | s m e]; cbn; intros Hx; try congruence.
  - now destruct s.
  - destruct s; rewrite Z.compare_refl, Pos.compare_cont_refl; reflexivity.
Qed.

Lemma is_nan_false (x : float) : PrimFloat.is_nan x = false <-> Prim2SF x <> S754_nan.
Proof.
  unfold PrimFloat.is_nan. rewrite FloatAxioms.eqb_spec. unfold SFeqb.
  split.
  - intros Hnan Hx. rewrite Hx in Hnan. discriminate.
  - intros Hx. now rewrite SFcompare_refl.
Qed.

(** On numbers, "not below" is "at least". *)
Lemma not_ltb_leb (x y : float) :
  PrimFloat.is_nan x = false -> PrimFloat.is_nan y = false ->
  PrimFloat.ltb x y = false -> PrimFloat.leb y x = true.
Proof.
  rewrite !is_nan_false, FloatAxioms.ltb_spec, FloatAxioms.leb_spec.
  unfold SFltb, SFleb. rewrite (SFcompare_antisym (Prim2SF x) (Prim2SF y)).
  intros Hx Hy.
  destruct (SFcompare (Prim2SF x) (Prim2SF y)) as [[ | | ] |] eqn:Hc; cbn;
    try congruence.
  destruct (Prim2SF x) as [ | | | ? ? ?], (Prim2SF y) as [ | | | ? ? ?];
    cbn in Hc; congruence.
Qed.

Lemma leb_numbers (x y : float) :
  PrimFloat.leb x y = true -> PrimFloat.is_nan x = false /\ PrimFloat.is_nan y = false.
Proof.
  rewrite !is_nan_false, FloatAxioms.leb_spec. unfold SFleb.
  destruct (Prim2SF x) as [ | | | ? ? ?], (Prim2SF y) as [ | | | ? ? ?];
    cbn; intros H; split; congruence.
Qed.

Lemma leb_refl (x : float) : PrimFloat.is_nan x = false -> PrimFloat.leb x x = true.
Proof.
  rewrite is_nan_false, FloatAxioms.leb_spec. unfold SFleb.
  intros Hx. now rewrite SFcompare_refl.
Qed.

(** [std::clamp] of a number lies between the bounds. *)
Lemma clamp_between (v lo hi : float) :
  PrimFloat.is_nan v = false ->
  PrimFloat.leb lo hi = true ->
  PrimFloat.leb lo (Cxx.clamp v lo hi) = true /\
  PrimFloat.leb (Cxx.clamp v lo hi) hi = true.
Proof.
  intros Hv Hle. destruct (leb_numbers lo hi Hle) as [Hlo Hhi].
  unfold Cxx.clamp.
  destruct (PrimFloat.ltb v lo) eqn:Hbelow; [split; [now apply leb_refl | exact Hle] |].
  destruct (PrimFloat.ltb hi v) eqn:Habove; [split; [exact Hle | now apply leb_refl] |].
  split; now apply not_ltb_leb.
Qed.

(** A NaN is returned by [std::clamp] as it is. *)
Lemma clamp_nan (lo hi : float) : Cxx.clamp nan lo hi = nan.
Proof.
  unfold Cxx.clamp. rewrite !FloatAxioms.ltb_spec.
  replace (Prim2SF nan) with S754_nan by reflexivity.
  unfold SFltb. cbn.
  now destruct (Prim2SF hi).
Qed.

Lemma is_finite_cases (x : float) :
  PrimFloat.is_finite x = true ->
  (exists s, Prim2SF x = S754_zero s) \/ (exists s m e, Prim2SF x = S754_finite s m e).
Proof.
  unfold PrimFloat.is_finite, PrimFloat.is_nan, PrimFloat.is_infinity.
  rewrite !FloatAxioms.eqb_spec, FloatAxioms.abs_spec.
  replace (Prim2SF infinity) with (S754_infinity false) by reflexivity.
  destruct (Prim2SF x) as [s | s | | s m e]; cbn; intros H; try discriminate; eauto.
  - now destruct s.
Qed.

(** A finite number and its opposite add up to +0.0. *)
Lemma add_opp_finite (x : float) :
  PrimFloat.is_finite x = true -> (x + - x)%float = 0%float.
Proof.
  intros Hx. apply Prim2SF_inj.
  rewrite FloatAxioms.add_spec, FloatAxioms.opp_spec.
  replace (Prim2SF 0) with (S754_zero false) by reflexivity.
  destruct (is_finite_cases x Hx) as [[s ->] | (s & m & e & ->)].
  - now destruct s.
  - unfold SF64add, SFopp, SFadd. rewrite Z.min_id. unfold shl_align.
    rewrite Z.sub_diag. cbn [fst].
    destruct s; cbn [negb cond_Zopp].
    + now rewrite Z.add_opp_diag_l.
    + now rewrite Z.add_opp_diag_r.
Qed.

End FloatFacts.

(** ** Actuators: what a command can become *)

(** An accepted command that is a number ends up within the limits of the
    actuator, whenever these are in order (min <= max). *)
Theorem accepted_command_within_limits (a : IActuator.t) (v : float) :
  IActuator.hasInterlock a = false ->
  IActuator.isEnabled a = true ->
  PrimFloat.is_nan v = false ->
  PrimFloat.leb (IActuator.minLimit a) (IActuator.maxLimit a) = true ->
  PrimFloat.leb (IActuator.minLimit a)
                (IActuator.getCommand (IActuator.setCommand v a).2) = true /\
  PrimFloat.leb (IActuator.getCommand (IActuator.setCommand v a).2)
                (IActuator.maxLimit a) = true.
Proof.
  intros Hlock Hen Hv Hle.
  assert (Hcmd : IActuator.getCommand (IActuator.setCommand v a).2
                 = Cxx.clamp v (IActuator.minLimit a) (IActuator.maxLimit a)).
  { destruct a as [m | h]; cbn in Hlock, Hen |- *;
      unfold MotorController.hasInterlock, HydraulicValve.hasInterlock in Hlock.
    - unfold MotorController.setCommand. now rewrite Hlock, Hen.
    - unfold HydraulicValve.setCommand. now rewrite Hlock. }
  rewrite Hcmd. now apply clamp_between.
Qed.

Lemma accepted_command_within_limits_witness :
  PrimFloat.leb (-100)
    (IActuator.getCommand
       (IActuator.setCommand (-1e300)
          (IActuator.Motor (MotorController.initialize Scenario.thruster1).2)).2) = true /\
  PrimFloat.leb
    (IActuator.getCommand
       (IActuator.setCommand (-1e300)
          (IActuator.Motor (MotorController.initialize Scenario.thruster1).2)).2) 100 = true.
Proof.
  exact (accepted_command_within_limits
           (IActuator.Motor (MotorController.initialize Scenario.thruster1).2) (-1e300)
           eq_refl eq_refl eq_refl eq_refl).
Defined.

(** A NaN command is not refused: an actuator that accepts commands stores
    it, whatever its limits, and [getCommand()] returns NaN. *)
Theorem nan_command_is_stored (a : IActuator.t) :
  IActuator.hasInterlock a = false ->
  IActuator.isEnabled a = true ->
  (IActuator.setCommand nan a).1 = true /\
  IActuator.getCommand (IActuator.setCommand nan a).2 = nan.
Proof.
  intros Hlock Hen.
  destruct a as [m | h]; cbn in Hlock, Hen |- *;
    unfold MotorController.hasInterlock, HydraulicValve.hasInterlock in Hlock.
  - unfold MotorController.setCommand. rewrite Hlock, Hen. cbn.
    split; [reflexivity | apply clamp_nan].
  - unfold HydraulicValve.setCommand. rewrite Hlock.
    split; [reflexivity | apply (clamp_nan 0 100)].
Qed.

Lemma nan_command_is_stored_witness :
  IActuator.getCommand
    (IActuator.setCommand nan (IActuator.Valve Scenario.valve1)).2 = nan.
Proof.
  exact (proj2 (nan_command_is_stored (IActuator.Valve Scenario.valve1) eq_refl eq_refl)).
Defined.

(** [shutdown()] leaves the command of every actuator at zero.  A motor is
    disabled by it and refuses every command until it is initialized again;
    a valve has no such flag and goes on accepting commands. *)
Theorem shutdown_disables_motors_only (v : float) :
  (forall a : IActuator.t,
     (IActuator.shutdown a).1 = true /\
     IActuator.getCommand (IActuator.shutdown a).2 = 0%float) /\
  (forall m : MotorController.t,
     MotorController.setCommand v (MotorController.shutdown m).2
       = (false, (MotorController.shutdown m).2) /\
     (MotorController.interlockActive_ m = false ->
      MotorController.getCommand
        (MotorController.setCommand v
           (MotorController.initialize (MotorController.shutdown m).2).2).2
      = Cxx.clamp v (MotorController.minLimit_ m) (MotorController.maxLimit_ m))) /\
  (forall h : HydraulicValve.t,
     HydraulicValve.interlockActive_ h = false ->
     HydraulicValve.setCommand v (HydraulicValve.shutdown h).2
       = (true, HydraulicValve.mk (HydraulicValve.name_ h) 0 (Cxx.clamp v 0 100) false)).
Proof.
  split; [| split].
  - intros [m | h]; split; reflexivity.
  - intros m. split; [reflexivity |].
    intros Hlock. unfold MotorController.setCommand. cbn. now rewrite Hlock.
  - intros h Hlock. unfold HydraulicValve.setCommand. cbn. now rewrite Hlock.
Qed.

Lemma shutdown_disables_motors_only_witness :
  MotorController.getCommand
    (MotorController.setCommand 30
       (MotorController.initialize (MotorController.shutdown Scenario.thruster1).2).2).2
    = 30%float /\
  HydraulicValve.getCommand
    (HydraulicValve.setCommand 30 (HydraulicValve.shutdown Scenario.valve1).2).2 = 30%float.
Proof.
  destruct (shutdown_disables_motors_only 30) as (_ & Hmotor & Hvalve).
  split.
  - rewrite (proj2 (Hmotor Scenario.thruster1) eq_refl). reflexivity.
  - rewrite (Hvalve Scenario.valve1 eq_refl). reflexivity.
Defined.

(** One [update()] of a valve that is not interlocked moves the position
    by a step between -5 and 5 (the distance to the target, when that is
    within these bounds) and leaves the target as it is. *)
Theorem valve_update_step_bounded (h : HydraulicValve.t) :
  HydraulicValve.interlockActive_ h = false ->
  PrimFloat.is_nan (HydraulicValve.targetPosition_ h - HydraulicValve.position_ h) = false ->
  exists step : float,
    HydraulicValve.update h
      = (true, HydraulicValve.mk (HydraulicValve.name_ h)
                 (HydraulicValve.position_ h + step)%float
                 (HydraulicValve.targetPosition_ h) false) /\
    step = Cxx.clamp (HydraulicValve.targetPosition_ h - HydraulicValve.position_ h) (-5) 5 /\
    PrimFloat.leb (-5) step = true /\
    PrimFloat.leb step 5 = true.
Proof.
  intros Hlock Herr.
  exists (Cxx.clamp (HydraulicValve.targetPosition_ h - HydraulicValve.position_ h) (-5) 5).
  split; [| split; [reflexivity | now apply clamp_between]].
  unfold HydraulicValve.update. now rewrite Hlock.
Qed.

(** The gripper valve, target 60 from position 0: the first step is 5. *)
Lemma valve_update_step_bounded_witness :
  HydraulicValve.getFeedback
    (HydraulicValve.update (HydraulicValve.setCommand 60 Scenario.valve1).2).2 = 5%float.
Proof.
  destruct (valve_update_step_bounded (HydraulicValve.setCommand 60 Scenario.valve1).2
              eq_refl eq_refl) as (step & Hupdate & Hstep & _).
  rewrite Hupdate, Hstep. reflexivity.
Defined.

(** ** Pressure sensor: calibration *)

(** [calibrate()] takes the current reading as the zero point: for a
    finite reading the sample is +0.0 from then on, and once ten reads have
    filled the buffer every read returns 0.0, as long as the reading stays. *)
Theorem calibrate_zeroes_finite_reading (s : PressureSensor.t) :
  PrimFloat.is_finite (PressureSensor.currentValue_ s) = true ->
  (length (PressureSensor.historyBuffer_ s) <= 10)%nat ->
  (PressureSensor.calibrate s).1 = true /\
  PressureSensor.sample (PressureSensor.calibrate s).2 = 0%float /\
  PressureSensor.historyBuffer_ (PressureSensor.calibrate s).2
    = PressureSensor.historyBuffer_ s /\
  (forall n : nat, (10 <= n)%nat ->
     last (PressureSensor.readValues n (PressureSensor.calibrate s).2).1 = Some 0%float).
Proof.
  intros Hfinite Hlen.
  assert (Hsample : PressureSensor.sample (PressureSensor.calibrate s).2 = 0%float)
    by (unfold PressureSensor.sample; cbn; now apply add_opp_finite).
  repeat split; [exact Hsample |].
  intros n Hn. destruct n as [| n]; [lia |].
  rewrite readValues_last, readValues_saturated by assumption.
  rewrite Hsample. reflexivity.
Qed.

Lemma calibrate_zeroes_finite_reading_witness :
  last (PressureSensor.readValues 10
          (PressureSensor.calibrate
             (Scenario.depthSensor 14.7 [14.7%float; 14.7%float])).2).1 = Some 0%float.
Proof.
  apply (proj2 (proj2 (proj2 (calibrate_zeroes_finite_reading
           (Scenario.depthSensor 14.7 [14.7%float; 14.7%float])
           eq_refl ltac:(cbn; lia))))).
  lia.
Defined.

(** ** Safety monitor: what the interlock response reaches *)

Lemma actuator_shutdown_idempotent (a : IActuator.t) :
  (IActuator.shutdown (IActuator.shutdown a).2).2 = (IActuator.shutdown a).2.
Proof. destruct a as [m | h]; reflexivity. Qed.

Lemma shutdownAll_lookup (handles : list nat) :
  forall (acts : list IActuator.t) (h : nat),
    SafetyMonitor.shutdownAll handles acts !! h
    = (fun a => if bool_decide (h ∈ handles) then (IActuator.shutdown a).2 else a)
        <$> acts !! h.
Proof.
  unfold SafetyMonitor.shutdownAll.
  induction handles as [| x hs IH]; intros acts h; cbn [fold_left].
  - destruct (acts !! h); cbn; [| reflexivity].
    rewrite bool_decide_eq_false_2 by apply not_elem_of_nil. reflexivity.
  - rewrite IH.
    assert (Hstep : match acts !! x with
                    | Some a => <[x := (IActuator.shutdown a).2]> acts
                    | None => acts
                    end !! h
                    = (fun a => if bool_decide (h = x) then (IActuator.shutdown a).2 else a)
                        <$> acts !! h).
    { destruct (acts !! x) as [ax |] eqn:Hx; destruct (decide (h = x)) as [-> | Hne].
      - rewrite list_lookup_insert_eq by (eapply lookup_lt_Some; eauto).
        rewrite Hx. cbn. now rewrite bool_decide_eq_true_2.
      - rewrite list_lookup_insert_ne by congruence.
        destruct (acts !! h); cbn; [now rewrite bool_decide_eq_false_2 | reflexivity].
      - now rewrite Hx.
      - destruct (acts !! h); cbn; [now rewrite bool_decide_eq_false_2 | reflexivity]. }
    rewrite Hstep.
    destruct (acts !! h) as [a |]; cbn; [| reflexivity].
    f_equal.
    destruct (decide (h = x)) as [-> | Hne].
    + rewrite (bool_decide_eq_true_2 (x = x)) by reflexivity.
      rewrite (bool_decide_eq_true_2 (x ∈ x :: hs)) by apply list_elem_of_here.
      destruct (bool_decide (x ∈ hs)); [apply actuator_shutdown_idempotent | reflexivity].
    + rewrite (bool_decide_eq_false_2 (h = x)) by exact Hne.
      rewrite (bool_decide_ext (h ∈ x :: hs) (h ∈ hs)); [reflexivity |].
      rewrite elem_of_cons. tauto.
Qed.

(** [SafetyMonitor::shutdown] shuts down exactly the registered actuators:
    each of them ends with the command 0 (a motor disabled as well); an
    actuator that was never registered with the monitor is left as it is. *)
Theorem monitor_shutdown_reaches_registered
    (m : SafetyMonitor.t) (acts : list IActuator.t) (h : nat) (a : IActuator.t) :
  acts !! h = Some a ->
  (SafetyMonitor.shutdown m acts).1 = true /\
  length (SafetyMonitor.shutdown m acts).2 = length acts /\
  (h ∈ SafetyMonitor.controlledActuators_ m ->
     (SafetyMonitor.shutdown m acts).2 !! h = Some (IActuator.shutdown a).2 /\
     IActuator.getCommand <$> (SafetyMonitor.shutdown m acts).2 !! h = Some 0%float) /\
  (h ∉ SafetyMonitor.controlledActuators_ m ->
     (SafetyMonitor.shutdown m acts).2 !! h = Some a).
Proof.
  intros Hh. unfold SafetyMonitor.shutdown. cbn [fst snd].
  split; [reflexivity |]. split.
  - unfold SafetyMonitor.shutdownAll.
    generalize acts. induction (SafetyMonitor.controlledActuators_ m) as [| x hs IH];
      intros l; cbn [fold_left]; [reflexivity |].
    rewrite IH. destruct (l !! x); [apply length_insert | reflexivity].
  - split; intros Hreg; rewrite shutdownAll_lookup, Hh; cbn.
    + rewrite bool_decide_eq_true_2 by exact Hreg.
      split; [reflexivity |]. now destruct a.
    + now rewrite bool_decide_eq_false_2.
Qed.

(** The monitor of main holds the three actuators: after its shutdown the
    commands 40, -25 and 60 are all 0. *)
Lemma monitor_shutdown_reaches_registered_witness :
  IActuator.getCommand
    <$> (SafetyMonitor.shutdown Scenario.monitor Scenario.actuatorsBusy).2 !! 2%nat
  = Some 0%float.
Proof.
  destruct (monitor_shutdown_reaches_registered Scenario.monitor Scenario.actuatorsBusy
              2%nat (IActuator.Valve (HydraulicValve.setCommand 60 Scenario.valve1).2)
              eq_refl) as (_ & _ & Hregistered & _).
  apply Hregistered.
  apply list_elem_of_In. cbn. tauto.
Defined.

(** When an evaluation finds a violation, a registered actuator that
    accepts commands and whose limits admit zero ends the call with the
    command 0; a registered actuator that refuses commands (interlocked, or a
    motor that is not enabled) is left exactly as it was. *)
Theorem violation_zeroes_accepting_actuators
    (m : SafetyMonitor.t) (sensors0 s1 s2 : list ISensor.t) (acts : list IActuator.t)
    (pre rest : list SafetyMonitor.SafetyLimit) (l : SafetyMonitor.SafetyLimit)
    (v : float) (h : nat) (a : IActuator.t) :
  SafetyMonitor.limits_ m = pre ++ l :: rest ->
  Vocabulary.inspectedInRange pre sensors0 s1 ->
  SafetyMonitor.getValue l s1 = (Some v, s2) ->
  SafetyMonitor.outOfRange l v = true ->
  h ∈ SafetyMonitor.controlledActuators_ m ->
  acts !! h = Some a ->
  (IActuator.hasInterlock a = false ->
   IActuator.isEnabled a = true ->
   PrimFloat.ltb 0 (IActuator.minLimit a) = false ->
   PrimFloat.ltb (IActuator.maxLimit a) 0 = false ->
   IActuator.getCommand
     <$> SafetyMonitor.actuators (SafetyMonitor.update m sensors0 acts) !! h
   = Some 0%float) /\
  (IActuator.hasInterlock a = true \/ IActuator.isEnabled a = false ->
   SafetyMonitor.actuators (SafetyMonitor.update m sensors0 acts) !! h = Some a).
Proof.
  intros Hlimits Hrun Hget Hout Hreg Hh.
  rewrite (update_violation m sensors0 s1 s2 acts pre rest l v Hlimits Hrun Hget Hout).
  cbn [SafetyMonitor.actuators].
  rewrite (commandAll_commandedTo 0 (SafetyMonitor.controlledActuators_ m) acts h), Hh.
  cbn. rewrite bool_decide_eq_true_2 by exact Hreg.
  split.
  - intros Hlock Hen Hmin Hmax. f_equal.
    destruct a as [mc | hv]; cbn in Hlock, Hen, Hmin, Hmax |- *;
      unfold MotorController.hasInterlock, HydraulicValve.hasInterlock in Hlock.
    + unfold MotorController.setCommand. rewrite Hlock, Hen. cbn.
      unfold Cxx.clamp. now rewrite Hmin, Hmax.
    + unfold HydraulicValve.setCommand. now rewrite Hlock.
  - intros Hrefuse. f_equal.
    destruct a as [mc | hv]; cbn in Hrefuse |- *;
      unfold MotorController.hasInterlock, HydraulicValve.hasInterlock in Hrefuse.
    + unfold MotorController.setCommand.
      destruct Hrefuse as [-> | ->]; [now rewrite orb_true_r | reflexivity].
    + unfold HydraulicValve.setCommand.
      destruct Hrefuse as [-> | Hen]; [reflexivity | discriminate].
Qed.

(** Water at 60: the vertical thruster (command 40) is commanded to 0. *)
Lemma violation_zeroes_accepting_actuators_witness :
  IActuator.getCommand <$> SafetyMonitor.actuators Scenario.overTemp !! 0%nat = Some 0%float.
Proof.
  pose (s0 := Scenario.sensorsWith (Scenario.depthSensor 10 []) 60).
  pose (s1 := (SafetyMonitor.readSensor 0 s0).2).
  assert (Hrun : Vocabulary.inspectedInRange
                   [SafetyMonitor.mkLimit "MaxDepth" (SafetyMonitor.readSensor 0) 0 100 false]
                   s0 s1).
  { apply (Vocabulary.inspected_cons _ [] s0 s1 s1 10%float);
      [reflexivity | reflexivity | reflexivity | constructor]. }
  assert (Hreg : 0%nat ∈ SafetyMonitor.controlledActuators_ Scenario.monitor)
    by (apply list_elem_of_In; cbn; tauto).
  destruct (violation_zeroes_accepting_actuators Scenario.monitor s0 s1 s1
              Scenario.actuatorsBusy
              [SafetyMonitor.mkLimit "MaxDepth" (SafetyMonitor.readSensor 0) 0 100 false]
              []
              (SafetyMonitor.mkLimit "MaxTemp" (SafetyMonitor.readSensor 1) (-5) 50 false)
              60 0%nat
              (IActuator.Motor
                 (MotorController.setCommand 40
                    (MotorController.initialize Scenario.thruster1).2).2)
              eq_refl Hrun eq_refl eq_refl Hreg eq_refl) as [Hzero _].
  exact (Hzero eq_refl eq_refl eq_refl eq_refl).
Defined.

(** ** ECU: the states a client can bring it to *)

Section ECULifecycle.

Import ECU Vocabulary.

Lemma ecuCall_wellRun (e : ECU.t) (c : ECUCall) : wellRun e -> wellRun (ecuCall e c).
Proof.
  unfold wellRun.
  destruct c as [| now | | now | l | ci | d]; cbn [ecuCall].
  - (* initialize *) intros _. right. split; [left |]; reflexivity.
  - (* update *)
    unfold update, timedOut.
    destruct (5 <? seconds_count (now - lastCommunication_ e)); cbn; [| tauto].
    intros [[Hs Hw] | [[Hs | Hs] Hw]]; rewrite Hs; cbn; tauto.
  - (* shutdown *) intros _. left. split; reflexivity.
  - (* observation *)
    intros [[Hs Hw] | [[Hs | Hs] Hw]]; cbn; rewrite Hs; cbn; tauto.
  - cbn. tauto.
  - cbn. tauto.
  - cbn. tauto.
Qed.

Lemma ecuCall_identity (e : ECU.t) (c : ECUCall) :
  ecuID_ (ecuCall e c) = ecuID_ e /\ name_ (ecuCall e c) = name_ e /\
  type_ (ecuCall e c) = type_ e.
Proof.
  destruct c; cbn; auto.
  unfold update. destruct (timedOut now e); cbn; auto.
Qed.

End ECULifecycle.

(** Whatever calls are made on an ECU after its construction, in whatever
    order, it is never seen initializing or in fault: its status is
    offline, online or degraded; its watchdog is armed exactly when it is
    not offline; and its id, name and type are those given at construction. *)
Theorem ecu_never_in_fault
    (cs : list Vocabulary.ECUCall) (now : ECU.time_point) (id name : string)
    (type : ECU.ECUType) :
  (ECU.getECUStatus (Vocabulary.ecuCalls cs (ECU.new now id name type)) = ECU.OFFLINE \/
   ECU.getECUStatus (Vocabulary.ecuCalls cs (ECU.new now id name type)) = ECU.ONLINE \/
   ECU.getECUStatus (Vocabulary.ecuCalls cs (ECU.new now id name type)) = ECU.DEGRADED) /\
  ECU.watchdogActive_ (Vocabulary.ecuCalls cs (ECU.new now id name type))
    = negb (ECU.status_eqb
              (ECU.getECUStatus (Vocabulary.ecuCalls cs (ECU.new now id name type)))
              ECU.OFFLINE) /\
  ECU.getECUID (Vocabulary.ecuCalls cs (ECU.new now id name type)) = id /\
  ECU.getType (Vocabulary.ecuCalls cs (ECU.new now id name type)) = type.
Proof.
  unfold ECU.getECUStatus, ECU.getECUID, ECU.getType, Vocabulary.ecuCalls.
  assert (Hstart : Vocabulary.wellRun (ECU.new now id name type))
    by (left; split; reflexivity).
  assert (Hid : ECU.ecuID_ (ECU.new now id name type) = id) by reflexivity.
  assert (Hty : ECU.type_ (ECU.new now id name type) = type) by reflexivity.
  revert Hstart Hid Hty. generalize (ECU.new now id name type).
  induction cs as [| c cs IH]; intros e Hwell Hid Hty; cbn [fold_left].
  - destruct Hwell as [[Hs Hw] | [[Hs | Hs] Hw]]; rewrite Hs, Hw; cbn; tauto.
  - destruct (ecuCall_identity e c) as (Hid' & _ & Hty').
    apply IH; [now apply ecuCall_wellRun | congruence | congruence].
Qed.

(** An observed communication brings back a degraded ECU and nothing else:
    afterwards the ECU is online exactly when it was online or degraded
    before, an ECU that is offline, initializing or in fault keeps its
    status, the time of the last communication is the time of the call in
    every case, and the error count is unchanged. *)
Theorem observation_recovers_only_degraded (now : ECU.time_point) (e : ECU.t) :
  (ECU.getECUStatus (ECU.updateCommunicationTimestamp now e) = ECU.ONLINE
   <-> ECU.getECUStatus e = ECU.ONLINE \/ ECU.getECUStatus e = ECU.DEGRADED) /\
  (ECU.getECUStatus e <> ECU.DEGRADED ->
   ECU.getECUStatus (ECU.updateCommunicationTimestamp now e) = ECU.getECUStatus e) /\
  ECU.lastCommunication_ (ECU.updateCommunicationTimestamp now e) = now /\
  ECU.getCommunicationErrors (ECU.updateCommunicationTimestamp now e)
    = ECU.getCommunicationErrors e /\
  (forall later : ECU.time_point,
     later - now < 6 * ECU.periods_per_second ->
     ECU.getECUStatus (ECU.update later (ECU.updateCommunicationTimestamp now e)).2
     = ECU.getECUStatus (ECU.updateCommunicationTimestamp now e)).
Proof.
  unfold ECU.getECUStatus, ECU.getCommunicationErrors.
  split; [| split; [| split; [| split]]]; try reflexivity.
  - cbn. destruct (ECU.status_ e); cbn; intuition congruence.
  - cbn. destruct (ECU.status_ e); cbn; congruence.
  - intros later Hsoon.
    now apply (update_in_time later (ECU.updateCommunicationTimestamp now e)).
Qed.

Lemma observation_recovers_only_degraded_witness :
  ECU.getECUStatus (ECU.updateCommunicationTimestamp (Scenario.seconds 9) Scenario.ecu02)
    = ECU.OFFLINE /\
  ECU.getECUStatus
    (ECU.updateCommunicationTimestamp (Scenario.seconds 9)
       (ECU.update (Scenario.seconds 6) Scenario.ecu02Online).2) = ECU.ONLINE.
Proof.
  split.
  - exact (proj1 (proj2 (observation_recovers_only_degraded (Scenario.seconds 9)
                           Scenario.ecu02)) ltac:(discriminate)).
  - apply (proj1 (observation_recovers_only_degraded (Scenario.seconds 9)
                    (ECU.update (Scenario.seconds 6) Scenario.ecu02Online).2)).
    right. reflexivity.
Defined.

(** ** ECU manager: the whole collection *)

Section ManagerLoops.

Import ECUManager Vocabulary.

Lemma allTrue_fold (results : list (string * bool)) : forall flag : bool,
  fold_left (fun flag r => if negb r.2 then false else flag) results flag
  = flag && forallb snd results.
Proof.
  induction results as [| [id b] rest IH]; intros flag; cbn.
  - now rewrite andb_true_r.
  - rewrite IH. destruct b, flag; reflexivity.
Qed.

Lemma allTrue_Forall (results : list (string * bool)) :
  allTrue results = true <-> Forall (fun r => r.2 = true) results.
Proof.
  unfold allTrue. rewrite allTrue_fold. cbn.
  rewrite forallb_forall, Forall_forall.
  split; intros H r Hr; apply H; now apply list_elem_of_In.
Qed.

(** The flag a loop returns, read off the map of results. *)
Lemma allTrue_map (ok : ECU.t -> bool) (results : gmap string (bool * ECU.t)) :
  (forall id r, results !! id = Some r -> r.1 = ok r.2) ->
  allTrue (map_to_list (fst <$> results)) = true
  <-> map_Forall (fun _ e => ok e = true) (snd <$> results).
Proof.
  intros Hok.
  assert (Hlist : allTrue (map_to_list (fst <$> results)) = true
                  <-> map_Forall (fun (_ : string) (b : bool) => b = true) (fst <$> results)).
  { rewrite allTrue_Forall, map_Forall_to_list.
    apply Forall_proper; [| reflexivity]. intros [id b]. reflexivity. }
  rewrite Hlist, !map_Forall_fmap.
  split; intros H id r Hr; specialize (H id r Hr); cbn in *;
    rewrite (Hok id r Hr) in *; exact H.
Qed.

Lemma filter_all {A} (P : A -> Prop) `{forall x, Decision (P x)} (l : list A) :
  Forall P l -> filter P l = l.
Proof.
  induction 1 as [| x l Hx _ IH]; [reflexivity |].
  rewrite filter_cons_True by exact Hx. now rewrite IH.
Qed.

Lemma filter_none {A} (P : A -> Prop) `{forall x, Decision (P x)} (l : list A) :
  Forall (fun x => ~ P x) l -> filter P l = [].
Proof.
  induction 1 as [| x l Hx _ IH]; [reflexivity |].
  now rewrite filter_cons_False by exact Hx.
Qed.

Lemma shutdown_members (m : t) (id : string) :
  ecus_ (shutdown m).2 !! id = (fun e => (ECU.shutdown e).2) <$> ecus_ m !! id.
Proof. unfold shutdown. cbn. apply lookup_fmap. Qed.

End ManagerLoops.

(** [ECUManager::initialize] always succeeds: it returns true, every
    registered ECU is online afterwards with its error count reset and its
    watchdog armed, whatever its state before, no ECU is added or lost, and
    [allOnline()] answers true. *)
Theorem manager_initialize_brings_all_online (m : ECUManager.t) :
  (ECUManager.initialize m).1 = true /\
  ECUManager.areAllECUsOnline (ECUManager.initialize m).2 = true /\
  (forall id : string,
     ECUManager.getECU id (ECUManager.initialize m).2
     = ECU.with_status ECU.ONLINE 0 true <$> ECUManager.getECU id m) /\
  ECUManager.getTotalECUCount (ECUManager.initialize m).2 = ECUManager.getTotalECUCount m /\
  ECUManager.getOnlineECUCount (ECUManager.initialize m).2 = ECUManager.getTotalECUCount m.
Proof.
  assert (Hmembers : forall id : string,
             ECUManager.ecus_ (ECUManager.initialize m).2 !! id
             = ECU.with_status ECU.ONLINE 0 true <$> ECUManager.ecus_ m !! id).
  { intros id. rewrite initialize_members. now destruct (ECUManager.ecus_ m !! id). }
  assert (Honline : map_Forall (fun _ e => Vocabulary.online e)
                      (ECUManager.ecus_ (ECUManager.initialize m).2)).
  { intros id e He. rewrite Hmembers in He.
    destruct (ECUManager.ecus_ m !! id); [| discriminate].
    cbn in He. injection He as <-. reflexivity. }
  assert (Hsize : size (ECUManager.ecus_ (ECUManager.initialize m).2)
                  = size (ECUManager.ecus_ m)).
  { unfold ECUManager.initialize. cbn. now rewrite !map_size_fmap. }
  split; [| split; [| split; [| split]]].
  - unfold ECUManager.initialize. cbn [fst].
    apply (allTrue_map (fun _ => true)).
    + intros id r Hr. rewrite lookup_fmap in Hr.
      destruct (ECUManager.ecus_ m !! id); [| discriminate].
      cbn in Hr. now injection Hr as <-.
    + intros id e _. reflexivity.
  - apply (updateSystemStatus_spec
             (ECUManager.mk (snd <$> (ECU.initialize <$> ECUManager.ecus_ m))
                (ECUManager.allECUsOnline_ m) (ECUManager.systemName_ m))).
    exact Honline.
  - exact Hmembers.
  - exact Hsize.
  - unfold ECUManager.getOnlineECUCount, ECUManager.getTotalECUCount.
    rewrite filter_all.
    + now rewrite length_map_to_list.
    + apply Forall_forall. intros [id e] Hin.
      apply elem_of_map_to_list in Hin. cbn.
      apply status_eqb_online. exact (Honline id e Hin).
Qed.

(** [ECUManager::shutdown] takes every registered ECU offline and disarms
    its watchdog; afterwards no ECU counts as online and [allOnline()]
    answers false.  The error counts are kept. *)
Theorem manager_shutdown_takes_all_offline (m : ECUManager.t) :
  (ECUManager.shutdown m).1 = true /\
  ECUManager.areAllECUsOnline (ECUManager.shutdown m).2 = false /\
  (forall id : string,
     ECUManager.getECU id (ECUManager.shutdown m).2
     = (fun e => ECU.with_status ECU.OFFLINE (ECU.getCommunicationErrors e) false e)
         <$> ECUManager.getECU id m) /\
  ECUManager.getTotalECUCount (ECUManager.shutdown m).2 = ECUManager.getTotalECUCount m /\
  ECUManager.getOnlineECUCount (ECUManager.shutdown m).2 = 0%nat.
Proof.
  split; [reflexivity |]. split; [reflexivity |].
  split; [intros id; apply shutdown_members |].
  split; [unfold ECUManager.shutdown, ECUManager.getTotalECUCount; cbn;
          apply map_size_fmap |].
  unfold ECUManager.getOnlineECUCount.
  rewrite filter_none; [reflexivity |].
  apply Forall_forall. intros [id e] Hin.
  apply elem_of_map_to_list in Hin. rewrite shutdown_members in Hin.
  destruct (ECUManager.ecus_ m !! id); [| discriminate].
  cbn in Hin. injection Hin as <-. cbn. discriminate.
Qed.

(** [ECUManager::update] returns true exactly when, after the tick, every
    registered ECU is online or degraded; it neither adds nor removes an
    ECU; on a manager without ECUs it returns true and sets the aggregate
    flag. *)
Theorem manager_update_reports_health (clock : string -> ECU.time_point) (m : ECUManager.t) :
  ((ECUManager.update clock m).1 = true
   <-> map_Forall (fun _ e => ECU.getECUStatus e = ECU.ONLINE
                              \/ ECU.getECUStatus e = ECU.DEGRADED)
         (ECUManager.ecus_ (ECUManager.update clock m).2)) /\
  (forall id : string,
     is_Some (ECUManager.getECU id (ECUManager.update clock m).2)
     <-> is_Some (ECUManager.getECU id m)) /\
  (ECUManager.getTotalECUCount m = 0%nat ->
   (ECUManager.update clock m).1 = true /\
   ECUManager.areAllECUsOnline (ECUManager.update clock m).2 = true).
Proof.
  set (ok := fun e : ECU.t =>
               ECU.status_eqb (ECU.status_ e) ECU.ONLINE
               || ECU.status_eqb (ECU.status_ e) ECU.DEGRADED).
  assert (Hflag : (ECUManager.update clock m).1 = true
                  <-> map_Forall (fun _ e => ok e = true)
                        (ECUManager.ecus_ (ECUManager.update clock m).2)).
  { unfold ECUManager.update. cbn [fst snd].
    apply (allTrue_map ok).
    intros id r Hr. rewrite map_lookup_imap in Hr.
    destruct (ECUManager.ecus_ m !! id); [| discriminate].
    cbn in Hr. injection Hr as <-. reflexivity. }
  split; [| split].
  - rewrite Hflag.
    split; intros H id e He; specialize (H id e He); cbn in H |- *;
      unfold ok, ECU.getECUStatus in *;
      destruct (ECU.status_ e); cbn in H |- *; intuition congruence.
  - intros id. unfold ECUManager.getECU. rewrite update_members.
    apply fmap_is_Some.
  - unfold ECUManager.getTotalECUCount. intros Hempty.
    apply map_size_empty_inv in Hempty.
    unfold ECUManager.update, ECUManager.updateSystemStatus, ECUManager.areAllECUsOnline.
    cbn. rewrite Hempty, map_imap_empty, !fmap_empty, map_to_list_empty.
    split; reflexivity.
Qed.

Lemma manager_update_reports_health_witness :
  (ECUManager.update (fun _ => Scenario.seconds 60)
     (ECUManager.new "TBM ROV Control System")).1 = true.
Proof.
  exact (proj1 (proj2 (proj2 (manager_update_reports_health
           (fun _ => Scenario.seconds 60) (ECUManager.new "TBM ROV Control System")))
           eq_refl)).
Defined.

(** ** ECU manager: the status line and the lookup by type *)

Section ManagerQueries.

Import ECUManager.

(** Resolves the five filters by status on [p :: l], the status of [p]
    being given by [Hs]. *)
Ltac status_filters Hs :=
  repeat match goal with
         | |- context [filter (fun q => ECU.getECUStatus q.2 = ?st) (?p :: ?l)] =>
             first
               [ rewrite (filter_cons_True (fun q => ECU.getECUStatus q.2 = st) p l)
                   by exact Hs
               | rewrite (filter_cons_False (fun q => ECU.getECUStatus q.2 = st) p l)
                   by (cbn; rewrite Hs; discriminate) ]
         end.

Lemma string_leb_trans (a b c : string) :
  String.leb a b = true -> String.leb b c = true -> String.leb a c = true.
Proof.
  unfold String.leb. revert b c.
  induction a as [| x a IH]; intros [| y b] [| z c]; cbn; try congruence.
  unfold Ascii.compare.
  destruct (N.compare_spec (N_of_ascii x) (N_of_ascii y)) as [Hxy | Hxy | Hxy];
    destruct (N.compare_spec (N_of_ascii y) (N_of_ascii z)) as [Hyz | Hyz | Hyz];
    destruct (N.compare_spec (N_of_ascii x) (N_of_ascii z)) as [Hxz | Hxz | Hxz];
    try congruence; try lia.
  apply IH.
Qed.

#[local] Instance keyLe_transitive : Transitive keyLe.
Proof. intros a b c. unfold keyLe. apply string_leb_trans. Qed.

#[local] Instance keyLe_total : Total keyLe.
Proof. intros a b. unfold keyLe. apply String.leb_total. Qed.

Lemma StronglySorted_filter {A} (R : relation A) (P : A -> Prop)
    `{forall x, Decision (P x)} (l : list A) :
  StronglySorted R l -> StronglySorted R (filter P l).
Proof.
  induction 1 as [| x l _ IH Hx]; [constructor |].
  rewrite filter_cons. destruct (decide (P x)); [| exact IH].
  constructor; [exact IH |].
  apply Forall_forall. intros y Hy. apply list_elem_of_filter in Hy as [_ Hy].
  rewrite Forall_forall in Hx. now apply Hx.
Qed.

Lemma entries_elem_of (m : t) (id : string) (e : ECU.t) :
  (id, e) ∈ entries m <-> ecus_ m !! id = Some e.
Proof.
  unfold entries. rewrite merge_sort_Permutation. apply elem_of_map_to_list.
Qed.

Lemma entries_sorted (m : t) : StronglySorted keyLe (entries m).
Proof. apply (StronglySorted_merge_sort keyLe). Qed.

Lemma entries_NoDup (m : t) : NoDup (entries m).
Proof. unfold entries. rewrite merge_sort_Permutation. apply NoDup_map_to_list. Qed.

Lemma countStatus_step (on off fl dg : Z) (p : string * ECU.t) (st : ECU.ECUStatus) :
  ECU.getECUStatus p.2 = st ->
  countStatus (on, off, fl, dg) p
  = match st with
    | ECU.ONLINE => (Cxx.wrap_int (on + 1), off, fl, dg)
    | ECU.OFFLINE => (on, Cxx.wrap_int (off + 1), fl, dg)
    | ECU.FAULT => (on, off, Cxx.wrap_int (fl + 1), dg)
    | ECU.DEGRADED => (on, off, fl, Cxx.wrap_int (dg + 1))
    | ECU.INITIALIZING => (on, off, fl, dg)
    end.
Proof. intros <-. reflexivity. Qed.

(** The counters of [getStatus] over a list of entries. *)
Lemma countStatus_fold (l : list (string * ECU.t)) : forall on off fl dg : Z,
  0 <= on -> 0 <= off -> 0 <= fl -> 0 <= dg ->
  on + Z.of_nat (length l) <= Cxx.INT_MAX ->
  off + Z.of_nat (length l) <= Cxx.INT_MAX ->
  fl + Z.of_nat (length l) <= Cxx.INT_MAX ->
  dg + Z.of_nat (length l) <= Cxx.INT_MAX ->
  fold_left countStatus l (on, off, fl, dg)
  = (on + Z.of_nat (length (filter (fun p => ECU.getECUStatus p.2 = ECU.ONLINE) l)),
     off + Z.of_nat (length (filter (fun p => ECU.getECUStatus p.2 = ECU.OFFLINE) l)),
     fl + Z.of_nat (length (filter (fun p => ECU.getECUStatus p.2 = ECU.FAULT) l)),
     dg + Z.of_nat (length (filter (fun p => ECU.getECUStatus p.2 = ECU.DEGRADED) l))).
Proof.
  induction l as [| p l IH]; intros on off fl dg Hon Hoff Hfl Hdg Bon Boff Bfl Bdg.
  - cbn. now rewrite !Z.add_0_r.
  - cbn [fold_left length] in *. unfold Cxx.INT_MAX in *.
    rewrite (countStatus_step on off fl dg p _ eq_refl).
    destruct (ECU.getECUStatus p.2) eqn:Hs; status_filters Hs;
      rewrite ?wrap_int_in_range by (unfold Cxx.INT_MAX; lia);
      rewrite IH by lia; cbn [length];
      repeat match goal with |- (_, _) = (_, _) => apply f_equal2 end; lia.
Qed.

Lemma status_partition (l : list (string * ECU.t)) :
  (length (filter (fun p => ECU.getECUStatus p.2 = ECU.ONLINE) l)
   + length (filter (fun p => ECU.getECUStatus p.2 = ECU.OFFLINE) l)
   + length (filter (fun p => ECU.getECUStatus p.2 = ECU.FAULT) l)
   + length (filter (fun p => ECU.getECUStatus p.2 = ECU.DEGRADED) l)
   + length (filter (fun p => ECU.getECUStatus p.2 = ECU.INITIALIZING) l))%nat
  = length l.
Proof.
  induction l as [| p l IH]; [reflexivity |].
  destruct (ECU.getECUStatus p.2) eqn:Hs; status_filters Hs;
    cbn [length]; lia.
Qed.

End ManagerQueries.

(** The four counters behind the status line of [ECUManager::getStatus]
    are the numbers of registered ECUs that are online, offline, in fault and
    degraded; the online counter is what [getOnlineECUCount] returns; and
    the four add up to the number of registered ECUs less those that are
    initializing, which the status line does not mention.  (The counters are
    [int]s: fewer than 2^31 ECUs.) *)
Theorem getStatus_counts_registered_ecus (m : ECUManager.t) :
  Z.of_nat (ECUManager.getTotalECUCount m) <= Cxx.INT_MAX ->
  ECUManager.statusCounts m
    = (Z.of_nat (Vocabulary.statusCount ECU.ONLINE m),
       Z.of_nat (Vocabulary.statusCount ECU.OFFLINE m),
       Z.of_nat (Vocabulary.statusCount ECU.FAULT m),
       Z.of_nat (Vocabulary.statusCount ECU.DEGRADED m)) /\
  Vocabulary.statusCount ECU.ONLINE m = ECUManager.getOnlineECUCount m /\
  (Vocabulary.statusCount ECU.ONLINE m + Vocabulary.statusCount ECU.OFFLINE m
   + Vocabulary.statusCount ECU.FAULT m + Vocabulary.statusCount ECU.DEGRADED m
   + Vocabulary.statusCount ECU.INITIALIZING m)%nat
  = ECUManager.getTotalECUCount m.
Proof.
  unfold ECUManager.getTotalECUCount. intros Hsize.
  assert (Hperm : ECUManager.entries m ≡ₚ map_to_list (ECUManager.ecus_ m))
    by apply merge_sort_Permutation.
  assert (Hlen : length (ECUManager.entries m) = size (ECUManager.ecus_ m))
    by (rewrite Hperm; apply length_map_to_list).
  split; [| split].
  - unfold ECUManager.statusCounts, Vocabulary.statusCount.
    rewrite countStatus_fold;
      [ | lia | lia | lia | lia
        | rewrite Hlen; unfold Cxx.INT_MAX in *; lia
        | rewrite Hlen; unfold Cxx.INT_MAX in *; lia
        | rewrite Hlen; unfold Cxx.INT_MAX in *; lia
        | rewrite Hlen; unfold Cxx.INT_MAX in *; lia ].
    repeat match goal with |- (_, _) = (_, _) => apply f_equal2 end;
      rewrite Z.add_0_l; apply f_equal, Permutation_length, filter_Permutation, Hperm.
  - unfold Vocabulary.statusCount, ECUManager.getOnlineECUCount.
    f_equal. apply list_filter_iff. intros [id e]. cbn.
    unfold ECU.getECUStatus. destruct (ECU.status_ e); cbn; split; congruence.
  - unfold Vocabulary.statusCount.
    rewrite status_partition. apply length_map_to_list.
Qed.

(** Three ECUs, ECU02 degraded. *)
Lemma getStatus_counts_registered_ecus_witness :
  Z.of_nat (ECUManager.getTotalECUCount Scenario.managerDegraded) <= Cxx.INT_MAX /\
  ECUManager.statusCounts Scenario.managerDegraded = (2, 0, 0, 1) /\
  ECUManager.getStatus Scenario.managerDegraded
  = "ECUs: 2 online, 1 degraded, 0 fault, 0 offline".
Proof.
  assert (H : Z.of_nat (ECUManager.getTotalECUCount Scenario.managerDegraded)
              <= Cxx.INT_MAX) by (vm_compute; congruence).
  split; [exact H |].
  destruct (getStatus_counts_registered_ecus Scenario.managerDegraded H) as (Hcounts & _).
  split; [rewrite Hcounts |]; vm_compute; reflexivity.
Defined.

(** [getECUsByType] returns exactly the registered ECUs of the type asked
    for, each once, in ascending order of the ids they are registered
    under; none when no ECU of that type is registered. *)
Theorem getECUsByType_exact (type : ECU.ECUType) (m : ECUManager.t) :
  exists found : list (string * ECU.t),
    ECUManager.getECUsByType type m = found.*2 /\
    NoDup found.*1 /\
    StronglySorted (fun a b => String.leb a.1 b.1 = true) found /\
    (forall (id : string) (e : ECU.t),
       (id, e) ∈ found <-> ECUManager.getECU id m = Some e /\ ECU.getType e = type) /\
    (forall e : ECU.t,
       e ∈ ECUManager.getECUsByType type m
       <-> exists id : string, ECUManager.getECU id m = Some e /\ ECU.getType e = type).
Proof.
  exists (filter (fun p => ECU.getType p.2 = type) (ECUManager.entries m)).
  assert (Hmember : forall (id : string) (e : ECU.t),
             (id, e) ∈ filter (fun p => ECU.getType p.2 = type) (ECUManager.entries m)
             <-> ECUManager.getECU id m = Some e /\ ECU.getType e = type).
  { intros id e. rewrite list_elem_of_filter, entries_elem_of. cbn.
    unfold ECUManager.getECU. tauto. }
  split; [reflexivity |]. split; [| split; [| split; [exact Hmember |]]].
  - apply (NoDup_fmap_fst _).
    + intros id e1 e2 H1 H2. apply Hmember in H1 as [H1 _], H2 as [H2 _]. congruence.
    + apply NoDup_filter, entries_NoDup.
  - apply StronglySorted_filter, entries_sorted.
  - intros e. unfold ECUManager.getECUsByType. rewrite list_elem_of_fmap. split.
    + intros ([id e'] & -> & Hin). exists id. now apply Hmember.
    + intros (id & Hin). exists (id, e). split; [reflexivity | now apply Hmember].
Qed.


(** ** Telemetry: escaping of strings *)

Section JsonEscape.

Import TM_ControlSystem Vocabulary.

Lemma escaped_cases (c : ascii) :
  escaped c = true ->
  c = backslash \/ c = quote \/ c = ascii_of_nat 10 \/ c = ascii_of_nat 13
  \/ c = ascii_of_nat 9.
Proof.
  unfold escaped. rewrite !orb_true_iff, !Ascii.eqb_eq. tauto.
Qed.

Lemma escaped_none (c : ascii) :
  escaped c = false ->
  Ascii.eqb c backslash = false /\ Ascii.eqb c quote = false /\
  Ascii.eqb c (ascii_of_nat 10) = false /\ Ascii.eqb c (ascii_of_nat 13) = false /\
  Ascii.eqb c (ascii_of_nat 9) = false.
Proof.
  unfold escaped. rewrite !orb_false_iff. tauto.
Qed.

(** One character: either copied, or written as a backslash and a letter
    that [unescape] reads back. *)
Lemma jsonEscape_cons (c : ascii) (rest : string) :
  (escaped c = false /\ jsonEscape (String c rest) = String c (jsonEscape rest)) \/
  (escaped c = true /\
   exists d : ascii,
     jsonEscape (String c rest) = String backslash (String d (jsonEscape rest)) /\
     unescape d = Some c /\
     d <> ascii_of_nat 10 /\ d <> ascii_of_nat 13 /\ d <> ascii_of_nat 9).
Proof.
  destruct (escaped c) eqn:Hc.
  - right. split; [reflexivity |].
    destruct (escaped_cases c Hc) as [-> | [-> | [-> | [-> | ->]]]];
      eexists; (split; [reflexivity |]); (split; [reflexivity |]);
      repeat split; discriminate.
  - left. split; [reflexivity |].
    destruct (escaped_none c Hc) as (H1 & H2 & H3 & H4 & H5).
    cbn [jsonEscape]. now rewrite H1, H2, H3, H4, H5.
Qed.

Lemma jsonEscape_length (s : string) :
  String.length (jsonEscape s) = (String.length s + escapes s)%nat.
Proof.
  induction s as [| c rest IH]; [reflexivity |].
  destruct (jsonEscape_cons c rest) as [[Hc ->] | [Hc (d & -> & _)]];
    cbn [String.length escapes]; rewrite Hc, IH; lia.
Qed.

Lemma jsonEscape_unescape (s : string) : jsonUnescape (jsonEscape s) = Some s.
Proof.
  induction s as [| c rest IH]; [reflexivity |].
  destruct (jsonEscape_cons c rest) as [[Hc ->] | [Hc (d & -> & Hd & _)]].
  - destruct (escaped_none c Hc) as (H1 & H2 & _).
    cbn [jsonUnescape]. now rewrite H1, H2, IH.
  - cbn [jsonUnescape]. rewrite Ascii.eqb_refl, Hd, IH. reflexivity.
Qed.

End JsonEscape.

(** [jsonEscape] loses nothing: reading the five escapes back gives the
    string that was escaped, so two strings with the same escaped form are
    the same string. *)
Theorem jsonEscape_round_trip (s : string) :
  Vocabulary.jsonUnescape (TM_ControlSystem.jsonEscape s) = Some s /\
  (forall t : string,
     TM_ControlSystem.jsonEscape s = TM_ControlSystem.jsonEscape t -> s = t).
Proof.
  split; [apply jsonEscape_unescape |].
  intros t Heq.
  pose proof (jsonEscape_unescape s) as Hs.
  rewrite Heq, jsonEscape_unescape in Hs. congruence.
Qed.

(** The escaped form of a string holds no newline, carriage return or tab;
    it is longer than the string by the number of characters written with a
    backslash (so at most twice as long); and it is the string itself
    exactly when the string holds none of backslash, quote, newline,
    carriage return and tab.  Every other character, the other control
    characters included, is copied as it is. *)
Theorem jsonEscape_output_shape (s : string) :
  Forall (fun c => c <> ascii_of_nat 10 /\ c <> ascii_of_nat 13 /\ c <> ascii_of_nat 9)
         (list_ascii_of_string (TM_ControlSystem.jsonEscape s)) /\
  String.length (TM_ControlSystem.jsonEscape s)
  = (String.length s + Vocabulary.escapes s)%nat /\
  (String.length (TM_ControlSystem.jsonEscape s) <= 2 * String.length s)%nat /\
  (TM_ControlSystem.jsonEscape s = s <-> Vocabulary.escapes s = 0%nat) /\
  (forall (c : ascii) (rest : string),
     Vocabulary.escaped c = false ->
     TM_ControlSystem.jsonEscape (String c rest)
     = String c (TM_ControlSystem.jsonEscape rest)).
Proof.
  assert (Hcount : (Vocabulary.escapes s <= String.length s)%nat).
  { induction s as [| c rest IH]; cbn; [lia |]. destruct (Vocabulary.escaped c); lia. }
  split; [| split; [apply jsonEscape_length | split; [rewrite jsonEscape_length; lia |]]].
  - clear Hcount. induction s as [| c rest IH]; [constructor |].
    destruct (jsonEscape_cons c rest) as [[Hc ->] | [Hc (d & -> & _ & Hd)]];
      cbn [list_ascii_of_string].
    + constructor; [| exact IH].
      destruct (escaped_none c Hc) as (_ & _ & H3 & H4 & H5).
      rewrite Ascii.eqb_neq in H3, H4, H5. tauto.
    + constructor; [repeat split; discriminate |].
      constructor; [exact Hd | exact IH].
  - split.
    + split.
      * intros Hfix. pose proof (jsonEscape_length s) as Hlen.
        rewrite Hfix in Hlen. lia.
      * clear Hcount. induction s as [| c rest IH]; [reflexivity |].
        cbn [Vocabulary.escapes]. intros Hnone.
        destruct (Vocabulary.escaped c) eqn:Hc; [discriminate |].
        destruct (jsonEscape_cons c rest) as [[_ ->] | [Hc' _]]; [| congruence].
        now rewrite IH.
    + intros c rest Hc.
      destruct (jsonEscape_cons c rest) as [[_ ->] | [Hc' _]]; [reflexivity | congruence].
Qed.

(** ** Communication links *)

Section Links.

Import Vocabulary.

Lemma linkCall_received (c : ICommunicationInterface.t) (k : LinkCall) :
  received c = [] -> received (linkCall c k) = [].
Proof.
  destruct c as [[port baud connected tx rx] | x | x]; destruct k;
    try reflexivity; try tauto.
  - now destruct connected.
  - cbn. now intros ->.
Qed.

Lemma linkCalls_received (ks : list LinkCall) :
  forall c : ICommunicationInterface.t, received c = [] -> received (linkCalls ks c) = [].
Proof.
  unfold linkCalls.
  induction ks as [| k ks IH]; intros c Hc; [exact Hc |].
  cbn [fold_left]. apply IH, linkCall_received, Hc.
Qed.

Lemma freshLink_received (c : ICommunicationInterface.t) : freshLink c -> received c = [].
Proof.
  destruct c as [x | x | x]; cbn; [| reflexivity | reflexivity].
  now intros (port & baud & ->).
Qed.

Lemma receive_nothing (c : ICommunicationInterface.t) :
  received c = [] -> ICommunicationInterface.receive c = ([], c).
Proof.
  destruct c as [x | x | x]; cbn; [| reflexivity | reflexivity].
  unfold SerialInterface.receive. now intros ->.
Qed.

Lemma linkCall_pending (c : ICommunicationInterface.t) (k : LinkCall) :
  ICommunicationInterface.pending c `prefix_of` ICommunicationInterface.pending (linkCall c k).
Proof.
  destruct c as [[port baud connected tx rx] | x | x]; destruct k; try reflexivity.
  - destruct connected; cbn; [apply prefix_app_r |]; reflexivity.
  - now destruct rx.
Qed.

End Links.

(** Nothing fills the receive queue of a link: on a link as constructed,
    after any sequence of calls, [receive()] returns no bytes and leaves the
    link as it is. *)
Theorem link_never_receives (c : ICommunicationInterface.t) (ks : list Vocabulary.LinkCall) :
  Vocabulary.freshLink c ->
  ICommunicationInterface.receive (Vocabulary.linkCalls ks c)
  = ([], Vocabulary.linkCalls ks c).
Proof.
  intros Hfresh.
  apply receive_nothing, linkCalls_received, freshLink_received, Hfresh.
Qed.

(** The first serial link of main, initialized and sent three bytes. *)
Lemma link_never_receives_witness :
  (ICommunicationInterface.receive
     (Vocabulary.linkCalls
        [Vocabulary.LinkInitialize; Vocabulary.LinkSend [Byte.x01; Byte.x02; Byte.x03];
         Vocabulary.LinkUpdate]
        (ICommunicationInterface.Serial (SerialInterface.new "/dev/ttyACM0" 115200)))).1
  = [].
Proof.
  rewrite (link_never_receives
             (ICommunicationInterface.Serial (SerialInterface.new "/dev/ttyACM0" 115200))
             [Vocabulary.LinkInitialize; Vocabulary.LinkSend [Byte.x01; Byte.x02; Byte.x03];
              Vocabulary.LinkUpdate]).
  - reflexivity.
  - cbn. eauto.
Defined.

(** Nothing takes a packet off the transmit queue of a serial link: after
    any sequence of calls the queue begins with the packets it held before.
    [send] on a link that is not connected returns false and queues
    nothing; on a connected serial link it returns true and puts the packet
    at the end of the queue. *)
Theorem transmit_queue_only_grows
    (c : ICommunicationInterface.t) (ks : list Vocabulary.LinkCall) (data : list Byte.byte) :
  ICommunicationInterface.pending c
    `prefix_of` ICommunicationInterface.pending (Vocabulary.linkCalls ks c) /\
  (ICommunicationInterface.send data c).1 = ICommunicationInterface.isConnected c /\
  (ICommunicationInterface.isConnected c = false ->
   ICommunicationInterface.send data c = (false, c)) /\
  (forall x : SerialInterface.t,
     c = ICommunicationInterface.Serial x ->
     SerialInterface.isConnected x = true ->
     ICommunicationInterface.pending (ICommunicationInterface.send data c).2
     = SerialInterface.txQueue_ x ++ [data]).
Proof.
  split; [| split; [| split]].
  - unfold Vocabulary.linkCalls. revert c.
    induction ks as [| k ks IH]; intros c; [reflexivity |].
    cbn [fold_left]. etrans; [apply linkCall_pending | apply IH].
  - destruct c as [x | x | x]; cbn; try reflexivity.
    unfold SerialInterface.send, SerialInterface.isConnected.
    now destruct (SerialInterface.connected_ x).
  - destruct c as [x | x | x]; cbn;
      unfold SerialInterface.send, SerialInterface.isConnected,
        ModbusInterface.send, ModbusInterface.isConnected,
        TelemetryUplink.send, TelemetryUplink.isConnected; now intros ->.
  - intros x -> Hx. cbn. unfold SerialInterface.send, SerialInterface.isConnected in *.
    now rewrite Hx.
Qed.

(** Step 5 of the loop, on links whose receive queues are empty: no
    received data is reported, and every link is left as [send] of an empty
    packet leaves it, so that each connected serial link has one more empty
    packet queued and the other links are as they were. *)
Theorem communication_step_queues_empty_packets (links : list ICommunicationInterface.t) :
  Forall (fun c => Vocabulary.received c = []) links ->
  (TM_ControlSystem.communicationStep links).1 = replicate (length links) None /\
  (TM_ControlSystem.communicationStep links).2
  = (fun c => (ICommunicationInterface.send [] c).2) <$> links /\
  (forall (i : nat) (c : ICommunicationInterface.t),
     links !! i = Some c ->
     exists c' : ICommunicationInterface.t,
       (TM_ControlSystem.communicationStep links).2 !! i = Some c' /\
       ICommunicationInterface.isConnected c' = ICommunicationInterface.isConnected c /\
       Vocabulary.received c' = [] /\
       match c with
       | ICommunicationInterface.Serial x =>
           ICommunicationInterface.pending c'
           = if SerialInterface.isConnected x
             then SerialInterface.txQueue_ x ++ [[]]
             else SerialInterface.txQueue_ x
       | _ => c' = c
       end).
Proof.
  intros Hidle.
  assert (Hstep : TM_ControlSystem.communicationStep links
                  = (replicate (length links) None,
                     (fun c => (ICommunicationInterface.send [] c).2) <$> links)).
  { induction Hidle as [| c rest Hc _ IH]; [reflexivity |].
    cbn [TM_ControlSystem.communicationStep].
    assert (Hupdate : ICommunicationInterface.update c
                      = (ICommunicationInterface.isConnected c, c))
      by (destruct c as [x | x | x]; reflexivity).
    rewrite Hupdate. unfold TM_ControlSystem.processCommunication.
    rewrite (receive_nothing c Hc), IH.
    unfold TM_ControlSystem.buildTelemetryPacket.
    rewrite fmap_cons. now destruct (ICommunicationInterface.send [] c). }
  rewrite Hstep. cbn [fst snd]. split; [reflexivity |]. split; [reflexivity |].
  intros i c Hi. rewrite list_lookup_fmap, Hi. cbn.
  eexists. split; [reflexivity |].
  rewrite Forall_lookup in Hidle. specialize (Hidle i c Hi).
  destruct c as [x | x | x]; cbn in *;
    unfold SerialInterface.send, SerialInterface.isConnected,
      ModbusInterface.send, TelemetryUplink.send in *.
  - destruct (SerialInterface.connected_ x) eqn:Hx; cbn; rewrite ?Hx; auto.
  - auto.
  - auto.
Qed.

(** The links of main after [initialize]: the first serial link holds one
    empty packet after the step. *)
Lemma communication_step_queues_empty_packets_witness :
  ICommunicationInterface.pending
    <$> (TM_ControlSystem.communicationStep
           (TM_ControlSystem.initializeEach ICommunicationInterface.initialize
              Scenario.linksNew).2).2 !! 0%nat
  = Some [[]].
Proof.
  destruct (communication_step_queues_empty_packets
              (TM_ControlSystem.initializeEach ICommunicationInterface.initialize
                 Scenario.linksNew).2) as (_ & Hlinks & _).
  - repeat constructor.
  - rewrite Hlinks. reflexivity.
Defined.

(** ** The control loop *)

Section ControlLoop.

Import TM_ControlSystem Vocabulary.

(** What an iteration leaves behind, step by step. *)
Lemma iteration_after (clock : Clock) (fileOpens : bool) (st : t) :
  completed (iteration clock fileOpens st)
  = match SafetyMonitor.result (evaluation st) with Some _ => true | None => false end /\
  safetyMonitor_ (after (iteration clock fileOpens st))
  = SafetyMonitor.monitor (evaluation st) /\
  controlState_ (after (iteration clock fileOpens st)) = controlState_ st /\
  commInterfaces_ (after (iteration clock fileOpens st)) = commInterfaces_ st /\
  actuators_ (after (iteration clock fileOpens st))
  = (if completed (iteration clock fileOpens st)
     then updateActuators
            (runControlAlgorithms (controlState_ st)
               (SafetyMonitor.sensors (evaluation st))
               (SafetyMonitor.actuators (evaluation st))).2
     else SafetyMonitor.actuators (evaluation st)) /\
  ecuManager_ (after (iteration clock fileOpens st))
  = (if completed (iteration clock fileOpens st)
     then updateECUCommunicationStatus clock (commInterfaces_ st)
            (ECUManager.update (atUpdate clock) (ecuManager_ st)).2
     else (ECUManager.update (atUpdate clock) (ecuManager_ st)).2).
Proof.
  unfold iteration, evaluation.
  destruct (ECUManager.update _ _) as [allOK ecus1].
  destruct (readSensors _ _) as [[values ss1] c1]. cbn [fst snd].
  set (o := SafetyMonitor.update _ ss1 _).
  destruct (SafetyMonitor.result o) as [b |] eqn:Hresult.
  - destruct (runControlAlgorithms _ _ _) as [ss3 acts3].
    unfold writeTelemetrySnapshot.
    destruct fileOpens; cbn [negb]; [| cbn; now repeat split].
    cbn [sensors_]. destruct (sensorEntries ss3) as [entries ss5]. cbn. now repeat split.
  - now repeat split.
Qed.

(** Step 6 on the ECU registered under [id]. *)
Lemma observed_members (clock : Clock) (links : nat) (m : ECUManager.t) (id : string) :
  ECUManager.ecus_ (updateECUCommunicationStatus clock links m) !! id
  = (fun e => if (String.eqb id "ECU02" && (0 <? links)%nat)
                 || (String.eqb id "ECU03" && (1 <? links)%nat)
              then ECU.updateCommunicationTimestamp (atCommunication clock id) e
              else e) <$> ECUManager.ecus_ m !! id.
Proof.
  unfold updateECUCommunicationStatus, ECUManager.withECU.
  destruct (String.eqb_spec id "ECU02") as [E2 | H2];
    destruct (String.eqb_spec id "ECU03") as [E3 | H3]; try congruence;
    try subst id; destruct links as [| [| n]]; cbn;
    rewrite ?lookup_alter_eq, ?lookup_alter_ne by congruence;
    rewrite ?lookup_alter_eq;
    now destruct (ECUManager.ecus_ m !! _).
Qed.

Lemma observed_flag (clock : Clock) (links : nat) (m : ECUManager.t) :
  ECUManager.allECUsOnline_ (updateECUCommunicationStatus clock links m)
  = ECUManager.allECUsOnline_ m.
Proof.
  unfold updateECUCommunicationStatus, ECUManager.withECU.
  destruct links as [| [| n]]; reflexivity.
Qed.

(** The ECUs that step 6 does not observe are only ticked. *)
Lemma iteration_other_members (clock : Clock) (fileOpens : bool) (st : t) (id : string) :
  id <> "ECU02" -> id <> "ECU03" ->
  ECUManager.ecus_ (ecuManager_ (after (iteration clock fileOpens st))) !! id
  = (fun e => (ECU.update (atUpdate clock id) e).2) <$> ECUManager.ecus_ (ecuManager_ st) !! id.
Proof.
  intros H2 H3.
  destruct (iteration_after clock fileOpens st) as (_ & _ & _ & _ & _ & ->).
  destruct (completed _); [rewrite observed_members |]; rewrite update_members;
    [| reflexivity].
  apply String.eqb_neq in H2, H3. rewrite H2, H3. cbn.
  now destruct (ECUManager.ecus_ (ecuManager_ st) !! id).
Qed.

Lemma iterations_cons (tick : Clock * bool) (ticks : list (Clock * bool)) (st : t) :
  iterations (tick :: ticks) st = iterations ticks (after (iteration tick.1 tick.2 st)).
Proof. reflexivity. Qed.

End ControlLoop.

(** The loop refreshes the communication timestamp of ECU02 and ECU03
    only.  Every other ECU (the main controller, the VFDs, the hydraulic
    controllers) is only ticked by an iteration; so through any number of
    iterations its timestamp stays what it was, and once it is not online
    (degraded by its watchdog, or offline) it never changes status again. *)
Theorem loop_never_observes_other_ecus
    (ticks : list (TM_ControlSystem.Clock * bool)) (st : TM_ControlSystem.t)
    (id : string) (e : ECU.t) :
  id <> "ECU02" -> id <> "ECU03" ->
  ECUManager.getECU id (TM_ControlSystem.ecuManager_ st) = Some e ->
  (forall (clock : TM_ControlSystem.Clock) (fileOpens : bool),
     ECUManager.getECU id
       (TM_ControlSystem.ecuManager_
          (TM_ControlSystem.after (TM_ControlSystem.iteration clock fileOpens st)))
     = Some (ECU.update (TM_ControlSystem.atUpdate clock id) e).2) /\
  exists e' : ECU.t,
    ECUManager.getECU id (TM_ControlSystem.ecuManager_ (Vocabulary.iterations ticks st))
    = Some e' /\
    ECU.lastCommunication_ e' = ECU.lastCommunication_ e /\
    (ECU.getECUStatus e <> ECU.ONLINE -> ECU.getECUStatus e' = ECU.getECUStatus e).
Proof.
  intros H2 H3 He. unfold ECUManager.getECU in *. split.
  - intros clock fileOpens.
    now rewrite (iteration_other_members clock fileOpens st id H2 H3), He.
  - revert st e He.
    induction ticks as [| [clock fileOpens] ticks IH]; intros st e He.
    + exists e. auto.
    + rewrite iterations_cons. cbn [fst snd].
      destruct (IH (TM_ControlSystem.after (TM_ControlSystem.iteration clock fileOpens st))
                  (ECU.update (TM_ControlSystem.atUpdate clock id) e).2)
        as (e' & He' & Htime & Hstatus).
      { now rewrite (iteration_other_members clock fileOpens st id H2 H3), He. }
      exists e'. split; [exact He' |]. split.
      * rewrite Htime. unfold ECU.update. cbn.
        now destruct (ECU.timedOut _ e).
      * intros Hoff. unfold ECU.getECUStatus in *.
        destruct (update_not_online (TM_ControlSystem.atUpdate clock id) e Hoff)
          as [Hsame _].
        rewrite Hstatus; [exact Hsame | congruence].
Qed.

(** The ECUs of main, all online at time 0: a minute later one iteration
    leaves the VFD of the cutter head degraded, its timestamp still 0. *)
Lemma loop_never_observes_other_ecus_witness :
  (fun e => (ECU.getECUStatus e, ECU.lastCommunication_ e))
    <$> ECUManager.getECU "ECU04"
          (TM_ControlSystem.ecuManager_
             (TM_ControlSystem.after
                (TM_ControlSystem.iteration (Scenario.clockAt (Scenario.seconds 60)) true
                   Scenario.systemReady)))
  = Some (ECU.DEGRADED, 0).
Proof.
  destruct (loop_never_observes_other_ecus [] Scenario.systemReady "ECU04" _
              ltac:(discriminate) ltac:(discriminate) eq_refl) as [Hone _].
  rewrite Hone. reflexivity.
Defined.

(** A completed iteration marks ECU02 as heard from when the system has at
    least one link, and ECU03 when it has at least two, whether or not
    anything was received: if the ECU was online or degraded before the
    iteration it is online after it, its timestamp the time of step 6,
    however long it has been silent.  The aggregate flag is the one that
    step 0 computed, before this. *)
Theorem completed_iteration_marks_teensy_nodes_online
    (clock : TM_ControlSystem.Clock) (fileOpens : bool) (st : TM_ControlSystem.t)
    (id : string) (e : ECU.t) :
  TM_ControlSystem.completed (TM_ControlSystem.iteration clock fileOpens st) = true ->
  (id = "ECU02" /\ (1 <= TM_ControlSystem.commInterfaces_ st)%nat) \/
  (id = "ECU03" /\ (2 <= TM_ControlSystem.commInterfaces_ st)%nat) ->
  ECUManager.getECU id (TM_ControlSystem.ecuManager_ st) = Some e ->
  ECU.getECUStatus e = ECU.ONLINE \/ ECU.getECUStatus e = ECU.DEGRADED ->
  (exists e' : ECU.t,
     ECUManager.getECU id
       (TM_ControlSystem.ecuManager_
          (TM_ControlSystem.after (TM_ControlSystem.iteration clock fileOpens st)))
     = Some e' /\
     ECU.getECUStatus e' = ECU.ONLINE /\
     ECU.lastCommunication_ e' = TM_ControlSystem.atCommunication clock id /\
     ECU.getCommunicationErrors e'
     = ECU.getCommunicationErrors (ECU.update (TM_ControlSystem.atUpdate clock id) e).2) /\
  ECUManager.areAllECUsOnline
    (TM_ControlSystem.ecuManager_
       (TM_ControlSystem.after (TM_ControlSystem.iteration clock fileOpens st)))
  = ECUManager.areAllECUsOnline
      (ECUManager.update (TM_ControlSystem.atUpdate clock) (TM_ControlSystem.ecuManager_ st)).2.
Proof.
  intros Hdone Hid He Hstatus. unfold ECUManager.getECU, ECUManager.areAllECUsOnline in *.
  destruct (iteration_after clock fileOpens st) as (_ & _ & _ & _ & _ & ->).
  rewrite Hdone, observed_flag. split; [| reflexivity].
  assert (Hobserved : (String.eqb id "ECU02" && (0 <? TM_ControlSystem.commInterfaces_ st)%nat)
                      || (String.eqb id "ECU03" && (1 <? TM_ControlSystem.commInterfaces_ st)%nat)
                      = true).
  { destruct Hid as [[-> Hn] | [-> Hn]]; apply Nat.ltb_lt in Hn; rewrite Hn;
      [reflexivity | apply orb_true_r]. }
  rewrite observed_members, Hobserved, update_members, He. cbn [fmap option_fmap option_map].
  eexists. split; [reflexivity |].
  split; [| split; reflexivity].
  unfold ECU.getECUStatus in *.
  destruct (observed_status (TM_ControlSystem.atCommunication clock id)
              (ECU.update (TM_ControlSystem.atUpdate clock id) e).2) as (-> & _).
  unfold ECU.update. cbn.
  destruct (ECU.timedOut _ e); cbn; [reflexivity |].
  destruct Hstatus as [-> | ->]; reflexivity.
Qed.

(** The system of Scenario, every ECU heard from at time 0: the iteration a
    minute later times ECU02 out in step 0 and marks it online again in
    step 6, with one communication error counted and the aggregate flag
    false. *)
Lemma completed_iteration_marks_teensy_nodes_online_witness :
  (fun e => (ECU.getECUStatus e, ECU.getCommunicationErrors e))
    <$> ECUManager.getECU "ECU02"
          (TM_ControlSystem.ecuManager_
             (TM_ControlSystem.after
                (TM_ControlSystem.iteration (Scenario.clockAt (Scenario.seconds 60)) true
                   (Scenario.system (Scenario.sensorsWith (Scenario.depthSensor 10 []) 20)))))
  = Some (ECU.ONLINE, 1) /\
  ECUManager.areAllECUsOnline
    (TM_ControlSystem.ecuManager_
       (TM_ControlSystem.after
          (TM_ControlSystem.iteration (Scenario.clockAt (Scenario.seconds 60)) true
             (Scenario.system (Scenario.sensorsWith (Scenario.depthSensor 10 []) 20)))))
  = false.
Proof.
  destruct (completed_iteration_marks_teensy_nodes_online
              (Scenario.clockAt (Scenario.seconds 60)) true
              (Scenario.system (Scenario.sensorsWith (Scenario.depthSensor 10 []) 20))
              "ECU02" (ECU.initialize Scenario.ecu02).2)
    as [(e' & He' & Hstatus & _ & Herrors) Hflag].
  - reflexivity.
  - left. split; [reflexivity | cbn; lia].
  - reflexivity.
  - left. reflexivity.
  - rewrite He', Hflag. cbn. rewrite Hstatus, Herrors. split; reflexivity.
Defined.

(** ** The control loop: what reaches the actuators *)

Section Commands.

Import TM_ControlSystem Vocabulary.

Lemma setCommand_zero_atRest (a : IActuator.t) :
  atRest a -> atRest (IActuator.setCommand 0 a).2.
Proof.
  unfold atRest.
  destruct a as [[n c f lo hi lock en] | [n p tgt lock]]; cbn; intros [Hc Hz].
  - unfold MotorController.setCommand. cbn.
    destruct (negb en || lock); cbn; auto.
  - unfold HydraulicValve.setCommand. cbn. destruct lock; cbn; auto.
Qed.

Lemma update_atRest (a : IActuator.t) : atRest a -> atRest (IActuator.update a).2.
Proof.
  unfold atRest.
  destruct a as [[n c f lo hi lock en] | [n p tgt lock]]; cbn; intros [Hc Hz].
  - unfold MotorController.update. cbn.
    destruct (negb en || lock); cbn; auto.
  - unfold HydraulicValve.update. cbn. destruct lock; cbn; auto.
Qed.

Lemma commandAll_atRest (handles : list nat) (acts : list IActuator.t) :
  Forall atRest acts -> Forall atRest (SafetyMonitor.commandAll 0 handles acts).
Proof.
  rewrite !Forall_lookup. intros Hrest i a' Hi.
  rewrite (commandAll_commandedTo 0 handles acts i) in Hi.
  destruct (acts !! i) as [a |] eqn:Ha; [| discriminate].
  cbn in Hi. injection Hi as <-.
  destruct (bool_decide (i ∈ handles)); [apply setCommand_zero_atRest |]; eauto.
Qed.

(** An evaluation that leaves the system unsafe has commanded zero. *)
Lemma update_unsafe (m : SafetyMonitor.t) (ss : list ISensor.t) (acts : list IActuator.t) :
  SafetyMonitor.isSystemSafe (SafetyMonitor.monitor (SafetyMonitor.update m ss acts)) = false ->
  SafetyMonitor.result (SafetyMonitor.update m ss acts) = Some true /\
  SafetyMonitor.actuators (SafetyMonitor.update m ss acts)
  = SafetyMonitor.commandAll 0 (SafetyMonitor.controlledActuators_ m) acts.
Proof.
  unfold SafetyMonitor.update.
  destruct (SafetyMonitor.updateLoop _ _) as [[ls ss'] e].
  destruct e; cbn; [discriminate | auto | discriminate].
Qed.

Lemma evaluation_atRest (st : t) :
  Forall atRest (actuators_ st) ->
  Forall atRest (SafetyMonitor.actuators (evaluation st)).
Proof.
  intros Hrest. unfold evaluation, SafetyMonitor.update.
  destruct (SafetyMonitor.updateLoop _ _) as [[ls ss'] e].
  destruct e; cbn; [exact Hrest | now apply commandAll_atRest | exact Hrest].
Qed.

Lemma iteration_atRest (clock : Clock) (fileOpens : bool) (st : t) :
  autoDepthControl (controlState_ st) = false ->
  Forall atRest (actuators_ st) ->
  Forall atRest (actuators_ (after (iteration clock fileOpens st))).
Proof.
  intros Hoff Hrest.
  destruct (iteration_after clock fileOpens st) as (_ & _ & _ & _ & -> & _).
  apply evaluation_atRest in Hrest.
  destruct (completed _); [| exact Hrest].
  unfold runControlAlgorithms. rewrite Hoff. cbn [snd].
  unfold updateActuators. apply Forall_fmap.
  eapply Forall_impl; [exact Hrest |]. intros a. apply update_atRest.
Qed.

(** The command that the control step leaves in an actuator that accepts
    commands survives the actuator's update, whether or not the safety
    monitor has commanded the actuator to zero before. *)
Lemma command_after_zero (v : float) (a : IActuator.t) (zeroed : bool) :
  IActuator.hasInterlock a = false ->
  IActuator.isEnabled a = true ->
  IActuator.getCommand
    (IActuator.update
       (IActuator.setCommand v
          (if zeroed then (IActuator.setCommand 0 a).2 else a)).2).2
  = Cxx.clamp v (IActuator.minLimit a) (IActuator.maxLimit a).
Proof.
  destruct a as [[n c f lo hi lock en] | [n p tgt lock]]; cbn; intros -> Hen;
    rewrite ?Hen; destruct zeroed; reflexivity.
Qed.

End Commands.

(** With automatic depth control off, as the constructor leaves it, the
    loop never moves an actuator: if every actuator is at rest (its command
    is 0, and 0 is within its limits), then after any number of iterations,
    completed or not, every command is still 0 and the control state is
    what it was. *)
Theorem loop_never_moves_an_actuator
    (ticks : list (TM_ControlSystem.Clock * bool)) (st : TM_ControlSystem.t) :
  TM_ControlSystem.autoDepthControl (TM_ControlSystem.controlState_ st) = false ->
  Forall Vocabulary.atRest (TM_ControlSystem.actuators_ st) ->
  TM_ControlSystem.controlState_ (Vocabulary.iterations ticks st)
  = TM_ControlSystem.controlState_ st /\
  Forall (fun a => IActuator.getCommand a = 0%float)
         (TM_ControlSystem.actuators_ (Vocabulary.iterations ticks st)).
Proof.
  revert st. induction ticks as [| [clock fileOpens] ticks IH]; intros st Hoff Hrest.
  - split; [reflexivity |].
    eapply Forall_impl; [exact Hrest |]. now intros a [Hc _].
  - rewrite iterations_cons. cbn [fst snd].
    destruct (iteration_after clock fileOpens st) as (_ & _ & Hstate & _).
    destruct (IH (TM_ControlSystem.after (TM_ControlSystem.iteration clock fileOpens st)))
      as [Hkept Hzero].
    + now rewrite Hstate.
    + now apply iteration_atRest.
    + split; [now rewrite Hkept | exact Hzero].
Qed.

(** The system of main after [initialize], run for two iterations. *)
Lemma loop_never_moves_an_actuator_witness :
  Forall (fun a => IActuator.getCommand a = 0%float)
         (TM_ControlSystem.actuators_
            (Vocabulary.iterations
               [(Scenario.clockAt 0, true); (Scenario.clockAt (Scenario.seconds 1), true)]
               Scenario.systemReady)).
Proof.
  apply (loop_never_moves_an_actuator
           [(Scenario.clockAt 0, true); (Scenario.clockAt (Scenario.seconds 1), true)]
           Scenario.systemReady).
  - reflexivity.
  - repeat constructor.
Defined.

(** The control step reads the first sensor and commands the first
    actuator, and nothing else: the other sensors and actuators are as they
    were, and so are all of them when automatic depth control is off or no
    sensor is registered.  Otherwise the first actuator gets
    [setCommand((depthSetpoint - depth) * 0.5)], [depth] being the value
    this read of the first sensor returns. *)
Theorem control_step_drives_first_actuator_only
    (c : TM_ControlSystem.ControlState) (ss : list ISensor.t) (acts : list IActuator.t) :
  length (TM_ControlSystem.runControlAlgorithms c ss acts).1 = length ss /\
  length (TM_ControlSystem.runControlAlgorithms c ss acts).2 = length acts /\
  (forall i : nat,
     i <> 0%nat ->
     (TM_ControlSystem.runControlAlgorithms c ss acts).1 !! i = ss !! i /\
     (TM_ControlSystem.runControlAlgorithms c ss acts).2 !! i = acts !! i) /\
  (TM_ControlSystem.autoDepthControl c = false \/ ss = [] ->
   TM_ControlSystem.runControlAlgorithms c ss acts = (ss, acts)) /\
  (forall s : ISensor.t,
     TM_ControlSystem.autoDepthControl c = true ->
     ss !! 0%nat = Some s ->
     (TM_ControlSystem.runControlAlgorithms c ss acts).1 !! 0%nat
     = Some (ISensor.readValue s).2 /\
     (TM_ControlSystem.runControlAlgorithms c ss acts).2 !! 0%nat
     = (fun a => (IActuator.setCommand
                    ((TM_ControlSystem.depthSetpoint c - (ISensor.readValue s).1) * 0.5)%float
                    a).2) <$> acts !! 0%nat).
Proof.
  unfold TM_ControlSystem.runControlAlgorithms.
  destruct (TM_ControlSystem.autoDepthControl c).
  - destruct (ss !! 0%nat) as [s |] eqn:Hs.
    + destruct (ISensor.readValue s) as [depth s'] eqn:Hread. cbn [fst snd].
      split; [apply length_insert |].
      split; [destruct (acts !! 0%nat); [apply length_insert | reflexivity] |].
      split; [| split].
      * intros i Hi. split; [now apply list_lookup_insert_ne |].
        destruct (acts !! 0%nat); [now apply list_lookup_insert_ne | reflexivity].
      * intros [Hoff | ->]; discriminate.
      * intros s0 _ [= <-]. rewrite Hread. cbn [fst snd].
        split; [apply list_lookup_insert_eq; eapply lookup_lt_Some; eauto |].
        destruct (acts !! 0%nat) as [a |] eqn:Ha; [| exact Ha].
        apply list_lookup_insert_eq. eapply lookup_lt_Some; eauto.
    + cbn [fst snd]. split; [| split; [| split; [| split]]]; try reflexivity;
        [intros i _; split; reflexivity | intros s0 _ Hs0; congruence].
  - cbn [fst snd]. split; [| split; [| split; [| split]]]; try reflexivity;
      [intros i _; split; reflexivity | intros s0 Hon; discriminate].
Qed.

(** When an evaluation finds a violation while automatic depth control is
    on, the iteration goes on, and the control step that follows commands
    the first actuator again: if that actuator accepts commands, it ends
    the iteration with the depth controller's command, not with the 0 of
    the safety monitor, while the system is marked unsafe. *)
Theorem control_step_overrides_safety_zero
    (clock : TM_ControlSystem.Clock) (fileOpens : bool) (st : TM_ControlSystem.t)
    (s : ISensor.t) (a : IActuator.t) :
  TM_ControlSystem.autoDepthControl (TM_ControlSystem.controlState_ st) = true ->
  SafetyMonitor.isSystemSafe (SafetyMonitor.monitor (Vocabulary.evaluation st)) = false ->
  SafetyMonitor.sensors (Vocabulary.evaluation st) !! 0%nat = Some s ->
  TM_ControlSystem.actuators_ st !! 0%nat = Some a ->
  IActuator.hasInterlock a = false ->
  IActuator.isEnabled a = true ->
  TM_ControlSystem.completed (TM_ControlSystem.iteration clock fileOpens st) = true /\
  SafetyMonitor.isSystemSafe
    (TM_ControlSystem.safetyMonitor_
       (TM_ControlSystem.after (TM_ControlSystem.iteration clock fileOpens st))) = false /\
  IActuator.getCommand
    <$> TM_ControlSystem.actuators_
          (TM_ControlSystem.after (TM_ControlSystem.iteration clock fileOpens st)) !! 0%nat
  = Some (Cxx.clamp
            ((TM_ControlSystem.depthSetpoint (TM_ControlSystem.controlState_ st)
              - (ISensor.readValue s).1) * 0.5)%float
            (IActuator.minLimit a) (IActuator.maxLimit a)).
Proof.
  intros Hauto Hunsafe Hs Ha Hlock Hen.
  destruct (iteration_after clock fileOpens st) as (Hdone & -> & _ & _ & -> & _).
  destruct (update_unsafe _ _ _ Hunsafe) as [Hresult Hzeroed].
  fold (Vocabulary.evaluation st) in Hresult, Hzeroed.
  rewrite Hresult in Hdone. rewrite Hdone.
  split; [reflexivity |]. split; [exact Hunsafe |].
  unfold TM_ControlSystem.runControlAlgorithms, TM_ControlSystem.updateActuators.
  rewrite Hauto, Hs.
  destruct (ISensor.readValue s) as [depth s']. cbn [fst snd].
  rewrite Hzeroed.
  rewrite (commandAll_commandedTo 0 _ (TM_ControlSystem.actuators_ st) 0%nat), Ha.
  cbn [fmap option_fmap option_map].
  rewrite list_lookup_fmap, list_lookup_insert_eq.
  - cbn [fmap option_fmap option_map]. f_equal.
    apply (command_after_zero _ a _ Hlock Hen).
  - apply lookup_lt_is_Some.
    rewrite (commandAll_commandedTo 0 _ (TM_ControlSystem.actuators_ st) 0%nat), Ha.
    eauto.
Qed.

(** Water at 60 with the depth held at 30, the depth sensor at 10: the
    iteration marks the system unsafe and leaves the vertical thruster with
    the command (30 - 10) * 0.5. *)
Lemma control_step_overrides_safety_zero_witness :
  SafetyMonitor.isSystemSafe
    (TM_ControlSystem.safetyMonitor_
       (TM_ControlSystem.after
          (TM_ControlSystem.iteration (Scenario.clockAt 0) true Scenario.systemAuto))) = false /\
  IActuator.getCommand
    <$> TM_ControlSystem.actuators_
          (TM_ControlSystem.after
             (TM_ControlSystem.iteration (Scenario.clockAt 0) true Scenario.systemAuto)) !! 0%nat
  = Some 10%float.
Proof.
  destruct (control_step_overrides_safety_zero (Scenario.clockAt 0) true Scenario.systemAuto
              _ _ eq_refl eq_refl eq_refl eq_refl eq_refl eq_refl)
    as (_ & Hunsafe & Hcommand).
  split; [exact Hunsafe | exact Hcommand].
Defined.

(** ** Start and stop of the control system *)

Section StartStop.

Import TM_ControlSystem.

Lemma initializeEach_spec {A : Type} (init : A -> bool * A) (l : list A) :
  ((initializeEach init l).1 = true <-> Forall (fun x => (init x).1 = true) l) /\
  ((initializeEach init l).1 = true ->
   (initializeEach init l).2 = (fun x => (init x).2) <$> l).
Proof.
  induction l as [| x rest [IHiff IHdone]]; [now split |].
  cbn [initializeEach]. rewrite Forall_cons.
  destruct (init x) as [ok x'] eqn:Hx. destruct ok; cbn [negb fst snd].
  - destruct (initializeEach init rest) as [b rest']. cbn [fst snd] in *.
    split; [tauto |]. intros Hb. rewrite fmap_cons, Hx. cbn [snd].
    now rewrite (IHdone Hb).
  - split; [| discriminate]. split; [discriminate | intros [H _]; discriminate].
Qed.

Lemma initializeActuators_spec (init : IActuator.t -> bool * IActuator.t)
    (acts : list IActuator.t) :
  forall (next : nat) (monitor : SafetyMonitor.t),
    ((initializeActuators init acts next monitor).1.1 = true
     <-> Forall (fun a => (init a).1 = true) acts) /\
    ((initializeActuators init acts next monitor).1.1 = true ->
     (initializeActuators init acts next monitor).1.2 = (fun a => (init a).2) <$> acts /\
     (initializeActuators init acts next monitor).2
     = SafetyMonitor.mk (SafetyMonitor.limits_ monitor)
         (SafetyMonitor.controlledActuators_ monitor ++ seq next (length acts))
         (SafetyMonitor.systemSafe_ monitor) (SafetyMonitor.lastViolation_ monitor)).
Proof.
  induction acts as [| a rest IH]; intros next monitor.
  - cbn. rewrite app_nil_r. destruct monitor. now repeat split.
  - cbn [initializeActuators]. rewrite Forall_cons.
    destruct (init a) as [ok a'] eqn:Ha. destruct ok; cbn [negb fst snd].
    + destruct (IH (S next) (SafetyMonitor.addActuator next monitor)) as [IHiff IHdone].
      destruct (initializeActuators init rest (S next) _) as [[b rest'] monitor'].
      cbn [fst snd] in *.
      split; [tauto |]. intros Hb. destruct (IHdone Hb) as [-> ->].
      rewrite fmap_cons, Ha. cbn. now rewrite <- app_assoc.
    + split; [| discriminate]. split; [discriminate | intros [H _]; discriminate].
Qed.

Lemma manager_initialize_ok (m : ECUManager.t) : (ECUManager.initialize m).1 = true.
Proof.
  unfold ECUManager.initialize. cbn [fst].
  apply (allTrue_map (fun _ => true)).
  - intros id r Hr. rewrite lookup_fmap in Hr.
    destruct (ECUManager.ecus_ m !! id); [| discriminate].
    cbn in Hr. now injection Hr as <-.
  - intros id e _. reflexivity.
Qed.

(** The ECUs of [setupECUs] on a manager without ECUs: the seven ids, each
    ECU constructed at the time the clock gave for it. *)
Lemma setupECUs_members (now : string -> ECU.time_point) (name : string)
    (id : string) (e : ECU.t) :
  ECUManager.ecus_ (setupECUs now (ECUManager.new name)) !! id = Some e ->
  id ∈ ["ECU01"; "ECU02"; "ECU03"; "ECU04"; "ECU05"; "ECU06"; "ECU07"] /\
  ECU.getECUID e = id /\
  ECU.getECUStatus e = ECU.OFFLINE /\
  ECU.lastCommunication_ e = now id.
Proof.
  unfold setupECUs, ECUManager.addECU, ECUManager.new. cbn [ECUManager.ecus_].
  intros He.
  repeat (apply lookup_insert_Some in He as [[<- <-] | [_ He]];
          [split; [apply list_elem_of_In; cbn; tauto | repeat split] |]).
  now rewrite lookup_empty in He.
Qed.

(** [initialize] against the three loops. *)
Lemma initializeWith_spec
    (initSensor : ISensor.t -> bool * ISensor.t)
    (initActuator : IActuator.t -> bool * IActuator.t)
    (initLink : ICommunicationInterface.t -> bool * ICommunicationInterface.t)
    (now : string -> ECU.time_point)
    (links0 : list ICommunicationInterface.t) (st : t) :
  let r := initializeWith initSensor initActuator initLink now links0 st in
  (started r = true
   <-> Forall (fun s => (initSensor s).1 = true) (sensors_ st) /\
       Forall (fun a => (initActuator a).1 = true) (actuators_ st) /\
       Forall (fun c => (initLink c).1 = true) links0) /\
  (started r = true ->
   sensors_ (system r) = (fun s => (initSensor s).2) <$> sensors_ st /\
   actuators_ (system r) = (fun a => (initActuator a).2) <$> actuators_ st /\
   links r = (fun c => (initLink c).2) <$> links0 /\
   safetyMonitor_ (system r)
   = SafetyMonitor.mk
       (SafetyMonitor.limits_ (safetyMonitor_ st))
       (SafetyMonitor.controlledActuators_ (safetyMonitor_ st)
          ++ seq 0 (length (actuators_ st)))
       true (SafetyMonitor.lastViolation_ (safetyMonitor_ st))) /\
  (~ Forall (fun s => (initSensor s).1 = true) (sensors_ st) ->
   actuators_ (system r) = actuators_ st /\
   links r = links0 /\
   SafetyMonitor.controlledActuators_ (safetyMonitor_ (system r))
   = SafetyMonitor.controlledActuators_ (safetyMonitor_ st)) /\
  ecuManager_ (system r)
  = (ECUManager.initialize (setupECUs now (ECUManager.new "TBM ROV Control System"))).2.
Proof.
  intros r. subst r. unfold initializeWith.
  pose proof (manager_initialize_ok
                (setupECUs now (ECUManager.new "TBM ROV Control System"))) as Hok.
  destruct (ECUManager.initialize _) as [ok manager2]. cbn [fst snd] in Hok |- *.
  subst ok. cbn [negb]. unfold SafetyMonitor.initialize.
  destruct (initializeEach_spec initSensor (sensors_ st)) as [HSiff HSdone].
  destruct (initializeEach initSensor (sensors_ st)) as [okS sensors1].
  cbn [fst snd] in HSiff, HSdone.
  destruct okS; cbn [negb].
  - destruct (initializeActuators_spec initActuator (actuators_ st) 0%nat
                (SafetyMonitor.mk (SafetyMonitor.limits_ (safetyMonitor_ st))
                   (SafetyMonitor.controlledActuators_ (safetyMonitor_ st)) true
                   (SafetyMonitor.lastViolation_ (safetyMonitor_ st))))
      as [HAiff HAdone].
    destruct (initializeActuators initActuator (actuators_ st) 0%nat _)
      as [[okA actuators1] monitor2].
    cbn [fst snd] in HAiff, HAdone.
    destruct okA; cbn [negb].
    + destruct (initializeEach_spec initLink links0) as [HLiff HLdone].
      destruct (initializeEach initLink links0) as [okL links1].
      cbn [fst snd] in HLiff, HLdone.
      cbn [started system links sensors_ actuators_ safetyMonitor_ ecuManager_].
      split; [tauto |]. split; [| split; [tauto | reflexivity]].
      intros HL. destruct (HAdone eq_refl) as [-> ->].
      rewrite (HSdone eq_refl), (HLdone HL). now repeat split.
    + cbn [started system links sensors_ actuators_ safetyMonitor_ ecuManager_].
      split; [| split; [discriminate | split; [tauto | reflexivity]]].
      split; [discriminate |]. intros (_ & HA & _).
      apply HAiff in HA. discriminate.
  - cbn [started system links sensors_ actuators_ safetyMonitor_ ecuManager_
         SafetyMonitor.controlledActuators_].
    split; [| split; [discriminate | split; [now repeat split | reflexivity]]].
    split; [discriminate |]. intros (HS & _).
    apply HSiff in HS. discriminate.
Qed.

Lemma stop_actuators (handles : list nat) (acts : list IActuator.t) :
  SafetyMonitor.shutdownAll handles ((fun a => (IActuator.shutdown a).2) <$> acts)
  = (fun a => (IActuator.shutdown a).2) <$> acts.
Proof.
  apply list_eq. intros i.
  rewrite shutdownAll_lookup, list_lookup_fmap.
  destruct (acts !! i) as [a |]; [| reflexivity]. cbn.
  destruct (bool_decide (i ∈ handles)); [| reflexivity].
  now rewrite actuator_shutdown_idempotent.
Qed.

End StartStop.

(** [TM_ControlSystem::initialize], whatever classes the registered
    components are of ([initSensor], [initActuator], [initLink] being what
    their [initialize()] does): it returns true exactly when the
    [initialize()] of every registered sensor, actuator and link returns
    true.  When it returns true, every component is as its [initialize()]
    left it, and the safety monitor, marked safe, controls the actuators it
    controlled before followed by every registered actuator in registration
    order (so a second call registers each of them a second time).  When a
    sensor fails, no actuator and no link is initialized and no actuator is
    registered with the monitor.  In every case the manager holds the seven
    ECUs of [setupECUs], all online and with the aggregate flag set, each
    with the construction time as its communication timestamp.  With the
    component classes of this repository, none of whose [initialize()]
    returns false, the call returns true. *)
Theorem system_initialize_succeeds_iff_components_do
    (initSensor : ISensor.t -> bool * ISensor.t)
    (initActuator : IActuator.t -> bool * IActuator.t)
    (initLink : ICommunicationInterface.t -> bool * ICommunicationInterface.t)
    (now : string -> ECU.time_point) (links0 : list ICommunicationInterface.t)
    (st : TM_ControlSystem.t) :
  let r := TM_ControlSystem.initializeWith initSensor initActuator initLink now links0 st in
  (TM_ControlSystem.started r = true
   <-> Forall (fun s => (initSensor s).1 = true) (TM_ControlSystem.sensors_ st) /\
       Forall (fun a => (initActuator a).1 = true) (TM_ControlSystem.actuators_ st) /\
       Forall (fun c => (initLink c).1 = true) links0) /\
  (TM_ControlSystem.started r = true ->
   TM_ControlSystem.sensors_ (TM_ControlSystem.system r)
   = (fun s => (initSensor s).2) <$> TM_ControlSystem.sensors_ st /\
   TM_ControlSystem.actuators_ (TM_ControlSystem.system r)
   = (fun a => (initActuator a).2) <$> TM_ControlSystem.actuators_ st /\
   TM_ControlSystem.links r = (fun c => (initLink c).2) <$> links0 /\
   TM_ControlSystem.safetyMonitor_ (TM_ControlSystem.system r)
   = SafetyMonitor.mk
       (SafetyMonitor.limits_ (TM_ControlSystem.safetyMonitor_ st))
       (SafetyMonitor.controlledActuators_ (TM_ControlSystem.safetyMonitor_ st)
          ++ seq 0 (length (TM_ControlSystem.actuators_ st)))
       true
       (SafetyMonitor.lastViolation_ (TM_ControlSystem.safetyMonitor_ st))) /\
  (~ Forall (fun s => (initSensor s).1 = true) (TM_ControlSystem.sensors_ st) ->
   TM_ControlSystem.actuators_ (TM_ControlSystem.system r) = TM_ControlSystem.actuators_ st /\
   TM_ControlSystem.links r = links0 /\
   SafetyMonitor.controlledActuators_
     (TM_ControlSystem.safetyMonitor_ (TM_ControlSystem.system r))
   = SafetyMonitor.controlledActuators_ (TM_ControlSystem.safetyMonitor_ st)) /\
  ECUManager.getTotalECUCount
    (TM_ControlSystem.ecuManager_ (TM_ControlSystem.system r)) = 7%nat /\
  ECUManager.areAllECUsOnline
    (TM_ControlSystem.ecuManager_ (TM_ControlSystem.system r)) = true /\
  (forall (id : string) (e : ECU.t),
     ECUManager.getECU id (TM_ControlSystem.ecuManager_ (TM_ControlSystem.system r)) = Some e ->
     id ∈ ["ECU01"; "ECU02"; "ECU03"; "ECU04"; "ECU05"; "ECU06"; "ECU07"] /\
     ECU.getECUID e = id /\
     ECU.getECUStatus e = ECU.ONLINE /\
     ECU.lastCommunication_ e = now id) /\
  TM_ControlSystem.started (TM_ControlSystem.initialize now links0 st) = true.
Proof.
  intros r.
  destruct (initializeWith_spec initSensor initActuator initLink now links0 st)
    as (Hiff & Hdone & Hfailed & Hmanager).
  fold r in Hiff, Hdone, Hfailed, Hmanager.
  split; [exact Hiff |]. split; [exact Hdone |]. split; [exact Hfailed |].
  rewrite Hmanager.
  set (manager1 := TM_ControlSystem.setupECUs now (ECUManager.new "TBM ROV Control System")).
  assert (Hmembers : forall (id : string) (e : ECU.t),
             ECUManager.ecus_ (ECUManager.initialize manager1).2 !! id = Some e ->
             id ∈ ["ECU01"; "ECU02"; "ECU03"; "ECU04"; "ECU05"; "ECU06"; "ECU07"] /\
             ECU.getECUID e = id /\
             ECU.getECUStatus e = ECU.ONLINE /\
             ECU.lastCommunication_ e = now id).
  { intros id e He. rewrite initialize_members in He.
    destruct (ECUManager.ecus_ manager1 !! id) as [e0 |] eqn:He0; [| discriminate].
    cbn in He. injection He as <-.
    destruct (setupECUs_members now _ id e0 He0) as (Hid & Hkey & _ & Htime).
    repeat split; assumption. }
  split; [unfold manager1; vm_compute; reflexivity |].
  split; [unfold manager1; vm_compute; reflexivity |].
  split; [exact Hmembers |].
  unfold TM_ControlSystem.initialize.
  apply (initializeWith_spec ISensor.initialize IActuator.initialize
           ICommunicationInterface.initialize now links0 st).
  repeat split; apply Forall_forall.
  - intros [p | p | p] _; reflexivity.
  - intros [m | h] _; reflexivity.
  - intros [x | x | x] _; reflexivity.
Qed.

(** The system of main with a depth sensor of a class whose [initialize()]
    returns false: [initialize] returns false and leaves the actuators as
    constructed; with the classes of main it returns true. *)
Lemma system_initialize_succeeds_iff_components_do_witness :
  TM_ControlSystem.started
    (TM_ControlSystem.initializeWith (fun s => (false, s)) IActuator.initialize
       ICommunicationInterface.initialize (fun _ => 0) Scenario.linksNew Scenario.systemNew)
  = false /\
  TM_ControlSystem.actuators_
    (TM_ControlSystem.system
       (TM_ControlSystem.initializeWith (fun s => (false, s)) IActuator.initialize
          ICommunicationInterface.initialize (fun _ => 0) Scenario.linksNew
          Scenario.systemNew))
  = Scenario.actuatorsNew /\
  TM_ControlSystem.started
    (TM_ControlSystem.initialize (fun _ => 0) Scenario.linksNew Scenario.systemNew) = true.
Proof.
  pose proof (system_initialize_succeeds_iff_components_do
                (fun s => (false, s)) IActuator.initialize
                ICommunicationInterface.initialize (fun _ => 0) Scenario.linksNew
                Scenario.systemNew) as H.
  cbv zeta in H. destruct H as (Hiff & _ & Hfailed & _ & _ & _ & Hrepo).
  assert (Hsensor : ~ Forall (fun s : ISensor.t => (false, s).1 = true)
                      (TM_ControlSystem.sensors_ Scenario.systemNew)).
  { intros Hall. apply Forall_inv in Hall. discriminate. }
  split; [| split; [exact (proj1 (Hfailed Hsensor)) | exact Hrepo]].
  destruct (TM_ControlSystem.started _) eqn:Hstarted; [| reflexivity].
  exfalso. apply Hsensor. apply Hiff. reflexivity.
Defined.

(** [TM_ControlSystem::stop] before [initialize()] has created the logger
    goes through the null [logger_] and shuts nothing down.  Once the logger
    exists, it leaves every actuator as its own [shutdown] leaves it, with
    the command 0 (the shutdown of the safety monitor that follows reaches
    the registered ones a second time and changes nothing), every sensor
    unhealthy with its reading and history kept, every link disconnected
    with the packets it had queued, and every ECU offline with the aggregate
    flag false.  The safety monitor keeps its limits, its flag and its last
    violation. *)
Theorem stop_needs_logger_then_leaves_everything_off
    (links0 : list ICommunicationInterface.t) (st : TM_ControlSystem.t) :
  TM_ControlSystem.stop false links0 st = None /\
  exists (st' : TM_ControlSystem.t) (links' : list ICommunicationInterface.t),
    TM_ControlSystem.stop true links0 st = Some (st', links') /\
    TM_ControlSystem.actuators_ st'
    = (fun a => (IActuator.shutdown a).2) <$> TM_ControlSystem.actuators_ st /\
    Forall (fun a => IActuator.getCommand a = 0%float) (TM_ControlSystem.actuators_ st') /\
    TM_ControlSystem.sensors_ st'
    = (fun s => (ISensor.shutdown s).2) <$> TM_ControlSystem.sensors_ st /\
    Forall (fun s => ISensor.isHealthy s = false) (TM_ControlSystem.sensors_ st') /\
    Forall (fun c => ICommunicationInterface.isConnected c = false) links' /\
    ICommunicationInterface.pending <$> links'
    = ICommunicationInterface.pending <$> links0 /\
    ECUManager.areAllECUsOnline (TM_ControlSystem.ecuManager_ st') = false /\
    (forall id : string,
       ECUManager.getECU id (TM_ControlSystem.ecuManager_ st')
       = (fun e => ECU.with_status ECU.OFFLINE (ECU.getCommunicationErrors e) false e)
           <$> ECUManager.getECU id (TM_ControlSystem.ecuManager_ st)) /\
    TM_ControlSystem.safetyMonitor_ st' = TM_ControlSystem.safetyMonitor_ st.
Proof.
  split; [reflexivity |].
  unfold TM_ControlSystem.stop, ECUManager.shutdown, SafetyMonitor.shutdown.
  cbn [negb]. rewrite stop_actuators.
  eexists. eexists. split; [reflexivity |].
  cbn [TM_ControlSystem.actuators_ TM_ControlSystem.sensors_
       TM_ControlSystem.ecuManager_ TM_ControlSystem.safetyMonitor_].
  split; [reflexivity |].
  split; [apply Forall_fmap, Forall_forall; intros [m | h] _; reflexivity |].
  split; [reflexivity |].
  split; [apply Forall_fmap, Forall_forall; intros [p | p | p] _; reflexivity |].
  split; [apply Forall_fmap, Forall_forall; intros [x | x | x] _; reflexivity |].
  split.
  - rewrite <- list_fmap_compose. apply list_fmap_ext.
    intros i [x | x | x] _; reflexivity.
  - split; [reflexivity |]. split; [| reflexivity].
    intros id. unfold ECUManager.getECU. cbn [ECUManager.ecus_]. apply lookup_fmap.
Qed.
